(** * terraform-provider-utils: a shallow embedding of the provider's logic

    The provider is glue around two Google Cloud APIs and a Dart release
    listing.  This development embeds the pieces with behaviour of their
    own: the identifier helpers of [util.go], the CRUD handlers and their
    error paths, the polling loops of the tenant-project resource and the
    Dart-versions data source in its two variants. *)

From Stdlib Require Import ZArith Lia Ascii String Permutation Sorted.
From stdpp Require Import base option list strings gmap sets pretty.

Local Open Scope string_scope.
Local Open Scope list_scope.

(** ** Go's [strings] package, on byte strings *)

Module GoStrings.

(** Put a byte in front of the first piece of a split. *)
Definition cons_head (a : ascii) (ps : list string) : list string :=
  match ps with
  | [] => [String a ""]
  | p :: ps' => String a p :: ps'
  end.

(** [strings.Split(s, sep)] for a non-empty [sep] (every call site passes
    a literal): the pieces between the non-overlapping occurrences of
    [sep], scanning from the left.  [skip] counts the bytes of an
    occurrence that are still to be dropped. *)
Fixpoint Split_from (sep : string) (skip : nat) (s : string) : list string :=
  match s with
  | "" => [""]
  | String a s' =>
      match skip with
      | S k => Split_from sep k s'
      | O =>
          if String.prefix sep s
          then "" :: Split_from sep (String.length sep - 1) s'
          else cons_head a (Split_from sep 0 s')
      end
  end.

Definition Split (s sep : string) : list string := Split_from sep 0 s.

(** [strings.Contains(s, substr)]. *)
Fixpoint Contains (s substr : string) : bool :=
  String.prefix substr s ||
  match s with
  | "" => false
  | String _ s' => Contains s' substr
  end.

(** Number of occurrences of a byte, used to state facts about [Split]. *)
Fixpoint count_byte (c : ascii) (s : string) : nat :=
  match s with
  | "" => 0
  | String a s' => (if Ascii.eqb a c then 1 else 0) + count_byte c s'
  end.

End GoStrings.

(** ** Errors and gRPC status *)

Module codes.
Inductive Code :=
| OK | Canceled | Unknown | InvalidArgument | DeadlineExceeded | NotFound
| AlreadyExists | PermissionDenied | ResourceExhausted | FailedPrecondition
| Aborted | OutOfRange | Unimplemented | Internal | Unavailable | DataLoss
| Unauthenticated.

#[global] Instance Code_eq_dec : EqDecision Code.
Proof. solve_decision. Defined.
End codes.

(** A Go [error] value, by what the provider observes of it: its message
    and, when it carries one, its gRPC status. *)
Module status.
Record Status := mkStatus { Code : codes.Code; String : string }.
End status.

Record error := mkError {
  Error : string;
  GRPCStatus : option status.Status
}.

Module errors.
Definition New (msg : string) : error := mkError msg None.
End errors.

(** [status.FromError(err)] for a non-nil [err]: the status it carries and
    [true], or an [Unknown] status made of its message and [false]. *)
Definition status_FromError (err : error) : status.Status * bool :=
  match GRPCStatus err with
  | Some s => (s, true)
  | None => (status.mkStatus codes.Unknown (Error err), false)
  end.

(** [status.Code(err)] for a non-nil [err]. *)
Definition status_Code (err : error) : codes.Code :=
  match GRPCStatus err with
  | Some s => status.Code s
  | None => codes.Unknown
  end.

(** ** Diagnostics of the plugin framework *)

Module diag.
Inductive Severity := SeverityError | SeverityWarning.

Record Diagnostic := mkDiagnostic {
  Sev : Severity;
  Summary : string;
  Detail : string
}.

#[global] Instance Severity_eq_dec : EqDecision Severity.
Proof. solve_decision. Defined.
#[global] Instance Diagnostic_eq_dec : EqDecision Diagnostic.
Proof. solve_decision. Defined.

(** [Diagnostics] is a slice of diagnostics.  A handler owns the slice of
    its response; a helper that receives it as a plain argument works on
    a copy of the slice header, so what the helper appends never reaches
    the caller. *)
Abbreviation Diagnostics := (list Diagnostic).

Definition NewErrorDiagnostic (summary detail : string) : Diagnostic :=
  mkDiagnostic SeverityError summary detail.

Definition Contains (diags : Diagnostics) (d : Diagnostic) : bool :=
  bool_decide (d ∈ diags).

(** [Append] skips what the collection already holds. *)
Definition Append (diags : Diagnostics) (new : Diagnostics) : Diagnostics :=
  fold_left (fun acc d => if Contains acc d then acc else acc ++ [d]) new diags.

Definition AddError (diags : Diagnostics) (summary detail : string) : Diagnostics :=
  Append diags [NewErrorDiagnostic summary detail].

Definition is_error (d : Diagnostic) : bool :=
  bool_decide (Sev d = SeverityError).

Definition HasError (diags : Diagnostics) : bool := existsb is_error diags.
End diag.

(** ** Framework values *)

Module types.
Inductive String := StringNull | StringUnknown | StringValue (s : string).

Definition ValueString (v : String) : string :=
  match v with StringValue s => s | _ => "" end.

Definition IsNull (v : String) : bool :=
  match v with StringNull => true | _ => false end.

Definition IsUnknown (v : String) : bool :=
  match v with StringUnknown => true | _ => false end.

Inductive Bool := BoolNull | BoolUnknown | BoolValue (b : bool).

Definition ValueBool (v : Bool) : bool :=
  match v with BoolValue b => b | _ => false end.

(** A [types.List] of strings. *)
Inductive List := ListNull | ListUnknown | ListValue (elems : list String).

Definition List_IsNull (v : List) : bool :=
  match v with ListNull => true | _ => false end.

Definition List_IsUnknown (v : List) : bool :=
  match v with ListUnknown => true | _ => false end.

Fixpoint known_strings (elems : list String) : option (list string) :=
  match elems with
  | [] => Some []
  | StringValue s :: rest => cons s <$> known_strings rest
  | _ :: _ => None
  end.

(** [ElementsAs(ctx, &target, false)] into a [[]string] for a known
    list: every element has to be a known string.  On a diagnostic the
    target keeps its value. *)
Definition ElementsAs (v : List) (target : list string) : diag.Diagnostics * list string :=
  match v with
  | ListValue elems =>
      match known_strings elems with
      | Some l => ([], l)
      | None =>
          ([diag.NewErrorDiagnostic "Value Conversion Error"
              "unhandled null or unknown value"], target)
      end
  | _ => ([], target)
  end.

(** [types.ListValue(basetypes.StringType{}, attrs)] over strings. *)
Definition StringList (l : list string) : List := ListValue (StringValue <$> l).
End types.

(** ** util.go: composite identifiers *)

Definition parseConfigId (id : string) : string * string * option error :=
  let parts := GoStrings.Split id "/" in
  if negb (length parts =? 2)%nat
  then ("", "", Some (errors.New "ID must be in the format `{serviceName}/{configId}`"))
  else (parts !!! 0%nat, parts !!! 1%nat, None).

Definition newConfigId (serviceName configId : string) : types.String :=
  types.StringValue (serviceName +:+ "/" +:+ configId).

Definition parseRolloutId (id : string) : string * string * option error :=
  let parts := GoStrings.Split id "/" in
  if negb (length parts =? 2)%nat
  then ("", "", Some (errors.New "ID must be in the format `{serviceName}/{rolloutId}`"))
  else (parts !!! 0%nat, parts !!! 1%nat, None).

Definition newRolloutId (serviceName rolloutId : string) : types.String :=
  types.StringValue (serviceName +:+ "/" +:+ rolloutId).


(** ** Results, outcomes and the execution monad *)

(** A Go [(value, error)] pair, one of the two being nil. *)
Inductive result (A : Type) :=
| Success (a : A)
| Failure (e : error).
Arguments Success {A} a.
Arguments Failure {A} e.

(** How a handler ends: it returns, it panics, or (for the polling loops,
    which the model runs with a bound on the number of iterations) it is
    still running when the bound is reached. *)
Inductive Outcome (A : Type) :=
| Returns (a : A)
| Panics (msg : string)
| StillRunning.
Arguments Returns {A} a.
Arguments Panics {A} msg.
Arguments StillRunning {A}.

(** *** Remote data *)

Record ManagedService := mkManagedService {
  ms_ServiceName : string;
  ms_ProducerProjectId : string
}.

Inductive ConfigFile_FileType :=
| FILE_TYPE_UNSPECIFIED
| SERVICE_CONFIG_YAML
| OPEN_API_JSON
| OPEN_API_YAML
| FILE_DESCRIPTOR_SET_PROTO
| PROTO_FILE.

Record ConfigFile := mkConfigFile {
  FilePath : string;
  FileContents : string;
  FileType : ConfigFile_FileType
}.

(** A service configuration; each source file is held as the outcome of
    unpacking it ([sourceFile.UnmarshalTo]). *)
Record ServiceConfig := mkServiceConfig {
  sc_Name : string;
  sc_Id : string;
  sc_SourceFiles : list (result ConfigFile)
}.

(** A float64, by its IEEE-754 bit pattern; the provider only carries
    rollout percentages around. *)
Inductive float64 := Float64 (bits : Z).

(** The constant [100]. *)
Definition float64_100 : float64 := Float64 0x4059000000000000.

Record Rollout := mkRollout {
  ro_RolloutId : string;
  ro_Percentages : gmap string float64
}.

Record TenantResource := mkTenantResource {
  tr_Resource : string;
  tr_Status : string;
  tr_Tag : string
}.

Record TenancyUnit := mkTenancyUnit {
  tu_Name : string;
  tu_Service : string;
  tu_Consumer : string;
  tu_TenantResources : list TenantResource
}.

(** A long-running operation of the consumer-management API. *)
Record Operation := mkOperation {
  op_Name : string;
  op_Done : bool
}.

(** The tenant project configuration sent to the API; the provider only
    builds it and passes it on. *)
Record TenantProjectConfig := mkTenantProjectConfig {
  pc_Folder : string;
  pc_Labels : gmap string string;
  pc_Services : list string;
  pc_BillingAccount : string;
  pc_AccountId : string;
  pc_TenantProjectRoles : list string
}.

(** An HTTP request, by its base URL and its query parameters before
    encoding, in the key order [url.Values.Encode] gives them. *)
Record HttpRequest := mkHttpRequest {
  hr_URL : string;
  hr_Query : list (string * string)
}.

#[global] Instance HttpRequest_eq_dec : EqDecision HttpRequest.
Proof. solve_decision. Defined.

(** An HTTP response: status and the outcome of decoding the body as
    the listing [{prefixes: [...]}]. *)
Record HttpResponse := mkHttpResponse {
  StatusCode : Z;
  Status : string;
  Body_prefixes : result (list string)
}.

(** *** Calls that leave the process *)

Inductive Call : Type -> Type :=
| GetService (ServiceName : string) : Call (result ManagedService)
| CreateService (ServiceName ProducerProjectId : string) : Call (result string)
| CreateServiceOperation_Wait (op : string) : Call (result ManagedService)
| DeleteService (ServiceName : string) : Call (result string)
| DeleteServiceOperation_Wait (op : string) : Call (option error)
| GetServiceConfig (ServiceName ConfigId : string) : Call (result ServiceConfig)
| GetServiceRollout (ServiceName RolloutId : string) : Call (result Rollout)
| CreateServiceRollout (ServiceName : string) (Percentages : gmap string float64)
    : Call (result string)
| CreateServiceRolloutOperation_Wait (op : string) : Call (result Rollout)
| TenancyUnits_Create (parent TenancyUnitId : string) : Call (result TenancyUnit)
| TenancyUnits_List (parent : string) : Call (result (list TenancyUnit))
| TenancyUnits_Delete (name : string) : Call (result Operation)
| TenancyUnits_AddProject (parent tag : string) (cfg : option TenantProjectConfig)
    : Call (result Operation)
| TenancyUnits_ApplyProjectConfig (name tag : string) (cfg : option TenantProjectConfig)
    : Call (result Operation)
| TenancyUnits_RemoveProject (name tag : string) : Call (result Operation)
| Operations_Get (name : string) : Call (result Operation)
| time_Sleep (d : Z) : Call unit
| http_Get (req : HttpRequest) : Call (result HttpResponse).

(** A call without its answer type, as kept in the log. *)
Inductive Event := Called : forall R : Type, Call R -> Event.
Arguments Called {R} c.

(** The world outside: what a call answers, given the calls made before
    it.  Answers may change over time (a polled operation completes). *)
Definition World := forall R : Type, list Event -> Call R -> R.

(** Computations log their calls and may end in any [Outcome]. *)
Definition Exec (A : Type) : Type := World -> list Event -> Outcome A * list Event.

#[global] Instance Exec_ret : MRet Exec := fun A a _ log => (Returns a, log).

#[global] Instance Exec_bind : MBind Exec := fun A B k m w log =>
  match m w log with
  | (Returns a, log') => k a w log'
  | (Panics msg, log') => (Panics msg, log')
  | (StillRunning, log') => (StillRunning, log')
  end.

Definition panic {A} (msg : string) : Exec A := fun _ log => (Panics msg, log).

Definition still_running {A} : Exec A := fun _ log => (StillRunning, log).

Definition call {R} (c : Call R) : Exec R :=
  fun w log => (Returns (w R log c), log ++ [Called c]).

(** Run a computation from an empty log. *)
Definition run {A} (m : Exec A) (w : World) : Outcome A * list Event := m w [].

Module time.
Definition Second : Z := 1000000000.
End time.

(** Total time slept in a log, in nanoseconds. *)
Definition slept_in (e : Event) : Z :=
  match e with
  | Called (time_Sleep d) => d
  | _ => 0
  end.

Definition slept (log : list Event) : Z := foldr (fun e acc => slept_in e + acc)%Z 0%Z log.

(** ** Go's [strconv], [fmt] and [regexp], as far as the provider uses them *)

Module strconv.

Definition is_digit (a : ascii) : bool :=
  (48 <=? N_of_ascii a)%N && (N_of_ascii a <=? 57)%N.

Definition digit_val (a : ascii) : Z := (Z.of_N (N_of_ascii a) - 48)%Z.

(** Value of a string of decimal digits, [None] when a byte is not a
    digit.  [acc] is the value read so far. *)
Fixpoint digits_val (acc : Z) (s : string) : option Z :=
  match s with
  | "" => Some acc
  | String a s' =>
      if is_digit a then digits_val (10 * acc + digit_val a)%Z s' else None
  end.

Definition unsigned (s : string) : option Z :=
  match s with
  | "" => None
  | _ => digits_val 0%Z s
  end.

(** [strconv.ParseInt(s, 10, 64)]: an optional sign, at least one
    digit, nothing else, and a value that fits 64 bits; [None] stands
    for a syntax or range error. *)
Definition ParseInt (s : string) : option Z :=
  let signed :=
    match s with
    | String "+" s' => unsigned s'
    | String "-" s' => Z.opp <$> unsigned s'
    | _ => unsigned s
    end in
  match signed with
  | Some v => if ((-(2^63) <=? v) && (v <=? 2^63 - 1))%Z then Some v else None
  | None => None
  end.

(** [strconv.Atoi] on a 64-bit platform. *)
Definition Atoi (s : string) : option Z := ParseInt s.

End strconv.

Module fmt.
(** The verb [%d] on an integer. *)
Definition d (n : Z) : string := pretty n.

(** [fmt.Errorf] with a trailing [%w] or [%s]: a new error with the
    formatted message; it carries no gRPC status of its own. *)
Definition Errorf (msg : string) : error := mkError msg None.
End fmt.

Module regexp.

(** Drop a non-empty run of digits; [None] when there is no digit. *)
Fixpoint skip_digits (s : string) : string :=
  match s with
  | String a s' => if strconv.is_digit a then skip_digits s' else s
  | "" => ""
  end.

Definition digits1 (s : string) : option string :=
  match s with
  | String a s' => if strconv.is_digit a then Some (skip_digits s') else None
  | "" => None
  end.

Definition dot (s : string) : option string :=
  match s with
  | String "." s' => Some s'
  | _ => None
  end.

(** Does [\d+\.\d+\.\d+] match at the start of [s]?  A run of digits
    is never followed by a digit, so taking the whole run loses no
    match. *)
Definition triple_here (s : string) : bool :=
  bool_decide (is_Some (r ← digits1 s; r ← dot r; r ← digits1 r; r ← dot r; digits1 r)).

(** [versionRegex.Match]: the pattern is not anchored, it may match
    anywhere in [s]. *)
Fixpoint versionRegex_Match (s : string) : bool :=
  triple_here s ||
  match s with
  | "" => false
  | String _ s' => versionRegex_Match s'
  end.

End regexp.

Module base64.

Definition alphabet : string :=
  "ABCDEFGHIJKLMNOPQRSTUVWXYZabcdefghijklmnopqrstuvwxyz0123456789+/".

(** The character of a 6-bit value. *)
Definition enc (n : N) : ascii :=
  match String.get (N.to_nat n) alphabet with
  | Some a => a
  | None => "="%char
  end.

(** [StdEncoding.EncodeToString]: three bytes give four characters;
    a last group of one or two bytes is padded with [=]. *)
Fixpoint encode (fuel : nat) (s : string) : string :=
  match fuel with
  | O => ""
  | S fuel' =>
      match s with
      | "" => ""
      | String a "" =>
          let x := N_of_ascii a in
          String (enc (x / 4)) (String (enc (x mod 4 * 16)) "==")
      | String a (String b "") =>
          let x := N_of_ascii a in
          let y := N_of_ascii b in
          String (enc (x / 4))
            (String (enc (x mod 4 * 16 + y / 16))
               (String (enc (y mod 16 * 4)) "="))
      | String a (String b (String c s')) =>
          let x := N_of_ascii a in
          let y := N_of_ascii b in
          let z := N_of_ascii c in
          String (enc (x / 4))
            (String (enc (x mod 4 * 16 + y / 16))
               (String (enc (y mod 16 * 4 + z / 64))
                  (String (enc (z mod 64)) (encode fuel' s'))))
      end
  end%N.

Definition EncodeToString (src : string) : string := encode (String.length src) src.

End base64.

(** ** The semver package (github.com/coreos/go-semver), which the Dart
    data source uses for parsing, comparing and printing versions *)

Module semver.

Record Version := mkVersion {
  Major : Z;
  Minor : Z;
  Patch : Z;
  PreRelease : string;
  Metadata : string
}.

(** [strings.SplitN(s, sep, 2)] for a one-byte [sep]: the text before
    and after the first [sep], when there is one. *)
Fixpoint cut (sep : ascii) (s : string) : option (string * string) :=
  match s with
  | "" => None
  | String a s' =>
      if Ascii.eqb a sep then Some ("", s')
      else match cut sep s' with
           | Some (x, y) => Some (String a x, y)
           | None => None
           end
  end.

(** [splitOff(&input, delim)] returns the new [input] and the value. *)
Definition splitOff (input : string) (delim : ascii) : string * string :=
  match cut delim input with
  | Some (x, y) => (x, y)
  | None => (input, "")
  end.

Definition is_ident_byte (a : ascii) : bool :=
  let n := N_of_ascii a in
  ((48 <=? n) && (n <=? 57) || (65 <=? n) && (n <=? 90) ||
   (97 <=? n) && (n <=? 122) || (n =? 45))%N.

Fixpoint all_ident (s : string) : bool :=
  match s with
  | "" => true
  | String a s' => is_ident_byte a && all_ident s'
  end.

Definition nonempty_ident (s : string) : bool :=
  match s with "" => false | _ => all_ident s end.

(** [validateIdentifier]: empty, or dot-separated non-empty runs of
    letters, digits and hyphens. *)
Definition validateIdentifier (id : string) : bool :=
  match id with
  | "" => true
  | _ => forallb nonempty_ident (GoStrings.Split id ".")
  end.

(** [NewVersion]: [None] stands for the error. *)
Definition NewVersion (version : string) : option Version :=
  let '(version, metadata) := splitOff version "+" in
  let '(version, preRelease) := splitOff version "-" in
  match cut "." version with
  | None => None
  | Some (p0, rest) =>
      match cut "." rest with
      | None => None
      | Some (p1, p2) =>
          if negb (validateIdentifier preRelease) then None
          else if negb (validateIdentifier metadata) then None
          else
            major ← strconv.ParseInt p0;
            minor ← strconv.ParseInt p1;
            patch ← strconv.ParseInt p2;
            Some (mkVersion major minor patch preRelease metadata)
      end
  end.

(** [String]. *)
Definition String (v : Version) : string :=
  fmt.d (Major v) +:+ "." +:+ fmt.d (Minor v) +:+ "." +:+ fmt.d (Patch v) +:+
  (if bool_decide (PreRelease v = "") then "" else "-" +:+ PreRelease v) +:+
  (if bool_decide (Metadata v = "") then "" else "+" +:+ Metadata v).

Definition Slice (v : Version) : list Z := [Major v; Minor v; Patch v].

Definition PreRelease_Slice (p : string) : list string := GoStrings.Split p ".".

Fixpoint recursiveCompare (versionA versionB : list Z) : Z :=
  match versionA, versionB with
  | a :: versionA', b :: versionB' =>
      if (a >? b)%Z then 1%Z
      else if (a <? b)%Z then (-1)%Z
      else recursiveCompare versionA' versionB'
  | _, _ => 0%Z
  end.

(** One step of [recursivePreReleaseCompare] on the heads [a] and [b];
    [0] when the heads do not decide. *)
Definition compareIdentifier (a b : string) : Z :=
  match strconv.Atoi a, strconv.Atoi b with
  | Some _, None => (-1)%Z
  | None, Some _ => 1%Z
  | Some aI, Some bI =>
      if (aI >? bI)%Z then 1%Z
      else if (aI <? bI)%Z then (-1)%Z
      else if String.ltb b a then 1%Z
      else if String.ltb a b then (-1)%Z
      else 0%Z
  | None, None =>
      if String.ltb b a then 1%Z
      else if String.ltb a b then (-1)%Z
      else 0%Z
  end.

Fixpoint recursivePreReleaseCompare (versionA versionB : list string) : Z :=
  match versionA, versionB with
  | [], [] => 0%Z
  | [], _ :: _ => (-1)%Z
  | _ :: _, [] => 1%Z
  | a :: versionA', b :: versionB' =>
      let c := compareIdentifier a b in
      if (c =? 0)%Z then recursivePreReleaseCompare versionA' versionB' else c
  end.

Definition preReleaseCompare (versionA versionB : Version) : Z :=
  let a := PreRelease versionA in
  let b := PreRelease versionB in
  if (String.length a =? 0)%nat && (0 <? String.length b)%nat then 1%Z
  else if (String.length b =? 0)%nat && (0 <? String.length a)%nat then (-1)%Z
  else recursivePreReleaseCompare (PreRelease_Slice a) (PreRelease_Slice b).

Definition Compare (v versionB : Version) : Z :=
  let cmp := recursiveCompare (Slice v) (Slice versionB) in
  if negb (cmp =? 0)%Z then cmp else preReleaseCompare v versionB.

Definition LessThan (v versionB : Version) : bool := (Compare v versionB <? 0)%Z.

(** What [sort.Sort] leaves behind for the order [Versions.Less]: no
    later element is less than an earlier one. *)
Definition ascending (l : list Version) : Prop :=
  forall i j a b, (i < j)%nat -> l !! i = Some a -> l !! j = Some b -> LessThan b a = false.

End semver.

(** ** What the Go runtime and libraries leave open

    The order in which a [range] visits a map, the order in which the
    goroutines of a group reach the network and finish, and the sort
    behind [semver.Sort] (not stable) are taken as given. *)

Class GoLib := {
  rangeSet : gset string -> list string;
  rangeMap : gmap string float64 -> list (string * float64);
  startOrder : list string -> list string;
  finishOrder : list (string * result (list string)) -> list (string * result (list string));
  semver_Sort : list semver.Version -> list semver.Version
}.

(** What the runtime guarantees of them. *)
Class GoLibSpec (lib : GoLib) : Prop := {
  rangeSet_perm : forall s, rangeSet s ≡ₚ elements s;
  rangeMap_perm : forall m, rangeMap m ≡ₚ map_to_list m;
  startOrder_perm : forall l, startOrder l ≡ₚ l;
  finishOrder_perm : forall l, finishOrder l ≡ₚ l;
  semver_Sort_perm : forall l, semver_Sort l ≡ₚ l;
  semver_Sort_ascending : forall l, semver.ascending (semver_Sort l)
}.

(** [sort.Strings]: ascending byte order.  Strings are totally ordered,
    so the result does not depend on the algorithm. *)
Module sort.
Fixpoint insert (x : string) (l : list string) : list string :=
  match l with
  | [] => [x]
  | y :: l' => if String.leb x y then x :: l else y :: insert x l'
  end.

Definition Strings (l : list string) : list string := foldr insert [] l.
End sort.

(** ** Requests and responses of the plugin framework *)

Module tfsdk.
(** What [Plan.Get], [State.Get] or [Config.Get] yields: diagnostics
    and the decoded model. *)
Record Decoded (M : Type) := mkDecoded {
  Get_diags : diag.Diagnostics;
  Get_data : M
}.
Arguments mkDecoded {M} _ _.
Arguments Get_diags {M} _.
Arguments Get_data {M} _.

(** A response under construction: the diagnostics and the state, which
    is [None] when null.  [resp.State.Set] stores a model. *)
Record Response (M : Type) := mkResponse {
  Diagnostics : diag.Diagnostics;
  State : option M
}.
Arguments mkResponse {M} _ _.
Arguments Diagnostics {M} _.
Arguments State {M} _.

Definition Append {M} (resp : Response M) (new : diag.Diagnostics) : Response M :=
  mkResponse (diag.Append (Diagnostics resp) new) (State resp).

Definition AddError {M} (resp : Response M) (summary detail : string) : Response M :=
  mkResponse (diag.AddError (Diagnostics resp) summary detail) (State resp).

Definition HasError {M} (resp : Response M) : bool :=
  diag.HasError (Diagnostics resp).

(** [resp.Diagnostics.Append(resp.State.Set(ctx, &data)...)]; storing a
    model of the schema's own type yields no diagnostics. *)
Definition State_Set {M} (resp : Response M) (data : M) : Response M :=
  mkResponse (diag.Append (Diagnostics resp) []) (Some data).
End tfsdk.

Import tfsdk.

(** ** resource_service.go *)

Module ServiceResource.

Record ServiceResourceModel := mkModel {
  ServiceName : types.String;
  ProducerProjectId : types.String;
  DefaultTenancyUnit : types.String
}.

Definition Create (req_Plan : Decoded ServiceResourceModel)
    (resp : Response ServiceResourceModel) : Exec (Response ServiceResourceModel) :=
  let data := Get_data req_Plan in
  let resp := Append resp (Get_diags req_Plan) in
  if HasError resp then mret resp else
  r ← call (GetService (types.ValueString (ServiceName data)));
  match r with
  | Success _ =>
      mret (AddError resp "Service already exists"
              ("Service " +:+ types.ValueString (ServiceName data) +:+ " already exists"))
  | Failure err =>
      if negb (bool_decide (status_Code err = codes.NotFound))
         && negb (GoStrings.Contains (Error err) "not found")
      then mret (AddError resp "Error getting service" (Error err))
      else
        r ← call (CreateService (types.ValueString (ServiceName data))
                                (types.ValueString (ProducerProjectId data)));
        match r with
        | Failure err => mret (AddError resp "Error creating service" (Error err))
        | Success serviceOp =>
            r ← call (CreateServiceOperation_Wait serviceOp);
            match r with
            | Failure err => mret (AddError resp "Error creating service" (Error err))
            | Success service =>
                let data := mkModel (types.StringValue (ms_ServiceName service))
                                    (types.StringValue (ms_ProducerProjectId service))
                                    (DefaultTenancyUnit data) in
                mret (State_Set resp data)
            end
        end
  end.

Definition Read (req_State : Decoded ServiceResourceModel)
    (resp : Response ServiceResourceModel) : Exec (Response ServiceResourceModel) :=
  let data := Get_data req_State in
  let resp := Append resp (Get_diags req_State) in
  if HasError resp then mret resp else
  r ← call (GetService (types.ValueString (ServiceName data)));
  match r with
  | Failure err =>
      let '(st, ok) := status_FromError err in
      if ok && (bool_decide (status.Code st = codes.NotFound)
                || GoStrings.Contains (status.String st) "not found")
      then mret resp
      else mret (AddError resp "Could not retrieve service" (Error err))
  | Success service =>
      let data := mkModel (types.StringValue (ms_ServiceName service))
                          (types.StringValue (ms_ProducerProjectId service))
                          (DefaultTenancyUnit data) in
      mret (State_Set resp data)
  end.

Definition Update (resp : Response ServiceResourceModel)
    : Exec (Response ServiceResourceModel) :=
  panic "Updating a service is not supported".

Definition Delete (req_State : Decoded ServiceResourceModel)
    (resp : Response ServiceResourceModel) : Exec (Response ServiceResourceModel) :=
  let data := Get_data req_State in
  let resp := Append resp (Get_diags req_State) in
  if HasError resp then mret resp else
  r ← call (DeleteService (types.ValueString (ServiceName data)));
  match r with
  | Failure err => mret (AddError resp "Error deleting service" (Error err))
  | Success op =>
      r ← call (DeleteServiceOperation_Wait op);
      match r with
      | Some err => mret (AddError resp "Error deleting service" (Error err))
      | None =>
          mret (State_Set resp (mkModel types.StringNull types.StringNull types.StringNull))
      end
  end.

End ServiceResource.

(** ** resource_service_configuration.go and data_service_configuration.go *)

Definition ConfigFile_FileType_String (t : ConfigFile_FileType) : string :=
  match t with
  | FILE_TYPE_UNSPECIFIED => "FILE_TYPE_UNSPECIFIED"
  | SERVICE_CONFIG_YAML => "SERVICE_CONFIG_YAML"
  | OPEN_API_JSON => "OPEN_API_JSON"
  | OPEN_API_YAML => "OPEN_API_YAML"
  | FILE_DESCRIPTOR_SET_PROTO => "FILE_DESCRIPTOR_SET_PROTO"
  | PROTO_FILE => "PROTO_FILE"
  end.

Module ServiceConfigResource.

Record ServiceConfigResourceModel := mkModel {
  Id : types.String;
  ServiceName : types.String;
  ConfigYaml : types.String;
  ProtoDescriptorBase64 : types.String
}.

(** The loop of [Read] over the source files: an unpacking error ends
    the handler ([inl]), an unknown file type only adds a diagnostic. *)
Fixpoint readSourceFiles (sourceFiles : list (result ConfigFile))
    (data : ServiceConfigResourceModel) (resp : Response ServiceConfigResourceModel)
    : Response ServiceConfigResourceModel
      + ServiceConfigResourceModel * Response ServiceConfigResourceModel :=
  match sourceFiles with
  | [] => inr (data, resp)
  | Failure err :: _ =>
      inl (AddError resp "Could not unmarshal source file" (Error err))
  | Success file :: rest =>
      match FileType file with
      | FILE_DESCRIPTOR_SET_PROTO =>
          readSourceFiles rest
            (mkModel (Id data) (ServiceName data) (ConfigYaml data)
               (types.StringValue (base64.EncodeToString (FileContents file))))
            resp
      | SERVICE_CONFIG_YAML =>
          readSourceFiles rest
            (mkModel (Id data) (ServiceName data)
               (types.StringValue (FileContents file)) (ProtoDescriptorBase64 data))
            resp
      | t =>
          readSourceFiles rest data
            (AddError resp "Unknown file type"
               ("Unknown file type: " +:+ ConfigFile_FileType_String t))
      end
  end.

Definition Read (req_State : Decoded ServiceConfigResourceModel)
    (resp : Response ServiceConfigResourceModel)
    : Exec (Response ServiceConfigResourceModel) :=
  let data := Get_data req_State in
  let resp := Append resp (Get_diags req_State) in
  if HasError resp then mret resp else
  match parseConfigId (types.ValueString (Id data)) with
  | (_, _, Some err) => mret (AddError resp "Invalid config ID" (Error err))
  | (serviceName, configId, None) =>
      r ← call (GetServiceConfig serviceName configId);
      match r with
      | Failure err =>
          mret (AddError resp "Could not retrieve configuration for service" (Error err))
      | Success config =>
          let data := mkModel (newConfigId (sc_Name config) (sc_Id config))
                              (types.StringValue (sc_Name config))
                              (ConfigYaml data) (ProtoDescriptorBase64 data) in
          match readSourceFiles (sc_SourceFiles config) data resp with
          | inl resp => mret resp
          | inr (data, resp) => mret (State_Set resp data)
          end
      end
  end.

End ServiceConfigResource.

Module ServiceConfigDataSource.
Section with_marshal.

(** [protojson.Marshal] renders the configuration as JSON; it is taken
    as given. *)
Variable protojson_Marshal : ServiceConfig -> result string.

Record ServiceConfigDataSourceModel := mkModel {
  ID : types.String;
  ServiceConfigJSON : types.String
}.

Definition Read (req_Config : Decoded ServiceConfigDataSourceModel)
    (resp : Response ServiceConfigDataSourceModel)
    : Exec (Response ServiceConfigDataSourceModel) :=
  let data := Get_data req_Config in
  let resp := Append resp (Get_diags req_Config) in
  if HasError resp then mret resp else
  match parseConfigId (types.ValueString (ID data)) with
  | (_, _, Some err) => mret (AddError resp "Failed to parse config ID" (Error err))
  | (serviceName, configID, None) =>
      r ← call (GetServiceConfig serviceName configID);
      match r with
      | Failure err => mret (AddError resp "Failed to get service config" (Error err))
      | Success config =>
          match protojson_Marshal config with
          | Failure err =>
              mret (AddError resp "Failed to marshal service config" (Error err))
          | Success configJSON =>
              mret (State_Set resp (mkModel (ID data) (types.StringValue configJSON)))
          end
      end
  end.

End with_marshal.
End ServiceConfigDataSource.

(** ** resource_service_rollout.go *)

Module ServiceRolloutResource.
Section with_lib.
Context {lib : GoLib}.

(** A [types.Map] of float64 values. *)
Inductive types_Map := MapNull | MapUnknown | MapValue (m : gmap string float64).

Definition Map_IsNull (v : types_Map) : bool :=
  match v with MapNull => true | _ => false end.

(** [ElementsAs] into a Go map: an unknown value cannot be converted. *)
Definition Map_ElementsAs (v : types_Map) : diag.Diagnostics * gmap string float64 :=
  match v with
  | MapNull => ([], ∅)
  | MapUnknown =>
      ([diag.NewErrorDiagnostic "Map Type Validation Error"
          "unhandled unknown value"], ∅)
  | MapValue m => ([], m)
  end.

Record ServiceRolloutResourceModel := mkModel {
  Id : types.String;
  ConfigId : types.String;
  RolloutConfig : types_Map
}.

(** [types.MapValueFrom] on a Go map of float64: a nil map gives the
    null value, any other map the value holding its elements.  The
    percentages [Read] hands it come out of
    [GetTrafficPercentStrategy().GetPercentages()], which is the nil map
    whenever the rollout carries no percentage; so the map without
    entries stands for nil here. *)
Definition MapValueFrom (elements : gmap string float64) : types_Map :=
  if bool_decide (elements = ∅) then MapNull else MapValue elements.

(** The loop of [createRollout] over the configured percentages, in
    the order the map is visited. *)
Fixpoint collectPercentages (entries : list (string * float64))
    (serviceName : string) (percentages : gmap string float64)
    (diagnostics : diag.Diagnostics)
    : diag.Diagnostics + string * gmap string float64 :=
  match entries with
  | [] => inr (serviceName, percentages)
  | (k, v) :: rest =>
      match parseConfigId k with
      | (_, _, Some err) =>
          inl (diag.AddError diagnostics "Invalid config ID" (Error err))
      | (svcName, configId, None) =>
          if bool_decide (serviceName = "")
          then collectPercentages rest svcName (<[configId := v]> percentages) diagnostics
          else if negb (bool_decide (serviceName = svcName))
          then inl (diag.AddError diagnostics "Invalid config ID"
                      "All config IDs must be for the same service")
          else collectPercentages rest serviceName (<[configId := v]> percentages) diagnostics
      end
  end.

(** [createRollout] receives the diagnostics by value: it returns the
    rollout identifier, or nil; the second component is its own copy of
    the diagnostics as it stands on return, which no caller can see. *)
Definition createRollout (data : ServiceRolloutResourceModel)
    (diagnostics : diag.Diagnostics) : Exec (option types.String * diag.Diagnostics) :=
  let parsed : diag.Diagnostics + string * gmap string float64 :=
    if negb (types.IsNull (ConfigId data)) then
      match parseConfigId (types.ValueString (ConfigId data)) with
      | (_, _, Some err) =>
          inl (diag.AddError diagnostics "Invalid config ID" (Error err))
      | (svc, configId, None) => inr (svc, {[ configId := float64_100 ]})
      end
    else
      let '(diags, rawPercentages) := Map_ElementsAs (RolloutConfig data) in
      let diagnostics := diag.Append diagnostics diags in
      if diag.HasError diagnostics then inl diagnostics
      else collectPercentages (rangeMap rawPercentages) "" ∅ diagnostics
  in
  match parsed with
  | inl diagnostics => mret (None, diagnostics)
  | inr (serviceName, percentages) =>
      r ← call (CreateServiceRollout serviceName percentages);
      match r with
      | Failure err =>
          mret (None, diag.AddError diagnostics "Error creating service rollout" (Error err))
      | Success rolloutOp =>
          r ← call (CreateServiceRolloutOperation_Wait rolloutOp);
          match r with
          | Failure err =>
              mret (None, diag.AddError diagnostics "Error creating service rollout" (Error err))
          | Success rollout =>
              mret (Some (newRolloutId serviceName (ro_RolloutId rollout)), diagnostics)
          end
      end
  end.

(** [Create] and [Update] share their body but for the source of the
    model ([req.Config] and [req.Plan]).  The handler tests its own
    diagnostics after [createRollout], then dereferences the pointer. *)
Definition createOrUpdate (decoded : Decoded ServiceRolloutResourceModel)
    (resp : Response ServiceRolloutResourceModel)
    : Exec (Response ServiceRolloutResourceModel) :=
  let data := Get_data decoded in
  let resp := Append resp (Get_diags decoded) in
  if HasError resp then mret resp else
  '(rolloutId, _) ← createRollout data (Diagnostics resp);
  if HasError resp then mret resp else
  match rolloutId with
  | None => panic "runtime error: invalid memory address or nil pointer dereference"
  | Some id => mret (State_Set resp (mkModel id (ConfigId data) (RolloutConfig data)))
  end.

Definition Create (req_Config : Decoded ServiceRolloutResourceModel) :=
  createOrUpdate req_Config.

Definition Update (req_Plan : Decoded ServiceRolloutResourceModel) :=
  createOrUpdate req_Plan.

(** [Delete] is empty. *)
Definition Delete (resp : Response ServiceRolloutResourceModel)
    : Exec (Response ServiceRolloutResourceModel) := mret resp.

Definition Read (req_State : Decoded ServiceRolloutResourceModel)
    (resp : Response ServiceRolloutResourceModel)
    : Exec (Response ServiceRolloutResourceModel) :=
  let data := Get_data req_State in
  let resp := Append resp (Get_diags req_State) in
  if HasError resp then mret resp else
  if types.IsNull (Id data) then mret resp else
  match parseRolloutId (types.ValueString (Id data)) with
  | (_, _, Some err) => mret (AddError resp "Invalid ID" (Error err))
  | (serviceName, rolloutId, None) =>
      r ← call (GetServiceRollout serviceName rolloutId);
      match r with
      | Failure err =>
          let '(st, ok) := status_FromError err in
          if ok && bool_decide (status.Code st = codes.NotFound)
          then mret resp
          else mret (AddError resp "Error reading service rollout" (Error err))
      | Success rollout =>
          let rawRolloutConfig := ro_Percentages rollout in
          let rolloutConfig := MapValueFrom rawRolloutConfig in
          let resp := Append resp [] in
          if HasError resp then mret resp else
          let data :=
            if types.IsNull (ConfigId data) && Map_IsNull (RolloutConfig data) then
              if (size rawRolloutConfig =? 1)%nat then
                let configId := foldl (fun _ kv => kv.1) "" (rangeMap rawRolloutConfig) in
                mkModel (Id data) (newConfigId serviceName configId) (RolloutConfig data)
              else mkModel (Id data) (ConfigId data) rolloutConfig
            else if types.IsNull (ConfigId data) then
              mkModel (Id data) (ConfigId data) rolloutConfig
            else data in
          mret (State_Set resp data)
      end
  end.

End with_lib.
End ServiceRolloutResource.

(** ** resource_tenancy_unit.go *)

Module GoStringsFold.
(** Lower-case form of an ASCII letter. *)
Definition lower (a : ascii) : ascii :=
  let n := N_of_ascii a in
  if ((65 <=? n) && (n <=? 90))%N then ascii_of_N (n + 32) else a.

(** [strings.EqualFold] on ASCII text: equality up to the case of the
    letters A to Z.  Go folds by Unicode simple folding; the two agree
    when both strings are ASCII, as tenancy unit names (resource paths)
    are.  The theorems below use it by name only, so they hold for Go's
    folding as well; the examples run it on ASCII names. *)
Fixpoint EqualFold (s t : string) : bool :=
  match s, t with
  | "", "" => true
  | String a s', String b t' => Ascii.eqb (lower a) (lower b) && EqualFold s' t'
  | _, _ => false
  end.
End GoStringsFold.

Module ServiceTenancyUnitResource.

Record ServiceTenancyUnitModel := mkModel {
  ID : types.String;
  ServiceName : types.String;
  Consumer : types.String
}.

(** [getTenancyUnit] returns a pointer and an error; at most one of the
    two is non-nil. *)
Definition getTenancyUnit (id : string) : Exec (option TenancyUnit * option error) :=
  let parent := GoStrings.Split id "/tenancyUnits/" !!! 0%nat in
  r ← call (TenancyUnits_List parent);
  match r with
  | Failure err =>
      let '(st, ok) := status_FromError err in
      if ok && (bool_decide (status.Code st = codes.NotFound)
                || GoStrings.Contains (status.String st) "not found")
      then mret (None, None)
      else mret (None, Some err)
  | Success tenancyUnits =>
      mret (List.find (fun tu => GoStringsFold.EqualFold (tu_Name tu) id) tenancyUnits, None)
  end.

Definition Create (req_Plan : Decoded ServiceTenancyUnitModel)
    (resp : Response ServiceTenancyUnitModel) : Exec (Response ServiceTenancyUnitModel) :=
  let data := Get_data req_Plan in
  let resp := Append resp (Get_diags req_Plan) in
  if HasError resp then mret resp else
  let id :=
    if negb (types.IsUnknown (ID data)) && negb (types.IsNull (ID data))
    then types.ValueString (ID data) else "" in
  let parent := "services/" +:+ types.ValueString (ServiceName data) +:+ "/"
                +:+ types.ValueString (Consumer data) in
  r ← call (TenancyUnits_Create parent id);
  match r with
  | Failure err => mret (AddError resp "Error creating tenancy unit" (Error err))
  | Success tenancyUnit =>
      mret (State_Set resp
              (mkModel (types.StringValue (tu_Name tenancyUnit))
                       (ServiceName data) (Consumer data)))
  end.

Definition Read (req_State : Decoded ServiceTenancyUnitModel)
    (resp : Response ServiceTenancyUnitModel) : Exec (Response ServiceTenancyUnitModel) :=
  let data := Get_data req_State in
  let resp := Append resp (Get_diags req_State) in
  if HasError resp then mret resp else
  r ← getTenancyUnit (types.ValueString (ID data));
  match r with
  | (_, Some err) => mret (AddError resp "Error getting tenancy unit" (Error err))
  | (None, None) => mret resp
  | (Some tenancyUnit, None) =>
      mret (State_Set resp
              (mkModel (types.StringValue (tu_Name tenancyUnit))
                       (types.StringValue (tu_Service tenancyUnit))
                       (types.StringValue (tu_Consumer tenancyUnit))))
  end.

Definition Delete (req_State : Decoded ServiceTenancyUnitModel)
    (resp : Response ServiceTenancyUnitModel) : Exec (Response ServiceTenancyUnitModel) :=
  let data := Get_data req_State in
  let resp := Append resp (Get_diags req_State) in
  if HasError resp then mret resp else
  r ← call (TenancyUnits_Delete (types.ValueString (ID data)));
  match r with
  | Failure err => mret (AddError resp "Error deleting tenancy unit" (Error err))
  | Success _ => mret resp
  end.

End ServiceTenancyUnitResource.

(** ** The tenant-project resource (second part of util.go) *)

Module ServiceProjectResource.
Section with_config.

(** The decoded [project_config] attribute and its conversion
    [toProjectConfig] are framework plumbing and are taken as given.
    The conversion returns nil on a diagnostic; it is handed the
    response's diagnostics by value, so the handler never sees what
    the conversion adds. *)
Variable ServiceProjectConfigModel : Type.
Variable toProjectConfig : ServiceProjectConfigModel -> option TenantProjectConfig.

(** The [project_config] attribute as a [types.Object]; the handlers
    store it back as decoded. *)
Variable types_Object : Type.

Record ServiceProjectResourceModel := mkModel {
  ID : types.String;
  TenancyUnit : types.String;
  Tag : types.String;
  ProjectConfig : types_Object;
  Status : types.String
}.

Definition getTenantProject (tenancyUnitID tag : string)
    : Exec (option TenantResource * option error) :=
  r ← ServiceTenancyUnitResource.getTenancyUnit tenancyUnitID;
  match r with
  | (_, Some err) =>
      let '(s, ok) := status_FromError err in
      if ok && bool_decide (status.Code s = codes.NotFound)
         || GoStrings.Contains (Error err) "not found"
      then mret (None, None)
      else mret (None, Some err)
  | (None, None) => mret (None, None)
  | (Some tenancyUnit, None) =>
      mret (List.find (fun resource => bool_decide (tr_Tag resource = tag))
              (tu_TenantResources tenancyUnit), None)
  end.

(** The loop
    [for !op.Done { time.Sleep(5 * time.Second); op, err = Operations.Get(op.Name) ... }]
    that [Create], [Update] and [Delete] each spell out.  [fuel] bounds
    the number of iterations the model follows; the result is the
    completed operation or the error of the poll that failed. *)
Fixpoint awaitDone (fuel : nat) (op : Operation) : Exec (result Operation) :=
  if op_Done op then mret (Success op) else
  match fuel with
  | O => still_running
  | S fuel' =>
      call (time_Sleep (5 * time.Second));;
      r ← call (Operations_Get (op_Name op));
      match r with
      | Failure err => mret (Failure err)
      | Success op' => awaitDone fuel' op'
      end
  end.

(** One iteration of the loop as it shows in the log. *)
Definition poll_round (op : Operation) : list Event :=
  [Called (time_Sleep (5 * time.Second)); Called (Operations_Get (op_Name op))].

(** What follows the loop in [Create] and [Update]. *)
Definition storeProject (data : ServiceProjectResourceModel)
    (resp : Response ServiceProjectResourceModel)
    : Exec (Response ServiceProjectResourceModel) :=
  r ← getTenantProject (types.ValueString (TenancyUnit data))
                       (types.ValueString (Tag data));
  match r with
  | (_, Some err) => mret (AddError resp "Error getting project" (Error err))
  | (None, None) => panic "project not found"
  | (Some project, None) =>
      mret (State_Set resp
              (mkModel (types.StringValue (tr_Resource project))
                       (TenancyUnit data) (Tag data) (ProjectConfig data)
                       (types.StringValue (tr_Status project))))
  end.

Definition Create (fuel : nat)
    (req_Plan : Decoded ServiceProjectResourceModel)
    (req_Plan_project_config : Decoded ServiceProjectConfigModel)
    (resp : Response ServiceProjectResourceModel)
    : Exec (Response ServiceProjectResourceModel) :=
  let data := Get_data req_Plan in
  let resp := Append resp (Get_diags req_Plan) in
  if HasError resp then mret resp else
  let projectConfigModel := Get_data req_Plan_project_config in
  let resp := Append resp (Get_diags req_Plan_project_config) in
  if HasError resp then mret resp else
  let projectConfig := toProjectConfig projectConfigModel in
  if HasError resp then mret resp else
  let parent := types.ValueString (TenancyUnit data) in
  r ← call (TenancyUnits_AddProject parent (types.ValueString (Tag data)) projectConfig);
  match r with
  | Failure err => mret (AddError resp "Error adding project" (Error err))
  | Success op =>
      r ← awaitDone fuel op;
      match r with
      | Failure err => mret (AddError resp "Error getting operation" (Error err))
      | Success _ => storeProject data resp
      end
  end.

Definition Read (req_State : Decoded ServiceProjectResourceModel)
    (resp : Response ServiceProjectResourceModel)
    : Exec (Response ServiceProjectResourceModel) :=
  let data := Get_data req_State in
  let resp := Append resp (Get_diags req_State) in
  if HasError resp then mret resp else
  r ← getTenantProject (types.ValueString (TenancyUnit data))
                       (types.ValueString (Tag data));
  match r with
  | (_, Some err) => mret (AddError resp "Error getting project" (Error err))
  | (None, None) => mret resp
  | (Some project, None) =>
      mret (State_Set resp
              (mkModel (types.StringValue (tr_Resource project))
                       (TenancyUnit data) (Tag data) (ProjectConfig data)
                       (types.StringValue (tr_Status project))))
  end.

Definition Update (fuel : nat)
    (req_Plan : Decoded ServiceProjectResourceModel)
    (req_Plan_project_config : Decoded ServiceProjectConfigModel)
    (resp : Response ServiceProjectResourceModel)
    : Exec (Response ServiceProjectResourceModel) :=
  let data := Get_data req_Plan in
  let resp := Append resp (Get_diags req_Plan) in
  if HasError resp then mret resp else
  let projectConfigModel := Get_data req_Plan_project_config in
  let resp := Append resp (Get_diags req_Plan_project_config) in
  if HasError resp then mret resp else
  let projectConfig := toProjectConfig projectConfigModel in
  if HasError resp then mret resp else
  r ← call (TenancyUnits_ApplyProjectConfig (types.ValueString (TenancyUnit data))
              (types.ValueString (Tag data)) projectConfig);
  match r with
  | Failure err => mret (AddError resp "Error updating project" (Error err))
  | Success op =>
      r ← awaitDone fuel op;
      match r with
      | Failure err => mret (AddError resp "Error getting operation" (Error err))
      | Success _ => storeProject data resp
      end
  end.

Definition Delete (fuel : nat)
    (req_State : Decoded ServiceProjectResourceModel)
    (resp : Response ServiceProjectResourceModel)
    : Exec (Response ServiceProjectResourceModel) :=
  let data := Get_data req_State in
  let resp := Append resp (Get_diags req_State) in
  if HasError resp then mret resp else
  r ← call (TenancyUnits_RemoveProject (types.ValueString (TenancyUnit data))
              (types.ValueString (Tag data)));
  match r with
  | Failure err => mret (AddError resp "Error removing project" (Error err))
  | Success op =>
      r ← awaitDone fuel op;
      match r with
      | Failure err => mret (AddError resp "Error getting operation" (Error err))
      | Success _ => mret resp
      end
  end.

End with_config.

Arguments mkModel {types_Object} _ _ _ _ _.
Arguments ID {types_Object} _.
Arguments TenancyUnit {types_Object} _.
Arguments Tag {types_Object} _.
Arguments ProjectConfig {types_Object} _.
Arguments Status {types_Object} _.
Arguments storeProject {types_Object} _ _.
Arguments Create {ServiceProjectConfigModel} toProjectConfig {types_Object} _ _ _ _.
Arguments Read {types_Object} _ _.
Arguments Update {ServiceProjectConfigModel} toProjectConfig {types_Object} _ _ _ _.
Arguments Delete {types_Object} _ _ _.
End ServiceProjectResource.

(** ** The Dart-versions data source *)


Module DartVersions.

(** The goroutine that waits for the group: it adds the first error,
    if any, to the diagnostics before it closes the channel. *)
Definition reported {M} (resp : Response M) (first : option error) : Response M :=
  match first with
  | Some err => AddError resp "Failed to list versions" (Error err)
  | None => resp
  end.

Section with_lib.
Context {lib : GoLib}.

Definition bucket : string := "https://www.googleapis.com/storage/v1/b/dart-archive/o".

Definition listing_request (channel : string) : HttpRequest :=
  mkHttpRequest bucket
    [("delimiter", "/"); ("prefix", "channels/" +:+ channel +:+ "/release/")].

(** The first path segment of a prefix that looks like a version. *)
Definition version_of_prefix (prefix : string) : option string :=
  List.find regexp.versionRegex_Match (GoStrings.Split prefix "/").

Definition listVersions (channel : string) : Exec (result (list string)) :=
  r ← call (http_Get (listing_request channel));
  match r with
  | Failure err =>
      mret (Failure (fmt.Errorf ("failed to list " +:+ channel +:+ " versions: "
                                 +:+ Error err)))
  | Success resp =>
      if negb (StatusCode resp =? 200)%Z
      then mret (Failure (fmt.Errorf ("failed to list " +:+ channel +:+ " versions: "
                                      +:+ Status resp)))
      else
        match Body_prefixes resp with
        | Failure err =>
            mret (Failure (fmt.Errorf ("failed to decode " +:+ channel +:+ " response: "
                                       +:+ Error err)))
        | Success prefixes => mret (Success (omap version_of_prefix prefixes))
        end
  end.

(** One goroutine per channel.  The goroutines reach the network in
    some order and finish in some order; the result pairs every channel
    with what its [listVersions] returned, in the order of finishing. *)
Fixpoint goroutines (channels : list string)
    : Exec (list (string * result (list string))) :=
  match channels with
  | [] => mret []
  | channel :: rest =>
      r ← listVersions channel;
      rs ← goroutines rest;
      mret ((channel, r) :: rs)
  end.

Definition fanOut (channels : list string)
    : Exec (list (string * result (list string))) :=
  rs ← goroutines (startOrder channels);
  mret (finishOrder rs).

(** [eg.Wait()]: the first non-nil error returned by a goroutine. *)
Fixpoint Wait (finished : list (string * result (list string))) : option error :=
  match finished with
  | [] => None
  | (_, Failure err) :: _ => Some err
  | (_, Success _) :: rest => Wait rest
  end.

(** The receiving loop: what the successful goroutines sent, merged
    into [versionsSet]. *)
Fixpoint receive (finished : list (string * result (list string)))
    (versionsSet : gset string) : gset string :=
  match finished with
  | [] => versionsSet
  | (_, Failure _) :: rest => receive rest versionsSet
  | (_, Success versions) :: rest => receive rest (versionsSet ∪ list_to_set versions)
  end.

(** [semver.New] panics on a string that does not parse. *)
Definition semver_New (version : string) : Exec semver.Version :=
  match semver.NewVersion version with
  | Some v => mret v
  | None => panic ("semver: cannot parse " +:+ version)
  end.

(** The filtering loop, over the keys of [versionsSet] in the order
    the map is visited.  [includePrerelease = None] is the variant
    without that attribute. *)
Fixpoint retain (minVersion : semver.Version) (includePrerelease : option bool)
    (keys : list string) (versions : list semver.Version)
    : Exec (list semver.Version) :=
  match keys with
  | [] => mret versions
  | version :: keys' =>
      semversion ← semver_New version;
      if semver.LessThan semversion minVersion
      then retain minVersion includePrerelease keys' versions
      else
        match includePrerelease with
        | Some false =>
            if negb (bool_decide (semver.PreRelease semversion = ""))
            then retain minVersion includePrerelease keys' versions
            else retain minVersion includePrerelease keys' (versions ++ [semversion])
        | _ => retain minVersion includePrerelease keys' (versions ++ [semversion])
        end
  end.

(** The name a version contributes to [containerVersionSet]. *)
Definition containerVersion (version : semver.Version) : string :=
  if negb (bool_decide (semver.PreRelease version = ""))
  then semver.String version
  else fmt.d (semver.Major version) +:+ "." +:+ fmt.d (semver.Minor version).

Definition containerVersionSet (versions : list semver.Version) : gset string :=
  foldl (fun set version => set ∪ {[ containerVersion version ]}) ∅ versions.

Definition containerVersions (versions : list semver.Version) : list string :=
  sort.Strings (rangeSet (containerVersionSet versions)).

(** *** The variant with [include_prerelease] and [container_versions] *)

Record ContainerModel := mkContainerModel {
  c_SdkType : types.String;
  c_MinVersion : types.String;
  c_IncludePrerelease : types.Bool;
  c_ID : types.String;
  c_Versions : types.List;
  c_ContainerVersions : types.List
}.

Definition fixed_channels : list string := ["stable"; "beta"; "dev"].

Definition ReadContainers (req_Config : Decoded ContainerModel)
    (resp : Response ContainerModel) : Exec (Response ContainerModel) :=
  let model := Get_data req_Config in
  let resp := Append resp (Get_diags req_Config) in
  if HasError resp then mret resp else
  let channels := fixed_channels in
  finished ← fanOut channels;
  let resp := reported resp (Wait finished) in
  let versionsSet := receive finished ∅ in
  minVersion ← semver_New (types.ValueString (c_MinVersion model));
  let includePrerelease := types.ValueBool (c_IncludePrerelease model) in
  versions ← retain minVersion (Some includePrerelease) (rangeSet versionsSet) [];
  let versions := semver_Sort versions in
  let versionAttrs := semver.String <$> versions in
  let containerVersionAttrs := containerVersions versions in
  let ID := types.StringValue (types.ValueString (c_SdkType model) +:+ "/"
                               +:+ types.ValueString (c_MinVersion model)) in
  let resp := Append resp [] in
  let resp := Append resp [] in
  mret (State_Set resp
          (mkContainerModel (c_SdkType model) (c_MinVersion model)
             (types.BoolValue includePrerelease) ID
             (types.StringList versionAttrs)
             (types.StringList containerVersionAttrs))).

(** *** The variant with [channels] *)

Record ChannelModel := mkChannelModel {
  SdkType : types.String;
  MinVersion : types.String;
  Channels : types.List;
  ID : types.String;
  Versions : types.List
}.

(** The channels to list: [stable] unless [channels] is configured. *)
Definition effective_channels (model : ChannelModel)
    : diag.Diagnostics * list string :=
  let channels := ["stable"] in
  if negb (types.List_IsUnknown (Channels model))
     && negb (types.List_IsNull (Channels model))
  then types.ElementsAs (Channels model) channels
  else ([], channels).

Definition ReadChannels (req_Config : Decoded ChannelModel)
    (resp : Response ChannelModel) : Exec (Response ChannelModel) :=
  let model := Get_data req_Config in
  let resp := Append resp (Get_diags req_Config) in
  if HasError resp then mret resp else
  let '(diags, channels) := effective_channels model in
  let resp := Append resp diags in
  if HasError resp then mret resp else
  finished ← fanOut channels;
  let resp := reported resp (Wait finished) in
  let versionsSet := receive finished ∅ in
  minVersion ← semver_New (types.ValueString (MinVersion model));
  versions ← retain minVersion None (rangeSet versionsSet) [];
  let versions := semver_Sort versions in
  let versionAttrs := semver.String <$> versions in
  let ID := types.StringValue (types.ValueString (SdkType model) +:+ "/"
                               +:+ types.ValueString (MinVersion model)) in
  let resp := Append resp [] in
  mret (State_Set resp
          (mkChannelModel (SdkType model) (MinVersion model) (Channels model) ID
             (types.StringList versionAttrs))).

End with_lib.
End DartVersions.

(** ** One admissible runtime, for running the model

    Maps are visited in the order of [elements], the goroutines run one
    after the other, and versions are sorted by insertion. *)

Module sequential.

Fixpoint insert (v : semver.Version) (l : list semver.Version) : list semver.Version :=
  match l with
  | [] => [v]
  | w :: l' => if semver.LessThan v w then v :: l else w :: insert v l'
  end.

Definition Sort (l : list semver.Version) : list semver.Version := foldr insert [] l.

Definition lib : GoLib := {|
  rangeSet := elements;
  rangeMap := map_to_list;
  startOrder := fun l => l;
  finishOrder := fun l => l;
  semver_Sort := Sort
|}.

End sequential.

(** ** Worlds for running the model *)

Module worlds.

Definition unavailable : error :=
  mkError "rpc error: code = Unavailable desc = unavailable"
    (Some (status.mkStatus codes.Unavailable
             "rpc error: code = Unavailable desc = unavailable")).

Definition not_found : error :=
  mkError "rpc error: code = NotFound desc = no such resource"
    (Some (status.mkStatus codes.NotFound
             "rpc error: code = NotFound desc = no such resource")).

Definition permission_denied : error :=
  mkError "rpc error: code = PermissionDenied desc = caller lacks permission"
    (Some (status.mkStatus codes.PermissionDenied
             "rpc error: code = PermissionDenied desc = caller lacks permission")).

(** A world in which nothing can be reached. *)
Definition offline : World := fun R _ c =>
  match c in Call R return R with
  | GetService _ => Failure unavailable
  | CreateService _ _ => Failure unavailable
  | CreateServiceOperation_Wait _ => Failure unavailable
  | DeleteService _ => Failure unavailable
  | DeleteServiceOperation_Wait _ => Some unavailable
  | GetServiceConfig _ _ => Failure unavailable
  | GetServiceRollout _ _ => Failure unavailable
  | CreateServiceRollout _ _ => Failure unavailable
  | CreateServiceRolloutOperation_Wait _ => Failure unavailable
  | TenancyUnits_Create _ _ => Failure unavailable
  | TenancyUnits_List _ => Failure unavailable
  | TenancyUnits_Delete _ => Failure unavailable
  | TenancyUnits_AddProject _ _ _ => Failure unavailable
  | TenancyUnits_ApplyProjectConfig _ _ _ => Failure unavailable
  | TenancyUnits_RemoveProject _ _ => Failure unavailable
  | Operations_Get _ => Failure unavailable
  | time_Sleep _ => tt
  | http_Get _ => Failure (mkError "dial tcp: network is unreachable" None)
  end.

(** Every lookup answers not-found; creating is refused. *)
Definition nothing_there : World := fun R log c =>
  match c in Call R return R with
  | GetService _ => Failure not_found
  | GetServiceConfig _ _ => Failure not_found
  | GetServiceRollout _ _ => Failure not_found
  | CreateServiceRollout _ _ => Failure permission_denied
  | c' => offline _ log c'
  end.

(** A service already exists under every name. *)
Definition service_exists : World := fun R log c =>
  match c in Call R return R with
  | GetService name => Success (mkManagedService name "producer")
  | c' => offline _ log c'
  end.

Definition count_polls (log : list Event) : nat :=
  length (List.filter
            (fun e => match e with Called (Operations_Get _) => true | _ => false end) log).

(** Tenant projects: adding, applying and removing start an operation
    that completes at the poll numbered [polls_needed]; the tenancy
    unit [unit_name] exists and holds [resources]. *)
Definition tenancy (polls_needed : nat) (unit_name : string)
    (resources : list TenantResource) : World := fun R log c =>
  match c in Call R return R with
  | TenancyUnits_AddProject _ _ _ => Success (mkOperation "operations/add" false)
  | TenancyUnits_ApplyProjectConfig _ _ _ => Success (mkOperation "operations/apply" false)
  | TenancyUnits_RemoveProject _ _ => Success (mkOperation "operations/remove" false)
  | Operations_Get name =>
      Success (mkOperation name (polls_needed <=? S (count_polls log))%nat)
  | TenancyUnits_List parent =>
      Success [mkTenancyUnit unit_name "svc.example.com" "projects/1" resources]
  | c' => offline _ log c'
  end.

(** The release bucket: each channel of [listing] answers with its
    prefixes; any other channel answers 404. *)
Definition bucket (listing : list (string * list string)) : World := fun R log c =>
  match c in Call R return R with
  | http_Get req =>
      match List.find (fun '(channel, _) =>
              bool_decide (req = DartVersions.listing_request channel)) listing with
      | Some (_, prefixes) => Success (mkHttpResponse 200 "200 OK" (Success prefixes))
      | None => Success (mkHttpResponse 404 "404 Not Found" (Success []))
      end
  | c' => offline _ log c'
  end.

End worlds.

(** ** Inputs for running the model *)

Module examples.

(** A response with no diagnostics, carrying the prior state. *)
Definition fresh {M} (prior : option M) : Response M := mkResponse [] prior.

Definition service : ServiceResource.ServiceResourceModel :=
  ServiceResource.mkModel (types.StringValue "svc.example.com")
    (types.StringValue "producer") types.StringNull.

Definition config : ServiceConfigResource.ServiceConfigResourceModel :=
  ServiceConfigResource.mkModel (types.StringValue "svc.example.com/2024r0")
    (types.StringValue "svc.example.com") (types.StringValue "type: google.api.Service")
    (types.StringValue "Cg==").

Definition rollout : ServiceRolloutResource.ServiceRolloutResourceModel :=
  ServiceRolloutResource.mkModel types.StringUnknown
    (types.StringValue "svc.example.com/2024r0") ServiceRolloutResource.MapNull.

Definition rollout_state : ServiceRolloutResource.ServiceRolloutResourceModel :=
  ServiceRolloutResource.mkModel (types.StringValue "svc.example.com/r1")
    (types.StringValue "svc.example.com/2024r0") ServiceRolloutResource.MapNull.

Definition unit_name : string := "services/svc.example.com/projects/1/tenancyUnits/u1".

Definition project : ServiceProjectResource.ServiceProjectResourceModel unit :=
  ServiceProjectResource.mkModel types.StringUnknown (types.StringValue unit_name)
    (types.StringValue "tenant-a") tt types.StringUnknown.

(** Handlers of the tenant-project resource with the attribute
    conversion left out. *)
Definition Project_Create (fuel : nat) :=
  ServiceProjectResource.Create (fun _ : unit => None) fuel
    (mkDecoded [] project) (mkDecoded [] tt) (fresh None).

Definition Project_Update (fuel : nat) :=
  ServiceProjectResource.Update (fun _ : unit => None) fuel
    (mkDecoded [] project) (mkDecoded [] tt) (fresh (Some project)).

Definition stable_listing : list string :=
  ["channels/stable/release/3.5.0/"; "channels/stable/release/latest/";
   "channels/stable/release/3.4.1/"; "channels/stable/release/3.5.1/"].

Definition beta_listing : list string :=
  ["channels/beta/release/3.6.0-1.beta/"; "channels/beta/release/3.5.0/"].

Definition dev_listing : list string :=
  ["channels/dev/release/3.10.0-1.dev/"; "channels/dev/release/3.10.0/"].

Definition dart_channels (channels : types.List) : DartVersions.ChannelModel :=
  DartVersions.mkChannelModel (types.StringValue "dart") (types.StringValue "3.5.0")
    channels types.StringUnknown types.ListUnknown.

Definition dart_containers (includePrerelease : bool) : DartVersions.ContainerModel :=
  DartVersions.mkContainerModel (types.StringValue "dart") (types.StringValue "3.4.0")
    (types.BoolValue includePrerelease) types.StringUnknown types.ListUnknown
    types.ListUnknown.

End examples.

(** ** Vocabulary of the properties *)

(** A computation only ever adds to the log. *)
Definition extends {A} (m : Exec A) : Prop :=
  forall w log, exists more, (m w log).2 = log ++ more.

(** The not-found test of [ServiceResource.Create]. *)
Definition Create_not_found (err : error) : bool :=
  bool_decide (status_Code err = codes.NotFound)
  || GoStrings.Contains (Error err) "not found".

(** The not-found answer taken as the reference: an error that carries
    a gRPC status whose code is [NotFound]. *)
Definition is_grpc_not_found (err : error) : Prop :=
  exists st, GRPCStatus err = Some st /\ status.Code st = codes.NotFound.

(** The message of the panic on [*rolloutId] when the pointer is nil. *)
Definition nil_dereference : string :=
  "runtime error: invalid memory address or nil pointer dereference".

(** The listing requests for a list of channels, one per entry. *)
Definition listing_calls (channels : list string) : list Event :=
  (fun channel => Called (http_Get (DartVersions.listing_request channel))) <$> channels.

(** The versions the filtering loop keeps: not less than the minimum
    and, when pre-releases are excluded, without a pre-release part. *)
Definition kept (minVersion : semver.Version) (includePrerelease : option bool)
    (v : semver.Version) : bool :=
  negb (semver.LessThan v minVersion)
  && match includePrerelease with
     | Some false => bool_decide (semver.PreRelease v = "")
     | _ => true
     end.

(** A string and the version it parses to. *)
Definition parses_to (s : string) (v : semver.Version) : Prop :=
  semver.NewVersion s = Some v.

(** A fetched string that is kept, and the version it stands for. *)
Definition kept_string (minVersion : semver.Version) (includePrerelease : option bool)
    (s : string) : Prop :=
  exists v, semver.NewVersion s = Some v /\ kept minVersion includePrerelease v = true.

(** A string in the spelling [Version.String] prints. *)
Definition canonical (s : string) : Prop :=
  exists v, semver.NewVersion s = Some v /\ semver.String v = s.

(** The versions a read computes from the set of fetched strings:
    they are in ascending order; they are the
    parsed forms of the kept fetched strings, one entry per distinct
    string; and when the fetched strings are spelled as [String] prints
    them, the printed list has no duplicates and holds exactly the kept
    fetched strings. *)
Definition retained_sorted (minVersion : semver.Version) (includePrerelease : option bool)
    (versionsSet : gset string) (versions : list semver.Version) : Prop :=
  semver.ascending versions /\
  (exists ks : list string,
     NoDup ks /\
     (forall s, s ∈ ks <-> s ∈ versionsSet /\ kept_string minVersion includePrerelease s) /\
     semver.NewVersion <$> ks ≡ₚ Some <$> versions) /\
  ((forall s, s ∈ versionsSet -> canonical s) ->
   NoDup (semver.String <$> versions) /\
   (forall s, s ∈ semver.String <$> versions <->
              s ∈ versionsSet /\ kept_string minVersion includePrerelease s)).

(** An operation the loop goes round for. *)
Definition pending_op (op : Operation) : Prop := op_Done op = false.

(** What a handler of the tenant-project resource does with the outcome
    of its loop: go on, report the failed poll, or still be in the loop. *)
Definition after_loop {A}
    (continue : list Event -> Outcome (Response A) * list Event)
    (resp : Response A)
    (loop : Outcome (result Operation) * list Event)
    : Outcome (Response A) * list Event :=
  match loop with
  | (Returns (Success _), log) => continue log
  | (Returns (Failure err), log) =>
      (Returns (AddError resp "Error getting operation" (Error err)), log)
  | (Panics msg, log) => (Panics msg, log)
  | (StillRunning, log) => (StillRunning, log)
  end.

(** Three-way comparisons with values -1, 0 and 1, as [Compare] and its
    helpers return them. *)
Definition zcmp (a b : Z) : Z :=
  if (a >? b)%Z then 1%Z else if (a <? b)%Z then (-1)%Z else 0%Z.

(** Byte order on strings, three-way. *)
Definition scmp (a b : string) : Z :=
  if String.ltb b a then 1%Z else if String.ltb a b then (-1)%Z else 0%Z.

(** The first comparison decides unless it is a tie. *)
Definition lexcmp (c1 c2 : Z) : Z := if negb (c1 =? 0)%Z then c1 else c2.

(** A comparison that orders its type totally, up to ties. *)
Record ThreeWay {A : Type} (cmp : A -> A -> Z) : Prop := {
  tw_antisym : forall a b, cmp b a = (- cmp a b)%Z;
  tw_tie : forall a b c, cmp a b = 0%Z -> cmp a c = cmp b c;
  tw_lt : forall a b c, (cmp a b < 0)%Z -> (cmp b c < 0)%Z -> (cmp a c < 0)%Z
}.

(** Numeric identifiers of a pre-release come before the others, and
    among themselves by value. *)
Definition identifier_class (a : string) : Z :=
  match strconv.Atoi a with Some _ => 0%Z | None => 1%Z end.

Definition identifier_value (a : string) : Z :=
  match strconv.Atoi a with Some n => n | None => 0%Z end.

(** Never less than the elements before: the order of [semver.ascending]
    between two versions. *)
Definition not_after (a b : semver.Version) : Prop := semver.LessThan b a = false.

(** ** Vocabulary of the further properties *)

(** The not-found test of [getTenancyUnit] on the error of the listing. *)
Definition TenancyUnit_not_found (err : error) : bool :=
  let '(st, ok) := status_FromError err in
  ok && (bool_decide (status.Code st = codes.NotFound)
         || GoStrings.Contains (status.String st) "not found").

(** What [getTenantProject] treats as absence: the test of
    [getTenancyUnit], or its own on the message of the error. *)
Definition TenantProject_not_found (err : error) : bool :=
  TenancyUnit_not_found err || GoStrings.Contains (Error err) "not found".

(** The parent under which [getTenancyUnit] lists. *)
Definition tenancy_parent (id : string) : string :=
  GoStrings.Split id "/tenancyUnits/" !!! 0%nat.

(** ** Further worlds and inputs *)

Module more_worlds.

(** The error of the REST client for a missing entity: no gRPC status. *)
Definition rest_not_found : error :=
  mkError "googleapi: Error 404: Requested entity was not found., notFound" None.

(** The tenancy units cannot be listed: the service is gone. *)
Definition tenancy_gone : World := fun R log c =>
  match c in Call R return R with
  | TenancyUnits_List _ => Failure rest_not_found
  | c' => worlds.offline _ log c'
  end.

End more_worlds.

Module more_examples.

Definition tenancy_unit : ServiceTenancyUnitResource.ServiceTenancyUnitModel :=
  ServiceTenancyUnitResource.mkModel (types.StringValue examples.unit_name)
    (types.StringValue "svc.example.com") (types.StringValue "projects/1").

Definition tenant : TenantResource :=
  mkTenantResource "projects/tenant-a-1234" "ACTIVE" "tenant-a".

Definition other_tenant : TenantResource :=
  mkTenantResource "projects/tenant-b-5678" "PENDING_CREATE" "tenant-b".

End more_examples.

Module more_dart.

(** A configuration whose [min_version] is not a full version. *)
Definition short_min : DartVersions.ChannelModel :=
  DartVersions.mkChannelModel (types.StringValue "dart") (types.StringValue "3.5")
    types.ListNull types.StringUnknown types.ListUnknown.

(** A listing with a directory that looks like a version and is none. *)
Definition odd_listing : list string :=
  ["channels/stable/release/3.5.0/"; "channels/stable/release/3.5.0.1/"].

End more_dart.

#[global] Instance ConfigFile_FileType_eq_dec : EqDecision ConfigFile_FileType.
Proof. solve_decision. Defined.

(** The source files of a type, and the types [Read] knows. *)
Definition of_type (t : ConfigFile_FileType) (file : ConfigFile) : bool :=
  bool_decide (FileType file = t).

Definition known_type (file : ConfigFile) : bool :=
  of_type FILE_DESCRIPTOR_SET_PROTO file || of_type SERVICE_CONFIG_YAML file.

(** The value a string attribute ends with when each file of a type
    overwrites it: that of the last such file, or the one it had. *)
Definition overwritten (render : string -> string) (t : ConfigFile_FileType)
    (files : list ConfigFile) (before : types.String) : types.String :=
  match last (List.filter (of_type t) files) with
  | Some file => types.StringValue (render (FileContents file))
  | None => before
  end.

Module more_configs.

Definition yaml1 : ConfigFile := mkConfigFile "service.yaml" "title: one" SERVICE_CONFIG_YAML.
Definition yaml2 : ConfigFile := mkConfigFile "override.yaml" "title: two" SERVICE_CONFIG_YAML.
Definition descriptor : ConfigFile := mkConfigFile "descriptor.pb" "hello" FILE_DESCRIPTOR_SET_PROTO.
Definition openapi : ConfigFile := mkConfigFile "openapi.json" "{}" OPEN_API_JSON.

(** The configuration is served with the given source files. *)
Definition serving (sourceFiles : list (result ConfigFile)) : World := fun R log c =>
  match c in Call R return R with
  | GetServiceConfig name id => Success (mkServiceConfig name id sourceFiles)
  | c' => worlds.offline _ log c'
  end.

End more_configs.

(** A key of [rollout_config] that is a configuration of the service. *)
Definition config_of (serviceName key : string) : bool :=
  match parseConfigId key with
  | (svc, _, None) => bool_decide (svc = serviceName)
  | _ => false
  end.

(** The configuration part of a key. *)
Definition config_part (key : string) : string := (parseConfigId key).1.2.

(** One round of the loop of [createRollout] that passes its tests. *)
Definition insert_entry (acc : gmap string float64) (kv : string * float64)
    : gmap string float64 :=
  <[ config_part kv.1 := kv.2 ]> acc.

(** The percentages of [rollout_config] under their configuration ids. *)
Definition config_percentages (raw : gmap string float64) : gmap string float64 :=
  list_to_map ((fun kv => (config_part kv.1, kv.2)) <$> map_to_list raw).

Module more_rollouts.

(** Rollouts are created as [r1] and read back with the percentages
    given. *)
Definition rolling (served : gmap string float64) : World := fun R log c =>
  match c in Call R return R with
  | CreateServiceRollout _ _ => Success "operations/rollouts.svc.example.com-r1"
  | CreateServiceRolloutOperation_Wait _ => Success (mkRollout "r1" served)
  | GetServiceRollout _ id => Success (mkRollout id served)
  | c' => worlds.offline _ log c'
  end.

Definition half : float64 := Float64 0x4049000000000000.

Definition split_traffic : gmap string float64 :=
  {[ "svc.example.com/2024r0" := half; "svc.example.com/2024r1" := half ]}.

Definition by_percentages (raw : gmap string float64)
    : ServiceRolloutResource.ServiceRolloutResourceModel :=
  ServiceRolloutResource.mkModel types.StringUnknown types.StringNull
    (ServiceRolloutResource.MapValue raw).

Definition imported : ServiceRolloutResource.ServiceRolloutResourceModel :=
  ServiceRolloutResource.mkModel (types.StringValue "svc.example.com/r1")
    types.StringNull ServiceRolloutResource.MapNull.

End more_rollouts.

(** The service part of a key. *)
Definition service_part (key : string) : string := (parseConfigId key).1.1.

(** Input that [createRollout] turns down before any request: a
    [config_id] that does not parse, or, without [config_id], an unknown
    [rollout_config], a key that does not parse, or keys of two services. *)
Definition turned_down (data : ServiceRolloutResource.ServiceRolloutResourceModel) : Prop :=
  if types.IsNull (ServiceRolloutResource.ConfigId data) then
    match ServiceRolloutResource.RolloutConfig data with
    | ServiceRolloutResource.MapNull => False
    | ServiceRolloutResource.MapUnknown => True
    | ServiceRolloutResource.MapValue raw =>
        (exists k, is_Some (raw !! k) /\ is_Some (parseConfigId k).2) \/
        (exists k1 k2, is_Some (raw !! k1) /\ is_Some (raw !! k2) /\
           service_part k1 <> "" /\ service_part k2 <> "" /\
           service_part k1 <> service_part k2)
    end
  else is_Some (parseConfigId (types.ValueString (ServiceRolloutResource.ConfigId data))).2.

Module more_rollouts2.

Definition two_services : gmap string float64 :=
  {[ "svc.example.com/2024r0" := more_rollouts.half;
     "other.example.com/2024r0" := more_rollouts.half ]}.

End more_rollouts2.

(** A handler body that, when it returns with an error among the
    diagnostics, has left the state as it was in [before]. *)
Definition keeps_state_on_error {M} (before : Response M) (m : Exec (Response M)) : Prop :=
  forall (w : World) log resp' log',
    m w log = (Returns resp', log') -> HasError resp' = true -> State resp' = State before.

(** ** resource_service_configuration.go: submitting a configuration *)

Module ServiceConfigSubmit.
Import ServiceConfigResource.
Section with_sdk.

(** [base64.StdEncoding.DecodeString] and the two steps of the
    submission are taken as given: each answers as a function of what
    it is handed.  [SubmitConfigSource] yields the operation,
    [Wait] the configuration of its response. *)
Variable base64_DecodeString : string -> result string.
Variable SubmitConfigSource : string -> list ConfigFile -> result string.
Variable SubmitConfigSourceOperation_Wait : string -> result ServiceConfig.

(** The two files of a submission. *)
Definition submitted (configYaml proto : string) : list ConfigFile :=
  [mkConfigFile "service.yaml" configYaml SERVICE_CONFIG_YAML;
   mkConfigFile "descriptor.pb" proto FILE_DESCRIPTOR_SET_PROTO].

Definition createConfig (serviceName protoDescriptor configYaml : string)
    : result ServiceConfig :=
  match base64_DecodeString protoDescriptor with
  | Failure err => Failure (fmt.Errorf ("could not decode proto descriptor: " +:+ Error err))
  | Success proto =>
      match SubmitConfigSource serviceName (submitted configYaml proto) with
      | Failure err => Failure err
      | Success configOp =>
          match SubmitConfigSourceOperation_Wait configOp with
          | Failure err => Failure err
          | Success config => Success config
          end
      end
  end.

(** [Create] and [Update] have the same body. *)
Definition createOrUpdate (req_Plan : Decoded ServiceConfigResourceModel)
    (resp : Response ServiceConfigResourceModel) : Response ServiceConfigResourceModel :=
  let data := Get_data req_Plan in
  let resp := Append resp (Get_diags req_Plan) in
  if HasError resp then resp else
  match createConfig (types.ValueString (ServiceName data))
          (types.ValueString (ProtoDescriptorBase64 data))
          (types.ValueString (ConfigYaml data)) with
  | Failure err => AddError resp "Could not submit configuration source" (Error err)
  | Success output =>
      State_Set resp
        (mkModel (newConfigId (sc_Name output) (sc_Id output)) (ServiceName data)
                 (ConfigYaml data) (ProtoDescriptorBase64 data))
  end.

Definition Create := createOrUpdate.
Definition Update := createOrUpdate.

(** [Delete] is empty. *)
Definition Delete (resp : Response ServiceConfigResourceModel)
    : Response ServiceConfigResourceModel := resp.

End with_sdk.
End ServiceConfigSubmit.

Module more_submit.

(** A decoder that knows one descriptor, a service that accepts every
    submission as configuration [2024r0]. *)
Definition decode (s : string) : result string :=
  if bool_decide (s = "aGVsbG8=") then Success "hello"
  else Failure (errors.New "illegal base64 data at input byte 0").

Definition submit (serviceName : string) (files : list ConfigFile) : result string :=
  Success ("operations/serviceConfigs." +:+ serviceName).

Definition wait_for (files : list (result ConfigFile)) (op : string) : result ServiceConfig :=
  Success (mkServiceConfig "svc.example.com" "2024r0" files).

Definition planned : ServiceConfigResource.ServiceConfigResourceModel :=
  ServiceConfigResource.mkModel types.StringUnknown (types.StringValue "svc.example.com")
    (types.StringValue "title: one") (types.StringValue "aGVsbG8=").

End more_submit.

(** ** util.go: the service account of a tenant project *)

Module TenantResourceEmail.
Section with_quote.

(** The verb [%q] (a Go-quoted string) is taken as given. *)
Variable strconv_Quote : string -> string.

Definition index_out_of_range (i len : nat) : string :=
  "runtime error: index out of range [" +:+ pretty i +:+ "] with length " +:+ pretty len.

(** [ServiceAccountEmail]: the resource is expected as
    [projects/{project_id}]. *)
Definition ServiceAccountEmail (r : TenantResource) : Outcome string :=
  let resourceParts := GoStrings.Split (tr_Resource r) "/" in
  match resourceParts !! 0%nat with
  | None => Panics (index_out_of_range 0 (length resourceParts))
  | Some first =>
      if negb (bool_decide (first = "projects"))
      then Panics ("unexpected resource type: " +:+ strconv_Quote (tr_Resource r))
      else
        match resourceParts !! 1%nat with
        | None => Panics (index_out_of_range 1 (length resourceParts))
        | Some project =>
            Returns (tr_Tag r +:+ "@" +:+ project +:+ ".iam.gserviceaccount.com")
        end
  end.

End with_quote.
End TenantResourceEmail.

(** The text up to the first slash. *)
Fixpoint up_to_slash (s : string) : string :=
  match s with
  | String a s' => if Ascii.eqb a "/" then "" else String a (up_to_slash s')
  | "" => ""
  end.

Module more_tenants.
Definition quotation_mark : ascii := ascii_of_nat 34.
Definition quote (s : string) : string :=
  String quotation_mark (s +:+ String quotation_mark EmptyString).
Definition tenant_a : TenantResource :=
  mkTenantResource "projects/1234567" "ACTIVE" "tenant-a".
End more_tenants.

(** ** provider.go *)

Module UtilsProvider.

Inductive ClientKind := ServiceManager | Tenant | Operations.

#[global] Instance ClientKind_eq_dec : EqDecision ClientKind.
Proof. solve_decision. Defined.

(** Credentials found in the environment, known by their source. *)
Record Credentials := mkCredentials { cred_source : string }.

Inductive ClientOption :=
| WithQuotaProject (quotaProject : string)
| WithTokenSource (AccessToken : string)
| WithCredentials (creds : Credentials).

(** A client, known by the options it was created with. *)
Record Client (kind : ClientKind) := Dial { dialOpts : list ClientOption }.
Arguments Dial {kind} _.
Arguments dialOpts {kind} _.

(** [UtilsProviderConfig]: three pointers, nil being [None]. *)
Record UtilsProviderConfig := mkConfig {
  ServiceManagerClient : option (Client ServiceManager);
  TenantClient : option (Client Tenant);
  OperationsClient : option (Client Operations)
}.

Record UtilsProviderModel := mkModel {
  ProjectID : types.String;
  AccessToken : types.String
}.

(** A non-nil value of interface type [any]: a pointer to a
    [UtilsProviderConfig], itself nil or not, or a value of another
    type, known by the name [%T] prints. *)
Inductive any :=
| Pointer (config : option UtilsProviderConfig)
| Value (type_name : string).

Record ConfigureResponse := mkConfigureResponse {
  Diagnostics : diag.Diagnostics;
  ResourceData : option any;
  DataSourceData : option any
}.

Definition scopes : list string :=
  ["https://www.googleapis.com/auth/cloud-platform";
   "https://www.googleapis.com/auth/service.management"].

Section with_environment.

(** The search for default credentials and the creation of a client
    are taken as given: the first answers for the scopes, the second
    yields the error of creating a client of a kind with some options,
    if any. *)
Variable FindDefaultCredentialsWithParams : list string -> result Credentials.
Variable NewClient_err : ClientKind -> list ClientOption -> option error.

Definition Configure (req_Config : Decoded UtilsProviderModel) (resp : ConfigureResponse)
    : ConfigureResponse :=
  let data := Get_data req_Config in
  let resp := mkConfigureResponse (diag.Append (Diagnostics resp) (Get_diags req_Config))
                (ResourceData resp) (DataSourceData resp) in
  if diag.HasError (Diagnostics resp) then resp else
  let dialOpts :=
    if negb (types.IsUnknown (ProjectID data)) && negb (types.IsNull (ProjectID data))
    then [WithQuotaProject (types.ValueString (ProjectID data))] else [] in
  let '(dialOpts, foundGoogleCreds) :=
    if negb (types.IsUnknown (AccessToken data)) && negb (types.IsNull (AccessToken data))
    then (dialOpts ++ [WithTokenSource (types.ValueString (AccessToken data))], true)
    else match FindDefaultCredentialsWithParams scopes with
         | Success creds => (dialOpts ++ [WithCredentials creds], true)
         | Failure _ => (dialOpts, false)
         end in
  if negb foundGoogleCreds then resp else
  let failed summary (err : error) :=
    mkConfigureResponse (diag.AddError (Diagnostics resp) summary (Error err))
      (ResourceData resp) (DataSourceData resp) in
  match NewClient_err ServiceManager dialOpts with
  | Some err => failed "Could not create service manager client" err
  | None =>
      match NewClient_err Tenant dialOpts with
      | Some err => failed "Could not create tenant client" err
      | None =>
          match NewClient_err Operations dialOpts with
          | Some err => failed "Could not create operations client" err
          | None =>
              let config := mkConfig (Some (Dial dialOpts)) (Some (Dial dialOpts))
                                     (Some (Dial dialOpts)) in
              mkConfigureResponse (Diagnostics resp)
                (Some (Pointer (Some config))) (Some (Pointer (Some config)))
          end
      end
  end.

End with_environment.

(** *** The [Configure] methods of the resources and data sources

    Each takes [req.ProviderData], its receiver and the diagnostics of
    the response, and copies some of the clients into the receiver. *)

Definition unexpected_type (type_name : string) : string :=
  "Expected *UtilsProviderConfig, got: " +:+ type_name
  +:+ ". Please report this issue to the provider developers.".

Definition configureWith {Receiver : Type}
    (copy : UtilsProviderConfig -> Receiver -> Receiver)
    (ProviderData : option any) (r : Receiver) (diagnostics : diag.Diagnostics)
    : Outcome (Receiver * diag.Diagnostics) :=
  match ProviderData with
  | None => Returns (r, diagnostics)
  | Some (Value type_name) =>
      Returns (r, diag.AddError diagnostics "Unexpected Resource Configure Type"
                    (unexpected_type type_name))
  | Some (Pointer None) =>
      Panics "runtime error: invalid memory address or nil pointer dereference"
  | Some (Pointer (Some clients)) => Returns (copy clients r, diagnostics)
  end.

(** Receivers that embed [UtilsProviderConfig]. *)
Definition two_clients (clients r : UtilsProviderConfig) : UtilsProviderConfig :=
  mkConfig (ServiceManagerClient clients) (TenantClient r) (OperationsClient clients).

Definition three_clients (clients r : UtilsProviderConfig) : UtilsProviderConfig :=
  mkConfig (ServiceManagerClient clients) (TenantClient clients) (OperationsClient clients).

Definition ServiceResource_Configure := configureWith two_clients.
Definition ServiceConfigResource_Configure := configureWith two_clients.
Definition ServiceRolloutResource_Configure := configureWith two_clients.
Definition ServiceTenancyUnitResource_Configure := configureWith three_clients.
Definition ServiceProjectResource_Configure := configureWith three_clients.

(** [ServiceConfigDataSource] holds one client of its own. *)
Record ServiceConfigDataSource := mkDataSource {
  ds_ServiceManagerClient : option (Client ServiceManager)
}.

Definition ServiceConfigDataSource_Configure :=
  configureWith (fun clients (_ : ServiceConfigDataSource) =>
                   mkDataSource (ServiceManagerClient clients)).

(** *** Which client a call goes through

    The [Wait] of an operation goes through the operation it is called
    on, sleeping and the listing of Dart versions through no client. *)
Definition client_of (e : Event) : option ClientKind :=
  match e with
  | @Called _ c =>
      match c with
      | GetService _ | CreateService _ _ | DeleteService _
      | GetServiceConfig _ _ | GetServiceRollout _ _ | CreateServiceRollout _ _ =>
          Some ServiceManager
      | TenancyUnits_Create _ _ | TenancyUnits_List _ | TenancyUnits_Delete _
      | TenancyUnits_AddProject _ _ _ | TenancyUnits_ApplyProjectConfig _ _ _
      | TenancyUnits_RemoveProject _ _ | Operations_Get _ =>
          Some Tenant
      | CreateServiceOperation_Wait _ | DeleteServiceOperation_Wait _
      | CreateServiceRolloutOperation_Wait _ | time_Sleep _ | http_Get _ => None
      end
  end.

(** The clients a receiver holds. *)
Definition holds (r : UtilsProviderConfig) (kind : ClientKind) : bool :=
  match kind with
  | ServiceManager => bool_decide (is_Some (ServiceManagerClient r))
  | Tenant => bool_decide (is_Some (TenantClient r))
  | Operations => bool_decide (is_Some (OperationsClient r))
  end.

Definition data_source_holds (d : ServiceConfigDataSource) (kind : ClientKind) : bool :=
  match kind with
  | ServiceManager => bool_decide (is_Some (ds_ServiceManagerClient d))
  | _ => false
  end.

(** Every call of the computation goes through a client among
    [available], whatever the world answers. *)
Definition calls_through {A} (available : ClientKind -> bool) (m : Exec A) : Prop :=
  forall (w : World) log,
    exists more, (m w log).2 = log ++ more /\
      Forall (fun e => forall kind, client_of e = Some kind -> available kind = true) more.

(** A provider configuration as [Configure] hands it out. *)
Definition complete (config : UtilsProviderConfig) : Prop :=
  is_Some (ServiceManagerClient config) /\ is_Some (TenantClient config)
  /\ is_Some (OperationsClient config).

Definition nothing : UtilsProviderConfig := mkConfig None None None.

End UtilsProvider.

Module more_provider.
Import UtilsProvider.

Definition no_credentials (scopes : list string) : result Credentials :=
  Failure (errors.New "google: could not find default credentials").

Definition application_default (scopes : list string) : result Credentials :=
  Success (mkCredentials "application_default_credentials.json").

Definition every_client (kind : ClientKind) (opts : list ClientOption) : option error := None.

Definition with_token : UtilsProviderModel :=
  mkModel (types.StringValue "my-project") (types.StringValue "ya29.token").

Definition bare : UtilsProviderModel := mkModel types.StringNull types.StringNull.

Definition fresh : ConfigureResponse := mkConfigureResponse [] None None.

End more_provider.

(** An optional attribute that is set: neither unknown nor null. *)
Definition configured (v : types.String) : bool :=
  negb (types.IsUnknown v) && negb (types.IsNull v).

(** ** test_helpers.go *)

Module test_helpers.

(** The values of type [any] the checks are handed: what a JSON state
    decodes to. *)
#[warnings="-register-all"]
Inductive any :=
| nil
| bool_value (b : bool)
| string_value (s : string)
| number_value (n : string)
| list_value (l : list any)
| map_value (m : list (string * any)).

(** The verb [%T]. *)
Definition T (v : any) : string :=
  match v with
  | nil => "<nil>"
  | bool_value _ => "bool"
  | string_value _ => "string"
  | number_value _ => "json.Number"
  | list_value _ => "[]interface {}"
  | map_value _ => "map[string]interface {}"
  end.

(** The verb [%v]; the keys of a map are printed in sorted order, which
    is the order they are kept in here. *)
Fixpoint v (x : any) : string :=
  match x with
  | nil => "<nil>"
  | bool_value b => if b then "true" else "false"
  | string_value s => s
  | number_value n => n
  | list_value l => "[" +:+ String.concat " " (List.map v l) +:+ "]"
  | map_value m =>
      "map[" +:+ String.concat " " (List.map (fun kv => kv.1 +:+ ":" +:+ v kv.2) m) +:+ "]"
  end.

(** [v != l.values[i]]: an interface value differs from a string unless
    it holds that string. *)
Definition differs (x : any) (s : string) : bool :=
  match x with
  | string_value s' => negb (bool_decide (s' = s))
  | _ => true
  end.

Definition listOfGreaterThan_CheckValue (count : Z) (x : any) : option error :=
  match x with
  | list_value val =>
      if (Z.of_nat (length val) <=? count)%Z
      then Some (fmt.Errorf ("expected list length to be greater than " +:+ fmt.d count
                             +:+ ", but got: " +:+ v x +:+ " ("
                             +:+ fmt.d (Z.of_nat (length val)) +:+ " elements)"))
      else None
  | _ => Some (fmt.Errorf ("expected []any value for ListOfGreaterThan check, got: " +:+ T x))
  end.

Definition listNotEmpty_CheckValue (x : any) : option error :=
  match x with
  | list_value val =>
      if (length val =? 0)%nat
      then Some (fmt.Errorf
                   "expected non-empty list for ListNotEmpty check, but list was empty")
      else None
  | _ => Some (fmt.Errorf ("expected []any value for ListNotEmpty check, got: " +:+ T x))
  end.

(** The loop of [listEquals.CheckValue], entered with lists of equal
    length: [true] when some element differs. *)
Fixpoint some_differs (val : list any) (values : list string) : bool :=
  match val, values with
  | x :: val', s :: values' => differs x s || some_differs val' values'
  | _, _ => false
  end.

Definition listEquals_CheckValue (values : list string) (x : any) : option error :=
  match x with
  | list_value val =>
      let mismatch :=
        Some (fmt.Errorf ("expected list values to be equal for ListEquals check, but got: "
                          +:+ v x)) in
      if negb (length val =? length values)%nat then mismatch
      else if some_differs val values then mismatch
      else None
  | _ => Some (fmt.Errorf ("expected []any value for ListEquals check, got: " +:+ T x))
  end.

End test_helpers.

(** ** The polling loop, round by round *)

(** The operations the loop goes round for, starting with [op] in hand
    after [log]: the first is [op], and each further one is what the
    poll for the one before it answered. *)
Fixpoint polled (w : World) (log : list Event) (op : Operation)
    (pending : list Operation) : Prop :=
  match pending with
  | [] => True
  | o :: rest =>
      o = op /\
      match rest with
      | [] => True
      | o' :: _ =>
          w _ (log ++ [Called (time_Sleep (5 * time.Second))])
            (Operations_Get (op_Name o)) = Success o' /\
          polled w (log ++ ServiceProjectResource.poll_round o) o' rest
      end
  end.

(** What the loop has in hand after going round for [pending]: [op]
    itself when it never went round, else the answer of the last poll. *)
Definition last_answer (w : World) (log : list Event) (op : Operation)
    (pending : list Operation) (r : result Operation) : Prop :=
  (pending = [] /\ r = Success op) \/
  (exists earlier o,
     pending = earlier ++ [o] /\
     w _ (log ++ flat_map ServiceProjectResource.poll_round earlier
          ++ [Called (time_Sleep (5 * time.Second))])
       (Operations_Get (op_Name o)) = r).

(** ** One client for all the calls *)

Definition only_client (kind other : UtilsProvider.ClientKind) : bool :=
  bool_decide (other = kind).

(** The receiver holds the client of a kind, and the computation makes
    no call through a client of another kind. *)
Definition served_by {A} (held : UtilsProvider.ClientKind -> bool)
    (kind : UtilsProvider.ClientKind) (m : Exec A) : Prop :=
  held kind = true /\ UtilsProvider.calls_through (only_client kind) m.

(** * Properties *)

(** ** Splitting on a slash *)

Section split_slash.
Import GoStrings.

Lemma prefix_slash a s : String.prefix "/" (String a s) = Ascii.eqb "/" a.
Proof.
  cbn [String.prefix]. destruct (ascii_dec "/" a) as [<-|Hne].
  - by destruct s.
  - symmetry. by apply Ascii.eqb_neq.
Qed.

Lemma Split_cons a s :
  Split (String a s) "/" =
  if Ascii.eqb "/" a then "" :: Split s "/" else cons_head a (Split s "/").
Proof. unfold Split. cbn [Split_from]. by rewrite prefix_slash. Qed.

Lemma Split_nonempty s : Split s "/" <> [].
Proof.
  induction s as [|a s IH]; [done|]. rewrite Split_cons.
  destruct (Ascii.eqb "/" a); [done|]. by destruct (Split s "/").
Qed.

(** One piece more than there are slashes. *)
Lemma Split_length s : length (Split s "/") = S (count_byte "/" s).
Proof.
  induction s as [|a s IH]; [done|]. rewrite Split_cons. cbn [count_byte].
  rewrite (Ascii.eqb_sym a "/").
  destruct (Ascii.eqb "/" a); cbn [length]; [by rewrite IH|].
  pose proof (Split_nonempty s). destruct (Split s "/"); [done|]. exact IH.
Qed.

Lemma Contains_slash s : Contains s "/" = false <-> count_byte "/" s = 0%nat.
Proof.
  induction s as [|a s IH]; [done|].
  cbn [Contains count_byte]. rewrite prefix_slash, (Ascii.eqb_sym a "/").
  destruct (Ascii.eqb "/" a); cbn; [split; discriminate | exact IH].
Qed.

Lemma Split_no_slash s : count_byte "/" s = 0%nat -> Split s "/" = [s].
Proof.
  induction s as [|a s IH]; [done|]. rewrite Split_cons. cbn [count_byte].
  rewrite (Ascii.eqb_sym a "/").
  destruct (Ascii.eqb "/" a); [discriminate|]. intros H. by rewrite IH.
Qed.

Lemma Split_join a b :
  count_byte "/" a = 0%nat -> Split (a +:+ "/" +:+ b) "/" = a :: Split b "/".
Proof.
  induction a as [|c a IH].
  - intros _. change ("" +:+ "/" +:+ b) with (String "/" b). by rewrite Split_cons.
  - cbn [count_byte]. rewrite (Ascii.eqb_sym c "/"). intros H.
    change (String c a +:+ "/" +:+ b) with (String c (a +:+ "/" +:+ b)).
    rewrite Split_cons. destruct (Ascii.eqb "/" c); [discriminate|].
    by rewrite IH.
Qed.
End split_slash.

(** An identifier parses iff it holds exactly one slash. *)
Lemma parseConfigId_error_iff id :
  is_Some (parseConfigId id).2 <-> length (GoStrings.Split id "/") <> 2%nat.
Proof.
  unfold parseConfigId.
  destruct (Nat.eqb_spec (length (GoStrings.Split id "/")) 2) as [->|Hne]; cbn.
  - split; [intros [? [=]] | done].
  - split; [done | eauto].
Qed.

Lemma parseRolloutId_error_iff id :
  is_Some (parseRolloutId id).2 <-> length (GoStrings.Split id "/") <> 2%nat.
Proof.
  unfold parseRolloutId.
  destruct (Nat.eqb_spec (length (GoStrings.Split id "/")) 2) as [->|Hne]; cbn.
  - split; [intros [? [=]] | done].
  - split; [done | eauto].
Qed.

Lemma parseConfigId_join a b :
  GoStrings.Contains a "/" = false -> GoStrings.Contains b "/" = false ->
  parseConfigId (a +:+ "/" +:+ b) = (a, b, None).
Proof.
  intros Ha%Contains_slash Hb%Contains_slash. unfold parseConfigId.
  by rewrite (Split_join _ _ Ha), (Split_no_slash _ Hb).
Qed.

(** C8: [parseConfigId] undoes [newConfigId] on names without a slash,
    and [parseConfigId] and [parseRolloutId] return an error exactly when
    splitting their input on the slash does not give two parts. *)
Theorem parseConfigId_newConfigId :
  (forall serviceName configId : string,
     GoStrings.Contains serviceName "/" = false ->
     GoStrings.Contains configId "/" = false ->
     parseConfigId (types.ValueString (newConfigId serviceName configId))
     = (serviceName, configId, None)) /\
  (forall id : string,
     is_Some (parseConfigId id).2 <-> length (GoStrings.Split id "/") <> 2%nat) /\
  (forall id : string,
     is_Some (parseRolloutId id).2 <-> length (GoStrings.Split id "/") <> 2%nat).
Proof.
  split; [|split].
  - intros serviceName configId Hs Hc. by apply parseConfigId_join.
  - apply parseConfigId_error_iff.
  - apply parseRolloutId_error_iff.
Qed.

Lemma parseConfigId_newConfigId_witness :
  parseConfigId (types.ValueString (newConfigId "svc.example.com" "2024r0"))
  = ("svc.example.com", "2024r0", None).
Proof.
  apply (proj1 parseConfigId_newConfigId "svc.example.com" "2024r0"); reflexivity.
Defined.

(** The error condition of C8 in terms of the input alone. *)
Lemma parseConfigId_error_count id :
  is_Some (parseConfigId id).2 <-> GoStrings.count_byte "/" id <> 1%nat.
Proof. rewrite parseConfigId_error_iff, Split_length. lia. Qed.

(** ** The execution monad *)

Lemma bind_ret {A B} (a : A) (k : A -> Exec B) w log :
  (mret a ≫= k) w log = k a w log.
Proof. reflexivity. Qed.

Lemma bind_call {R B} (c : Call R) (k : R -> Exec B) w log :
  (call c ≫= k) w log = k (w R log c) w (log ++ [Called c]).
Proof. reflexivity. Qed.

Lemma bind_bind {A B C} (m : Exec A) (f : A -> Exec B) (g : B -> Exec C) w log :
  ((m ≫= f) ≫= g) w log = (m ≫= (fun a => f a ≫= g)) w log.
Proof.
  unfold mbind, Exec_bind. by destruct (m w log) as [[a|msg|] log'].
Qed.

Lemma extends_ret {A} (a : A) : extends (mret a).
Proof. intros w log. exists []. by rewrite app_nil_r. Qed.

Lemma extends_call {R} (c : Call R) : extends (call c).
Proof. intros w log. by exists [Called c]. Qed.

Lemma extends_bind {A B} (m : Exec A) (k : A -> Exec B) :
  extends m -> (forall a, extends (k a)) -> extends (m ≫= k).
Proof.
  intros Hm Hk w log. destruct (Hm w log) as [more Hmore].
  unfold mbind, Exec_bind. destruct (m w log) as [[a|msg|] log'] eqn:E; cbn in *; subst.
  - destruct (Hk a w (log ++ more)) as [more' ->]. exists (more ++ more').
    by rewrite app_assoc.
  - by exists more.
  - by exists more.
Qed.

(** Unfold one handler step. *)
Ltac exec :=
  unfold run; rewrite ?bind_call, ?bind_ret; cbn [app].

(** ** Diagnostics *)

Lemma Append_nil (diags : diag.Diagnostics) : diag.Append diags [] = diags.
Proof. reflexivity. Qed.

Lemma HasError_app (ds1 ds2 : diag.Diagnostics) :
  diag.HasError (ds1 ++ ds2) = diag.HasError ds1 || diag.HasError ds2.
Proof. apply existsb_app. Qed.

(** Adding an error to diagnostics without one appends it. *)
Lemma AddError_fresh (diags : diag.Diagnostics) summary detail :
  diag.HasError diags = false ->
  diag.AddError diags summary detail = diags ++ [diag.NewErrorDiagnostic summary detail].
Proof.
  intros Hno. unfold diag.AddError, diag.Append, diag.Contains. cbn [fold_left].
  rewrite bool_decide_eq_false_2; [done|].
  intros Hin. apply not_true_iff_false in Hno. apply Hno.
  apply existsb_exists. exists (diag.NewErrorDiagnostic summary detail).
  split; [by apply list_elem_of_In | done].
Qed.

Lemma AddError_HasError (diags : diag.Diagnostics) summary detail :
  diag.HasError (diag.AddError diags summary detail) = true.
Proof.
  unfold diag.AddError, diag.Append, diag.Contains. cbn [fold_left].
  case_bool_decide as Hin.
  - apply existsb_exists. exists (diag.NewErrorDiagnostic summary detail).
    split; [by apply list_elem_of_In | done].
  - rewrite HasError_app. cbn. by rewrite orb_true_r.
Qed.

Lemma AddError_elem (diags : diag.Diagnostics) summary detail :
  diag.NewErrorDiagnostic summary detail ∈ diag.AddError diags summary detail.
Proof.
  unfold diag.AddError, diag.Append, diag.Contains. cbn [fold_left].
  case_bool_decide as Hin; [done|]. apply elem_of_app. right. by left.
Qed.

Lemma State_Set_HasError {M} (resp : Response M) (data : M) :
  HasError (State_Set resp data) = HasError resp.
Proof. reflexivity. Qed.

Lemma AddError_State {M} (resp : Response M) summary detail :
  State (AddError resp summary detail) = State resp.
Proof. reflexivity. Qed.

(** ** ServiceResource *)

Section service_resource.
Import ServiceResource.

Variable w : World.
Variable req : Decoded ServiceResourceModel.
Variable resp : Response ServiceResourceModel.

Let data := Get_data req.
Let resp0 := Append resp (Get_diags req).
Let name := types.ValueString (ServiceName data).
Let project := types.ValueString (ProducerProjectId data).

Lemma Create_exists svc :
  HasError resp0 = false ->
  w _ [] (GetService name) = Success svc ->
  run (Create req resp) w =
    (Returns (AddError resp0 "Service already exists"
                ("Service " +:+ name +:+ " already exists")),
     [Called (GetService name)]).
Proof.
  intros Hno Hget. unfold Create. fold data resp0 name. rewrite Hno.
  exec. by rewrite Hget.
Qed.

Lemma Create_lookup_error err :
  HasError resp0 = false ->
  w _ [] (GetService name) = Failure err ->
  Create_not_found err = false ->
  run (Create req resp) w =
    (Returns (AddError resp0 "Error getting service" (Error err)),
     [Called (GetService name)]).
Proof.
  intros Hno Hget Hnf. unfold Create. fold data resp0 name. rewrite Hno.
  exec. rewrite Hget. unfold Create_not_found in Hnf.
  apply orb_false_elim in Hnf as [-> ->]. reflexivity.
Qed.

Lemma Create_not_found_creates err :
  HasError resp0 = false ->
  w _ [] (GetService name) = Failure err ->
  Create_not_found err = true ->
  exists out rest,
    run (Create req resp) w =
      (out, Called (GetService name) :: Called (CreateService name project) :: rest).
Proof.
  intros Hno Hget Hnf. unfold Create. fold data resp0 name project. rewrite Hno.
  exec. rewrite Hget.
  assert (negb (bool_decide (status_Code err = codes.NotFound))
          && negb (GoStrings.Contains (Error err) "not found") = false) as ->.
  { unfold Create_not_found in Hnf. rewrite <- negb_orb, Hnf. done. }
  exec.
  destruct (w _ [Called (GetService name)] (CreateService name project)) as [op|e].
  - exec. destruct (w _ _ (CreateServiceOperation_Wait op)); eauto.
  - eauto.
Qed.

(** Errors of [Create] other than not-found on the lookup: a
    diagnostic with the error's message, the state left as it was. *)
Lemma Create_sdk_errors :
  HasError resp0 = false ->
  forall out log, run (Create req resp) w = (out, log) ->
  forall resp', out = Returns resp' -> HasError resp' = true ->
  State resp' = State resp.
Proof.
  intros Hno out log. unfold Create. fold data resp0 name project. rewrite Hno.
  exec. destruct (w _ [] (GetService name)) as [svc|err].
  - intros [= <- <-] resp' [= <-] _. done.
  - destruct (_ && _).
    + intros [= <- <-] resp' [= <-] _. done.
    + exec. destruct (w _ _ (CreateService name project)) as [op|e].
      * exec. destruct (w _ _ (CreateServiceOperation_Wait op)) as [svc|e].
        -- intros [= <- <-] resp' [= <-]. rewrite State_Set_HasError, Hno.
           discriminate.
        -- intros [= <- <-] resp' [= <-] _. done.
      * intros [= <- <-] resp' [= <-] _. done.
Qed.

(** [Read]: a gRPC not-found leaves the response untouched. *)
Lemma Read_not_found err st :
  HasError resp0 = false ->
  w _ [] (GetService name) = Failure err ->
  GRPCStatus err = Some st -> status.Code st = codes.NotFound ->
  run (Read req resp) w = (Returns resp0, [Called (GetService name)]).
Proof.
  intros Hno Hget Hst Hcode. unfold Read. fold data resp0 name. rewrite Hno.
  exec. rewrite Hget. unfold status_FromError. rewrite Hst, Hcode. reflexivity.
Qed.

End service_resource.

(** C9: [ServiceResource.Create] looks the service up first.  When the
    lookup succeeds it reports that the service already exists and calls
    nothing else; when the lookup fails with something other than
    not-found it reports that error and calls nothing else; the call
    that follows a not-found lookup is [CreateService]. *)
Theorem ServiceResource_Create_looks_up_first
    (w : World) (req : Decoded ServiceResource.ServiceResourceModel)
    (resp : Response ServiceResource.ServiceResourceModel) :
  let data := Get_data req in
  let resp0 := Append resp (Get_diags req) in
  let name := types.ValueString (ServiceResource.ServiceName data) in
  let project := types.ValueString (ServiceResource.ProducerProjectId data) in
  HasError resp0 = false ->
  match w _ [] (GetService name) with
  | Success _ =>
      run (ServiceResource.Create req resp) w =
        (Returns (AddError resp0 "Service already exists"
                    ("Service " +:+ name +:+ " already exists")),
         [Called (GetService name)])
  | Failure err =>
      if Create_not_found err
      then exists out rest,
             run (ServiceResource.Create req resp) w =
               (out, Called (GetService name) :: Called (CreateService name project) :: rest)
      else run (ServiceResource.Create req resp) w =
             (Returns (AddError resp0 "Error getting service" (Error err)),
              [Called (GetService name)])
  end.
Proof.
  intros data resp0 name project Hno.
  destruct (w _ [] (GetService name)) as [svc|err] eqn:Hget.
  - by eapply Create_exists.
  - destruct (Create_not_found err) eqn:Hnf.
    + by eapply Create_not_found_creates.
    + by eapply Create_lookup_error.
Qed.

Lemma ServiceResource_Create_looks_up_first_witness :
  run (ServiceResource.Create (mkDecoded [] examples.service) (examples.fresh None))
      worlds.service_exists
  = (Returns (AddError (examples.fresh None) "Service already exists"
                "Service svc.example.com already exists"),
     [Called (GetService "svc.example.com")]).
Proof.
  exact (ServiceResource_Create_looks_up_first worlds.service_exists
           (mkDecoded [] examples.service) (examples.fresh None) eq_refl).
Defined.

Example ServiceResource_Create_absent :
  run (ServiceResource.Create (mkDecoded [] examples.service) (examples.fresh None))
      worlds.nothing_there
  = (Returns (AddError (examples.fresh None) "Error creating service"
                (Error worlds.unavailable)),
     [Called (GetService "svc.example.com");
      Called (CreateService "svc.example.com" "producer")]).
Proof. reflexivity. Qed.

(** ** Not-found on Read *)

Lemma ServiceResource_Read_absent (w : World) req resp err :
  let resp0 := Append resp (Get_diags req) in
  let name := types.ValueString (ServiceResource.ServiceName (Get_data req)) in
  HasError resp0 = false ->
  w _ [] (GetService name) = Failure err ->
  is_grpc_not_found err ->
  run (ServiceResource.Read req resp) w = (Returns resp0, [Called (GetService name)]).
Proof. intros resp0 name Hno Hget (st & Hst & Hcode). by eapply Read_not_found. Qed.

Lemma ServiceRolloutResource_Read_absent {lib : GoLib} (w : World) req resp err serviceName rolloutId :
  let resp0 := Append resp (Get_diags req) in
  let id := ServiceRolloutResource.Id (Get_data req) in
  HasError resp0 = false ->
  types.IsNull id = false ->
  parseRolloutId (types.ValueString id) = (serviceName, rolloutId, None) ->
  w _ [] (GetServiceRollout serviceName rolloutId) = Failure err ->
  is_grpc_not_found err ->
  run (ServiceRolloutResource.Read req resp) w
  = (Returns resp0, [Called (GetServiceRollout serviceName rolloutId)]).
Proof.
  intros resp0 id Hno Hnull Hparse Hget (st & Hst & Hcode).
  unfold ServiceRolloutResource.Read. fold resp0 id. rewrite Hno, Hnull, Hparse.
  exec. rewrite Hget. unfold status_FromError. rewrite Hst, Hcode. reflexivity.
Qed.

(** [ServiceConfigResource.Read] has no such test: whatever the error of
    the lookup, not-found included, it becomes a diagnostic. *)
Lemma ServiceConfigResource_Read_any_error (w : World) req resp err serviceName configId :
  let resp0 := Append resp (Get_diags req) in
  let id := ServiceConfigResource.Id (Get_data req) in
  HasError resp0 = false ->
  parseConfigId (types.ValueString id) = (serviceName, configId, None) ->
  w _ [] (GetServiceConfig serviceName configId) = Failure err ->
  run (ServiceConfigResource.Read req resp) w
  = (Returns (AddError resp0 "Could not retrieve configuration for service" (Error err)),
     [Called (GetServiceConfig serviceName configId)]).
Proof.
  intros resp0 id Hno Hparse Hget.
  unfold ServiceConfigResource.Read. fold resp0 id. rewrite Hno, Hparse.
  exec. by rewrite Hget.
Qed.

(** C3, at the input where the code departs from it: the service
    configuration of the state is gone and the lookup answers with a gRPC
    not-found.  [ServiceConfigResource.Read] reports an error diagnostic and
    keeps the prior state, where [ServiceResource.Read] and
    [ServiceRolloutResource.Read] return without a diagnostic. *)
Theorem ServiceConfigResource_Read_not_found_is_error :
  is_grpc_not_found worlds.not_found /\
  run (ServiceConfigResource.Read (mkDecoded [] examples.config)
         (examples.fresh (Some examples.config))) worlds.nothing_there
  = (Returns
       (mkResponse
          [diag.NewErrorDiagnostic "Could not retrieve configuration for service"
             "rpc error: code = NotFound desc = no such resource"]
          (Some examples.config)),
     [Called (GetServiceConfig "svc.example.com" "2024r0")]) /\
  run (ServiceResource.Read (mkDecoded [] examples.service)
         (examples.fresh (Some examples.service))) worlds.nothing_there
  = (Returns (examples.fresh (Some examples.service)),
     [Called (GetService "svc.example.com")]) /\
  run (ServiceRolloutResource.Read (lib := sequential.lib)
         (mkDecoded [] examples.rollout_state)
         (examples.fresh (Some examples.rollout_state))) worlds.nothing_there
  = (Returns (examples.fresh (Some examples.rollout_state)),
     [Called (GetServiceRollout "svc.example.com" "r1")]).
Proof.
  split; [|split; [|split]]; [|reflexivity..].
  eexists. split; reflexivity.
Qed.

(** ** SDK errors *)

Lemma ServiceConfigDataSource_Read_error marshal (w : World) req resp err serviceName configID :
  let resp0 := Append resp (Get_diags req) in
  let id := ServiceConfigDataSource.ID (Get_data req) in
  HasError resp0 = false ->
  parseConfigId (types.ValueString id) = (serviceName, configID, None) ->
  w _ [] (GetServiceConfig serviceName configID) = Failure err ->
  run (ServiceConfigDataSource.Read marshal req resp) w
  = (Returns (AddError resp0 "Failed to get service config" (Error err)),
     [Called (GetServiceConfig serviceName configID)]).
Proof.
  intros resp0 id Hno Hparse Hget.
  unfold ServiceConfigDataSource.Read. fold resp0 id. rewrite Hno, Hparse.
  exec. by rewrite Hget.
Qed.

Lemma ServiceTenancyUnitResource_Create_error (w : World) req resp err :
  let resp0 := Append resp (Get_diags req) in
  HasError resp0 = false ->
  (forall parent id, w _ [] (TenancyUnits_Create parent id) = Failure err) ->
  exists parent id,
    run (ServiceTenancyUnitResource.Create req resp) w
    = (Returns (AddError resp0 "Error creating tenancy unit" (Error err)),
       [Called (TenancyUnits_Create parent id)]).
Proof.
  intros resp0 Hno Hcreate.
  unfold ServiceTenancyUnitResource.Create. fold resp0. rewrite Hno.
  exec. rewrite Hcreate. eauto.
Qed.

(** An error diagnostic added to a response keeps its state and carries
    the message of the error as its detail. *)
Lemma AddError_surfaces {M} (resp : Response M) summary (err : error) :
  State (AddError resp summary (Error err)) = State resp /\
  diag.NewErrorDiagnostic summary (Error err) ∈ Diagnostics (AddError resp summary (Error err)) /\
  HasError (AddError resp summary (Error err)) = true.
Proof.
  split; [done|]. split; [apply AddError_elem | apply AddError_HasError].
Qed.

Section rollout.
Context {lib : GoLib}.
Import ServiceRolloutResource.

(** [createRollout] adds the diagnostic to its own copy. *)
Lemma createRollout_error (w : World) data diagnostics log err svc cfg :
  types.IsNull (ConfigId data) = false ->
  parseConfigId (types.ValueString (ConfigId data)) = (svc, cfg, None) ->
  w _ log (CreateServiceRollout svc {[ cfg := float64_100 ]}) = Failure err ->
  createRollout data diagnostics w log
  = (Returns (None, diag.AddError diagnostics "Error creating service rollout" (Error err)),
     log ++ [Called (CreateServiceRollout svc {[ cfg := float64_100 ]})]).
Proof.
  intros Hnull Hparse Hcall. unfold createRollout. rewrite Hnull, Hparse. cbn [negb].
  rewrite bind_call. by rewrite Hcall.
Qed.

(** The handler does not see it and dereferences the nil pointer. *)
Lemma createOrUpdate_error_panics (w : World) decoded resp err svc cfg :
  let data := Get_data decoded in
  let resp0 := Append resp (Get_diags decoded) in
  HasError resp0 = false ->
  types.IsNull (ConfigId data) = false ->
  parseConfigId (types.ValueString (ConfigId data)) = (svc, cfg, None) ->
  w _ [] (CreateServiceRollout svc {[ cfg := float64_100 ]}) = Failure err ->
  run (createOrUpdate decoded resp) w
  = (Panics nil_dereference, [Called (CreateServiceRollout svc {[ cfg := float64_100 ]})]).
Proof.
  intros data resp0 Hno Hnull Hparse Hcall.
  unfold createOrUpdate, run. fold data resp0. rewrite Hno.
  unfold mbind at 1, Exec_bind at 1.
  rewrite (createRollout_error w data _ [] err svc cfg Hnull Hparse Hcall).
  reflexivity.
Qed.
End rollout.

(** C6, at the input where the code departs from it: creating a rollout
    for a configuration when [CreateServiceRollout] is refused.
    [createRollout] adds the diagnostic with the error's message to the
    copy of the diagnostics it was handed and returns nil; the handler,
    whose own diagnostics hold no error, dereferences the nil pointer and
    panics, so no diagnostic reaches the user.  The same refusal in
    [ServiceResource.Create] ends in the diagnostic C6 describes. *)
Theorem ServiceRolloutResource_Create_error_panics :
  ServiceRolloutResource.createRollout (lib := sequential.lib)
      examples.rollout [] worlds.nothing_there []
  = (Returns (None,
              [diag.NewErrorDiagnostic "Error creating service rollout"
                 (Error worlds.permission_denied)]),
     [Called (CreateServiceRollout "svc.example.com" {[ "2024r0" := float64_100 ]})]) /\
  run (ServiceRolloutResource.Create (lib := sequential.lib)
         (mkDecoded [] examples.rollout) (examples.fresh None)) worlds.nothing_there
  = (Panics nil_dereference,
     [Called (CreateServiceRollout "svc.example.com" {[ "2024r0" := float64_100 ]})]) /\
  run (ServiceRolloutResource.Update (lib := sequential.lib)
         (mkDecoded [] examples.rollout) (examples.fresh (Some examples.rollout_state)))
      worlds.nothing_there
  = (Panics nil_dereference,
     [Called (CreateServiceRollout "svc.example.com" {[ "2024r0" := float64_100 ]})]) /\
  run (ServiceResource.Create (mkDecoded [] examples.service) (examples.fresh None))
      worlds.nothing_there
  = (Returns (mkResponse [diag.NewErrorDiagnostic "Error creating service"
                            (Error worlds.unavailable)] None),
     [Called (GetService "svc.example.com");
      Called (CreateService "svc.example.com" "producer")]).
Proof. repeat split; vm_compute; reflexivity. Qed.

(** ** The polling loop of the tenant-project resource *)

Section polling.
Import ServiceProjectResource.

Variable w : World.

Lemma awaitDone_done fuel op log :
  op_Done op = true -> awaitDone fuel op w log = (Returns (Success op), log).
Proof. intros Hdone. destruct fuel; cbn [awaitDone]; by rewrite Hdone. Qed.

Lemma awaitDone_step fuel op log :
  op_Done op = false ->
  awaitDone (S fuel) op w log =
    match w _ (log ++ [Called (time_Sleep (5 * time.Second))])
            (Operations_Get (op_Name op)) with
    | Failure err => (Returns (Failure err), log ++ poll_round op)
    | Success op' => awaitDone fuel op' w (log ++ poll_round op)
    end.
Proof.
  intros Hdone. cbn [awaitDone]. rewrite Hdone.
  rewrite bind_call, bind_call, <- app_assoc. cbn [app].
  by destruct (w _ _ (Operations_Get (op_Name op))).
Qed.

Lemma slept_app log1 log2 : slept (log1 ++ log2) = (slept log1 + slept log2)%Z.
Proof.
  unfold slept. induction log1 as [|e log1 IH]; cbn [app foldr]; [done|].
  rewrite IH. lia.
Qed.

(** Every round sleeps five seconds, whatever came before. *)
Lemma slept_rounds pending :
  slept (flat_map poll_round pending) = (5 * time.Second * Z.of_nat (length pending))%Z.
Proof.
  induction pending as [|o pending IH]; [done|].
  cbn [flat_map]. rewrite slept_app, IH. cbn [length]. cbn. lia.
Qed.

(** While every poll answers with an operation that is not done, the
    loop is never left: it is running whatever the bound. *)
Lemma awaitDone_never_done :
  (forall log name, exists op',
      w _ log (Operations_Get name) = Success op' /\ op_Done op' = false) ->
  forall fuel op log, op_Done op = false ->
  exists pending,
    length pending = fuel /\
    awaitDone fuel op w log = (StillRunning, log ++ flat_map poll_round pending).
Proof.
  intros Hw. induction fuel as [|fuel IH]; intros op log Hdone.
  - exists []. cbn [awaitDone]. rewrite Hdone. cbn. by rewrite app_nil_r.
  - rewrite awaitDone_step by done.
    destruct (Hw (log ++ [Called (time_Sleep (5 * time.Second))]) (op_Name op))
      as (op' & -> & Hdone').
    destruct (IH op' (log ++ poll_round op) Hdone') as (pending & Hlen & ->).
    exists (op :: pending). split; [cbn; lia|]. cbn [flat_map]. by rewrite app_assoc.
Qed.

(** Once the loop has been left, a larger bound changes nothing. *)
Lemma awaitDone_enough fuel : forall op log r log',
  awaitDone fuel op w log = (Returns r, log') ->
  forall more, awaitDone (fuel + more) op w log = (Returns r, log').
Proof.
  induction fuel as [|fuel IH]; intros op log r log' Hrun more.
  - cbn [awaitDone] in Hrun. destruct (op_Done op) eqn:Hdone; [|done].
    injection Hrun as <- <-. by apply awaitDone_done.
  - destruct (op_Done op) eqn:Hdone.
    + rewrite awaitDone_done in Hrun by done. injection Hrun as <- <-.
      by apply awaitDone_done.
    + cbn [Nat.add]. rewrite awaitDone_step in * by done.
      destruct (w _ _ (Operations_Get (op_Name op))); [by apply IH | done].
Qed.

(** The loop is left as soon as a poll finds the operation done. *)
Lemma awaitDone_completes op log op' :
  op_Done op = false ->
  w _ (log ++ [Called (time_Sleep (5 * time.Second))]) (Operations_Get (op_Name op))
    = Success op' ->
  op_Done op' = true ->
  forall fuel, awaitDone (S fuel) op w log = (Returns (Success op'), log ++ poll_round op).
Proof.
  intros Hdone Hget Hdone' fuel. rewrite awaitDone_step by done. rewrite Hget.
  by apply awaitDone_done.
Qed.

End polling.

(** ** The handlers of the tenant-project resource *)

Section project_handlers.
Import ServiceProjectResource.

Variable ServiceProjectConfigModel : Type.
Variable toProjectConfig : ServiceProjectConfigModel -> option TenantProjectConfig.
Variable types_Object : Type.
Variable w : World.
Variable req : Decoded (ServiceProjectResourceModel types_Object).
Variable req_config : Decoded ServiceProjectConfigModel.
Variable resp : Response (ServiceProjectResourceModel types_Object).

Let data := Get_data req.
Let resp0 := Append resp (Get_diags req).
Let resp1 := Append resp0 (Get_diags req_config).
Let tenancyUnitID := types.ValueString (TenancyUnit data).
Let tag := types.ValueString (Tag data).
Let projectConfig := toProjectConfig (Get_data req_config).

Hypothesis decoded : HasError resp0 = false.
Hypothesis decoded_config : HasError resp1 = false.

Lemma Create_after_AddProject fuel op :
  w _ [] (TenancyUnits_AddProject tenancyUnitID tag projectConfig) = Success op ->
  run (Create toProjectConfig fuel req req_config resp) w =
    after_loop (storeProject data resp1 w) resp1
      (awaitDone fuel op w [Called (TenancyUnits_AddProject tenancyUnitID tag projectConfig)]).
Proof.
  intros Hadd. unfold Create, run. fold data resp0. rewrite decoded.
  fold resp1. rewrite decoded_config. fold tenancyUnitID tag projectConfig.
  rewrite bind_call, Hadd. cbn [app]. unfold mbind at 1, Exec_bind at 1, after_loop.
  by destruct (awaitDone fuel op w _) as [[[op'|err]|msg|] log].
Qed.

Lemma Update_after_ApplyProjectConfig fuel op :
  w _ [] (TenancyUnits_ApplyProjectConfig tenancyUnitID tag projectConfig) = Success op ->
  run (Update toProjectConfig fuel req req_config resp) w =
    after_loop (storeProject data resp1 w) resp1
      (awaitDone fuel op w [Called (TenancyUnits_ApplyProjectConfig tenancyUnitID tag projectConfig)]).
Proof.
  intros Happly. unfold Update, run. fold data resp0. rewrite decoded.
  fold resp1. rewrite decoded_config. fold tenancyUnitID tag projectConfig.
  rewrite bind_call, Happly. cbn [app]. unfold mbind at 1, Exec_bind at 1, after_loop.
  by destruct (awaitDone fuel op w _) as [[[op'|err]|msg|] log].
Qed.

Lemma Delete_after_RemoveProject fuel op :
  w _ [] (TenancyUnits_RemoveProject tenancyUnitID tag) = Success op ->
  run (Delete fuel req resp) w =
    after_loop (fun log => (Returns resp0, log)) resp0
      (awaitDone fuel op w [Called (TenancyUnits_RemoveProject tenancyUnitID tag)]).
Proof.
  intros Hremove. unfold Delete, run. fold data resp0. rewrite decoded.
  fold tenancyUnitID tag. rewrite bind_call, Hremove. cbn [app].
  unfold mbind at 1, Exec_bind at 1, after_loop.
  by destruct (awaitDone fuel op w _) as [[[op'|err]|msg|] log].
Qed.

(** [storeProject] panics when the lookup finds nothing. *)
Lemma storeProject_absent log log' :
  getTenantProject tenancyUnitID tag w log = (Returns (None, None), log') ->
  storeProject data resp1 w log = (Panics "project not found", log').
Proof.
  intros Hget. unfold storeProject. fold tenancyUnitID tag.
  unfold mbind, Exec_bind. by rewrite Hget.
Qed.

End project_handlers.

(** The tenancy unit is listed but holds no resource under the tag: the
    lookup finds nothing. *)
Lemma getTenantProject_no_such_tag (w : World) tenancyUnitID tag log units tenancyUnit :
  let parent := GoStrings.Split tenancyUnitID "/tenancyUnits/" !!! 0%nat in
  w _ log (TenancyUnits_List parent) = Success units ->
  List.find (fun tu => GoStringsFold.EqualFold (tu_Name tu) tenancyUnitID) units
    = Some tenancyUnit ->
  Forall (fun resource => tr_Tag resource <> tag) (tu_TenantResources tenancyUnit) ->
  ServiceProjectResource.getTenantProject tenancyUnitID tag w log
  = (Returns (None, None), log ++ [Called (TenancyUnits_List parent)]).
Proof.
  intros parent Hlist Hfind Hnone.
  unfold ServiceProjectResource.getTenantProject, ServiceTenancyUnitResource.getTenancyUnit.
  fold parent. rewrite bind_bind, bind_call, Hlist, bind_ret, Hfind.
  replace (List.find _ (tu_TenantResources tenancyUnit)) with (@None TenantResource); [done|].
  symmetry. induction Hnone as [|resource rest Hne _ IH]; [done|].
  cbn [List.find]. by rewrite bool_decide_eq_false_2.
Qed.

(** The listing holds no tenancy unit of that name, or the listing
    itself answers not-found: nothing is found either. *)
Lemma getTenantProject_no_such_unit (w : World) tenancyUnitID tag log units :
  let parent := GoStrings.Split tenancyUnitID "/tenancyUnits/" !!! 0%nat in
  w _ log (TenancyUnits_List parent) = Success units ->
  List.find (fun tu => GoStringsFold.EqualFold (tu_Name tu) tenancyUnitID) units = None ->
  ServiceProjectResource.getTenantProject tenancyUnitID tag w log
  = (Returns (None, None), log ++ [Called (TenancyUnits_List parent)]).
Proof.
  intros parent Hlist Hfind.
  unfold ServiceProjectResource.getTenantProject, ServiceTenancyUnitResource.getTenancyUnit.
  fold parent. by rewrite bind_bind, bind_call, Hlist, bind_ret, Hfind.
Qed.

(** C10: [Create] and [Update] of the tenant-project resource panic with
    "project not found" when the operation has completed and the lookup
    that follows finds nothing, which is the case whenever the tenancy
    unit holds no resource under the configured tag. *)
Theorem ServiceProject_panics_when_project_absent
    (ServiceProjectConfigModel types_Object : Type)
    (toProjectConfig : ServiceProjectConfigModel -> option TenantProjectConfig)
    (w : World) (fuel : nat)
    (req : Decoded (ServiceProjectResource.ServiceProjectResourceModel types_Object))
    (req_config : Decoded ServiceProjectConfigModel)
    (resp : Response (ServiceProjectResource.ServiceProjectResourceModel types_Object)) :
  let data := Get_data req in
  let tenancyUnitID := types.ValueString (ServiceProjectResource.TenancyUnit data) in
  let tag := types.ValueString (ServiceProjectResource.Tag data) in
  let projectConfig := toProjectConfig (Get_data req_config) in
  let absent log log' :=
    ServiceProjectResource.getTenantProject tenancyUnitID tag w log = (Returns (None, None), log') in
  HasError (Append resp (Get_diags req)) = false ->
  HasError (Append (Append resp (Get_diags req)) (Get_diags req_config)) = false ->
  (forall op op' log log',
     w _ [] (TenancyUnits_AddProject tenancyUnitID tag projectConfig) = Success op ->
     ServiceProjectResource.awaitDone fuel op w
       [Called (TenancyUnits_AddProject tenancyUnitID tag projectConfig)]
       = (Returns (Success op'), log) ->
     absent log log' ->
     run (ServiceProjectResource.Create toProjectConfig fuel req req_config resp) w
     = (Panics "project not found", log')) /\
  (forall op op' log log',
     w _ [] (TenancyUnits_ApplyProjectConfig tenancyUnitID tag projectConfig) = Success op ->
     ServiceProjectResource.awaitDone fuel op w
       [Called (TenancyUnits_ApplyProjectConfig tenancyUnitID tag projectConfig)]
       = (Returns (Success op'), log) ->
     absent log log' ->
     run (ServiceProjectResource.Update toProjectConfig fuel req req_config resp) w
     = (Panics "project not found", log')) /\
  (forall log units tenancyUnit,
     w _ log (TenancyUnits_List (GoStrings.Split tenancyUnitID "/tenancyUnits/" !!! 0%nat))
       = Success units ->
     List.find (fun tu => GoStringsFold.EqualFold (tu_Name tu) tenancyUnitID) units
       = Some tenancyUnit ->
     Forall (fun resource => tr_Tag resource <> tag) (tu_TenantResources tenancyUnit) ->
     absent log
       (log ++ [Called (TenancyUnits_List (GoStrings.Split tenancyUnitID "/tenancyUnits/" !!! 0%nat))])).
Proof.
  intros data tenancyUnitID tag projectConfig absent Hno0 Hno1. split; [|split].
  - intros op op' log log' Hadd Hloop Habsent.
    rewrite (Create_after_AddProject _ _ _ w req req_config resp Hno0 Hno1 fuel op Hadd).
    fold data tenancyUnitID tag projectConfig. rewrite Hloop. cbn [after_loop].
    by apply storeProject_absent.
  - intros op op' log log' Happly Hloop Habsent.
    rewrite (Update_after_ApplyProjectConfig _ _ _ w req req_config resp Hno0 Hno1
               fuel op Happly).
    fold data tenancyUnitID tag projectConfig. rewrite Hloop. cbn [after_loop].
    by apply storeProject_absent.
  - intros log units tenancyUnit Hlist Hfind Hnone.
    by eapply getTenantProject_no_such_tag.
Qed.

Lemma ServiceProject_panics_when_project_absent_witness :
  run (examples.Project_Create 5) (worlds.tenancy 3 examples.unit_name [])
  = (Panics "project not found",
     [Called (TenancyUnits_AddProject examples.unit_name "tenant-a" None)]
     ++ flat_map ServiceProjectResource.poll_round
          (replicate 3 (mkOperation "operations/add" false))
     ++ [Called (TenancyUnits_List "services/svc.example.com/projects/1")]).
Proof.
  eapply (proj1 (ServiceProject_panics_when_project_absent unit unit (fun _ => None)
                   (worlds.tenancy 3 examples.unit_name []) 5
                   (mkDecoded [] examples.project) (mkDecoded [] tt)
                   (examples.fresh None) eq_refl eq_refl));
    reflexivity.
Defined.

Section polling_chain.
Import ServiceProjectResource.

Variable w : World.

Lemma last_answer_step log op op' pending r :
  w _ (log ++ [Called (time_Sleep (5 * time.Second))]) (Operations_Get (op_Name op))
  = Success op' ->
  last_answer w (log ++ poll_round op) op' pending r ->
  last_answer w log op (op :: pending) r.
Proof.
  intros Hget [[-> ->]|(earlier & o & -> & Hlast)]; right.
  - exists [], op. split; [done|]. exact Hget.
  - exists (op :: earlier), o. split; [done|]. rewrite <- Hlast. f_equal.
    cbn [flat_map]. by rewrite <- !app_assoc.
Qed.

Lemma polled_step log op op' pending :
  w _ (log ++ [Called (time_Sleep (5 * time.Second))]) (Operations_Get (op_Name op))
  = Success op' ->
  polled w (log ++ poll_round op) op' pending ->
  polled w log op (op :: pending).
Proof.
  intros Hget Hrest. cbn [polled]. split; [done|].
  destruct pending as [|o' rest]; [done|].
  destruct Hrest as [-> Hrest]. split; [done|]. by split.
Qed.

(** The loop, round by round: what it went round for, what it logged
    and what it had in hand when it was left or ran out of rounds. *)
Lemma awaitDone_chain fuel : forall op log,
  exists pending : list Operation,
    Forall pending_op pending /\
    length pending <= fuel /\
    polled w log op pending /\
    (awaitDone fuel op w log).2 = log ++ flat_map poll_round pending /\
    match (awaitDone fuel op w log).1 with
    | Returns (Success op') => op_Done op' = true /\ last_answer w log op pending (Success op')
    | Returns (Failure err) =>
        exists earlier o,
          pending = earlier ++ [o] /\
          w _ (log ++ flat_map poll_round earlier
               ++ [Called (time_Sleep (5 * time.Second))])
            (Operations_Get (op_Name o)) = Failure err
    | StillRunning =>
        length pending = fuel /\
        exists op', op_Done op' = false /\ last_answer w log op pending (Success op')
    | Panics _ => False
    end.
Proof.
  induction fuel as [|fuel IH]; intros op log.
  - exists []. destruct (op_Done op) eqn:Hdone.
    + rewrite awaitDone_done by done. cbn [fst snd flat_map length polled].
      rewrite app_nil_r. split; [constructor|]. split; [lia|]. split; [done|].
      split; [done|]. split; [done|]. by left.
    + cbn [awaitDone]. rewrite Hdone. cbn [still_running fst snd flat_map length polled].
      rewrite app_nil_r. split; [constructor|]. split; [lia|]. split; [done|].
      split; [done|]. split; [done|]. exists op. split; [done|]. by left.
  - destruct (op_Done op) eqn:Hdone.
    + exists []. rewrite awaitDone_done by done. cbn [fst snd flat_map length polled].
      rewrite app_nil_r. split; [constructor|]. split; [lia|]. split; [done|].
      split; [done|]. split; [done|]. by left.
    + rewrite awaitDone_step by done.
      destruct (w _ _ (Operations_Get (op_Name op))) as [op'|err] eqn:Hget.
      * destruct (IH op' (log ++ poll_round op))
          as (pending & Hall & Hlen & Hchain & Hlog & Hout).
        exists (op :: pending). split; [by constructor|]. split; [cbn; lia|].
        split; [by apply (polled_step log op op')|].
        split; [rewrite Hlog; cbn [flat_map]; by rewrite app_assoc|].
        destruct (awaitDone fuel op' w (log ++ poll_round op)).1 as [[op''|err]|msg|];
          [| |done|].
        -- destruct Hout as [Hdone' Hlast]. split; [done|].
           by apply (last_answer_step log op op').
        -- destruct Hout as (earlier & o & -> & Hfail).
           exists (op :: earlier), o. split; [done|].
           rewrite <- Hfail. f_equal. cbn [flat_map]. by rewrite <- !app_assoc.
        -- destruct Hout as (Hfuel & op'' & Hdone' & Hlast). split; [cbn; lia|].
           exists op''. split; [done|]. by apply (last_answer_step log op op').
      * exists [op]. split; [by repeat constructor|]. split; [cbn; lia|].
        split; [done|].
        cbn [fst snd flat_map]. rewrite app_nil_r. split; [done|].
        exists [], op. cbn [flat_map app]. by rewrite Hget.
Qed.

End polling_chain.

(** C5: the loop of [Create], [Update] and [Delete] of the tenant-project
    resource.  Its log is a sequence of rounds, each a sleep of five
    seconds followed by one fetch of the operation in hand, one round per
    operation found not done; the operations it goes round for are the
    one the initial call returned and then the answers of the polls.  It
    is left only with a done operation, which is the one in hand (the
    initial one, or the answer of the last poll), or with the error of a
    failed poll, which it returns at once and which the handler reports
    as "Error getting operation"; while the polls keep answering not-done
    it is still running whatever the bound, with an operation in hand
    that is not done, and once it has been left a larger bound changes
    nothing. *)
Theorem tenant_project_polls_until_done (w : World) :
  (forall fuel op log,
     exists pending : list Operation,
       Forall pending_op pending /\
       length pending <= fuel /\
       polled w log op pending /\
       (ServiceProjectResource.awaitDone fuel op w log).2
         = log ++ flat_map ServiceProjectResource.poll_round pending /\
       slept (ServiceProjectResource.awaitDone fuel op w log).2
         = (slept log + 5 * time.Second * Z.of_nat (length pending))%Z /\
       match (ServiceProjectResource.awaitDone fuel op w log).1 with
       | Returns (Success op') =>
           op_Done op' = true /\ last_answer w log op pending (Success op')
       | Returns (Failure err) =>
           exists earlier o,
             pending = earlier ++ [o] /\
             w _ (log ++ flat_map ServiceProjectResource.poll_round earlier
                  ++ [Called (time_Sleep (5 * time.Second))])
               (Operations_Get (op_Name o)) = Failure err
       | StillRunning =>
           length pending = fuel /\
           exists op', op_Done op' = false /\ last_answer w log op pending (Success op')
       | Panics _ => False
       end) /\
  ((forall log name, exists op',
       w _ log (Operations_Get name) = Success op' /\ op_Done op' = false) ->
   forall fuel op log, op_Done op = false ->
     (ServiceProjectResource.awaitDone fuel op w log).1 = StillRunning) /\
  (forall fuel op log r log',
     ServiceProjectResource.awaitDone fuel op w log = (Returns r, log') ->
     forall more, ServiceProjectResource.awaitDone (fuel + more) op w log = (Returns r, log')) /\
  (forall (ServiceProjectConfigModel types_Object : Type)
          (toProjectConfig : ServiceProjectConfigModel -> option TenantProjectConfig)
          (fuel : nat)
          (req : Decoded (ServiceProjectResource.ServiceProjectResourceModel types_Object))
          (req_config : Decoded ServiceProjectConfigModel)
          (resp : Response (ServiceProjectResource.ServiceProjectResourceModel types_Object)),
     let data := Get_data req in
     let resp0 := Append resp (Get_diags req) in
     let resp1 := Append resp0 (Get_diags req_config) in
     let tenancyUnitID := types.ValueString (ServiceProjectResource.TenancyUnit data) in
     let tag := types.ValueString (ServiceProjectResource.Tag data) in
     let projectConfig := toProjectConfig (Get_data req_config) in
     HasError resp0 = false -> HasError resp1 = false ->
     (forall op,
        w _ [] (TenancyUnits_AddProject tenancyUnitID tag projectConfig) = Success op ->
        run (ServiceProjectResource.Create toProjectConfig fuel req req_config resp) w =
          after_loop (ServiceProjectResource.storeProject data resp1 w) resp1
            (ServiceProjectResource.awaitDone fuel op w
               [Called (TenancyUnits_AddProject tenancyUnitID tag projectConfig)])) /\
     (forall op,
        w _ [] (TenancyUnits_ApplyProjectConfig tenancyUnitID tag projectConfig) = Success op ->
        run (ServiceProjectResource.Update toProjectConfig fuel req req_config resp) w =
          after_loop (ServiceProjectResource.storeProject data resp1 w) resp1
            (ServiceProjectResource.awaitDone fuel op w
               [Called (TenancyUnits_ApplyProjectConfig tenancyUnitID tag projectConfig)])) /\
     (forall op,
        w _ [] (TenancyUnits_RemoveProject tenancyUnitID tag) = Success op ->
        run (ServiceProjectResource.Delete fuel req resp) w =
          after_loop (fun log => (Returns resp0, log)) resp0
            (ServiceProjectResource.awaitDone fuel op w
               [Called (TenancyUnits_RemoveProject tenancyUnitID tag)]))) /\
  (forall fuel op log,
     (op_Done op = true ->
      ServiceProjectResource.awaitDone fuel op w log = (Returns (Success op), log)) /\
     (op_Done op = false ->
      forall err,
        w _ (log ++ [Called (time_Sleep (5 * time.Second))]) (Operations_Get (op_Name op))
        = Failure err ->
        ServiceProjectResource.awaitDone (S fuel) op w log
        = (Returns (Failure err), log ++ ServiceProjectResource.poll_round op)) /\
     (op_Done op = false ->
      forall op',
        w _ (log ++ [Called (time_Sleep (5 * time.Second))]) (Operations_Get (op_Name op))
        = Success op' ->
        ServiceProjectResource.awaitDone (S fuel) op w log
        = ServiceProjectResource.awaitDone fuel op' w
            (log ++ ServiceProjectResource.poll_round op))) /\
  (forall (A : Type) continue (resp : Response A) err log,
     after_loop continue resp (Returns (Failure err), log)
     = (Returns (AddError resp "Error getting operation" (Error err)), log) /\
     State (AddError resp "Error getting operation" (Error err)) = State resp /\
     HasError (AddError resp "Error getting operation" (Error err)) = true).
Proof.
  split; [|split; [|split; [|split; [|split]]]].
  - intros fuel op log.
    destruct (awaitDone_chain w fuel op log) as (pending & Hall & Hlen & Hchain & Hlog & Hout).
    exists pending. repeat (split; [done|]). split; [|done].
    by rewrite Hlog, slept_app, slept_rounds.
  - intros Hw fuel op log Hdone.
    by destruct (awaitDone_never_done w Hw fuel op log Hdone) as (pending & _ & ->).
  - apply awaitDone_enough.
  - intros SPCM TO toProjectConfig fuel req req_config resp
      data resp0 resp1 tenancyUnitID tag projectConfig Hno0 Hno1.
    split; [|split]; intros op Hcall.
    + by apply Create_after_AddProject.
    + by apply Update_after_ApplyProjectConfig.
    + by apply Delete_after_RemoveProject.
  - intros fuel op log. split; [|split].
    + intros Hdone. by apply awaitDone_done.
    + intros Hdone err Hget. rewrite awaitDone_step by done. by rewrite Hget.
    + intros Hdone op' Hget. rewrite awaitDone_step by done. by rewrite Hget.
  - intros A continue resp err log. split; [done|]. split; [done|]. apply AddError_HasError.
Qed.

(** Deleting a tenant project whose operation is done at the third poll:
    three rounds, fifteen seconds slept. *)
Lemma tenant_project_polls_until_done_witness :
  run (ServiceProjectResource.Delete 7 (mkDecoded [] examples.project)
         (examples.fresh (Some examples.project)))
      (worlds.tenancy 3 examples.unit_name [])
  = (Returns (examples.fresh (Some examples.project)),
     [Called (TenancyUnits_RemoveProject examples.unit_name "tenant-a")]
     ++ flat_map ServiceProjectResource.poll_round
          (replicate 3 (mkOperation "operations/remove" false))).
Proof.
  pose proof (tenant_project_polls_until_done (worlds.tenancy 3 examples.unit_name []))
    as (_ & _ & _ & Hhandlers & _).
  destruct (Hhandlers unit unit (fun _ => None) 7%nat (mkDecoded [] examples.project)
              (mkDecoded [] tt) (examples.fresh (Some examples.project))
              eq_refl eq_refl) as (_ & _ & Hdelete).
  rewrite (Hdelete _ eq_refl). reflexivity.
Defined.

Example tenant_project_still_polling :
  run (examples.Project_Create 2) (worlds.tenancy 3 examples.unit_name [])
  = (StillRunning,
     [Called (TenancyUnits_AddProject examples.unit_name "tenant-a" None)]
     ++ flat_map ServiceProjectResource.poll_round
          (replicate 2 (mkOperation "operations/add" false))).
Proof. reflexivity. Qed.

(** ** The Dart-versions data source: requests *)

Section dart_requests.
Context {lib : GoLib}.
Import DartVersions.

Variable w : World.

Lemma listVersions_log channel log :
  exists r, listVersions channel w log = (Returns r, log ++ listing_calls [channel]).
Proof.
  unfold listVersions. rewrite bind_call.
  destruct (w _ log _) as [resp|err]; [|by eexists].
  destruct (negb _); [by eexists|].
  destruct (Body_prefixes resp); by eexists.
Qed.

Lemma goroutines_log channels : forall log,
  exists rs,
    goroutines channels w log = (Returns rs, log ++ listing_calls channels) /\
    rs.*1 = channels.
Proof.
  induction channels as [|channel rest IH]; intros log.
  - exists []. cbn. by rewrite app_nil_r.
  - cbn [goroutines]. destruct (listVersions_log channel log) as [r Hr].
    destruct (IH (log ++ listing_calls [channel])) as (rs & Hrs & Hfst).
    exists ((channel, r) :: rs). split; [|cbn; by rewrite Hfst].
    unfold mbind at 1, Exec_bind at 1. rewrite Hr.
    unfold mbind at 1, Exec_bind at 1. rewrite Hrs.
    cbn. by rewrite <- app_assoc.
Qed.

Lemma fanOut_log channels log :
  exists rs,
    fanOut channels w log
    = (Returns (finishOrder rs), log ++ listing_calls (startOrder channels)) /\
    rs.*1 = startOrder channels.
Proof.
  destruct (goroutines_log (startOrder channels) log) as (rs & Hrs & Hfst).
  exists rs. split; [|done]. unfold fanOut, mbind, Exec_bind. by rewrite Hrs.
Qed.

Lemma semver_New_log version log :
  (semver_New version w log).2 = log.
Proof. unfold semver_New. by destruct (semver.NewVersion version). Qed.

Lemma retain_log minVersion includePrerelease keys : forall versions log,
  (retain minVersion includePrerelease keys versions w log).2 = log.
Proof.
  induction keys as [|version keys IH]; intros versions log; [done|].
  cbn [retain]. unfold semver_New.
  destruct (semver.NewVersion version) as [v|]; [|done].
  rewrite bind_ret. destruct (semver.LessThan v minVersion); [apply IH|].
  destruct includePrerelease as [[]|]; [apply IH| |apply IH].
  destruct (negb _); apply IH.
Qed.

Lemma ReadContainers_log req resp :
  HasError (Append resp (Get_diags req)) = false ->
  (run (ReadContainers req resp) w).2 = listing_calls (startOrder fixed_channels).
Proof.
  intros Hno. unfold ReadContainers, run. rewrite Hno.
  destruct (fanOut_log fixed_channels []) as (rs & Hrs & _).
  unfold mbind at 1, Exec_bind at 1. rewrite Hrs. cbn [app].
  unfold mbind at 1, Exec_bind at 1. unfold semver_New.
  destruct (semver.NewVersion _) as [v|]; [|done]. cbn [mret Exec_ret].
  unfold mbind, Exec_bind.
  pose proof (retain_log v (Some (types.ValueBool (c_IncludePrerelease (Get_data req))))
                (rangeSet (receive (finishOrder rs) ∅)) []
                (listing_calls (startOrder fixed_channels))) as Hlog.
  destruct (retain _ _ _ _ _ _) as [[vs|msg|] log']; by cbn in *.
Qed.

Lemma ReadChannels_log req resp diags channels :
  HasError (Append resp (Get_diags req)) = false ->
  effective_channels (Get_data req) = (diags, channels) ->
  HasError (Append (Append resp (Get_diags req)) diags) = false ->
  (run (ReadChannels req resp) w).2 = listing_calls (startOrder channels).
Proof.
  intros Hno Heff Hno'. unfold ReadChannels, run. rewrite Hno, Heff, Hno'.
  destruct (fanOut_log channels []) as (rs & Hrs & _).
  unfold mbind at 1, Exec_bind at 1. rewrite Hrs. cbn [app].
  unfold mbind at 1, Exec_bind at 1. unfold semver_New.
  destruct (semver.NewVersion _) as [v|]; [|done]. cbn [mret Exec_ret].
  unfold mbind, Exec_bind.
  pose proof (retain_log v None (rangeSet (receive (finishOrder rs) ∅)) []
                (listing_calls (startOrder channels))) as Hlog.
  destruct (retain _ _ _ _ _ _) as [[vs|msg|] log']; by cbn in *.
Qed.

Lemma effective_channels_default model :
  types.List_IsNull (Channels model) || types.List_IsUnknown (Channels model) = true ->
  effective_channels model = ([], ["stable"]).
Proof. unfold effective_channels. by destruct (Channels model). Qed.

Lemma known_strings_values (l : list string) :
  types.known_strings (types.StringValue <$> l) = Some l.
Proof. induction l as [|s l IH]; [done|]. cbn. by rewrite IH. Qed.

Lemma effective_channels_configured model (l : list string) :
  Channels model = types.ListValue (types.StringValue <$> l) ->
  effective_channels model = ([], l).
Proof.
  intros Hl. unfold effective_channels. rewrite Hl. cbn.
  by rewrite known_strings_values.
Qed.

End dart_requests.

(** ** The order of semantic versions *)

Section three_way.

Lemma tw_tie_r {A} (cmp : A -> A -> Z) (H : ThreeWay cmp) a b c :
  cmp b c = 0%Z -> cmp a b = cmp a c.
Proof.
  intros Hbc. assert (cmp c b = 0%Z) as Hcb by (rewrite (tw_antisym _ H); lia).
  pose proof (tw_tie _ H c b a Hcb) as Heq.
  rewrite (tw_antisym _ H a c), (tw_antisym _ H a b) in Heq. lia.
Qed.

Lemma ThreeWay_zcmp {A} (f : A -> Z) : ThreeWay (fun a b => zcmp (f a) (f b)).
Proof.
  split; unfold zcmp.
  - intros a b. destruct (Z.gtb_spec (f b) (f a)), (Z.gtb_spec (f a) (f b)),
      (Z.ltb_spec (f b) (f a)), (Z.ltb_spec (f a) (f b)); lia.
  - intros a b c. destruct (Z.gtb_spec (f a) (f b)), (Z.ltb_spec (f a) (f b)); try lia.
    intros _. by replace (f a) with (f b) by lia.
  - intros a b c.
    destruct (Z.gtb_spec (f a) (f b)), (Z.ltb_spec (f a) (f b)),
      (Z.gtb_spec (f b) (f c)), (Z.ltb_spec (f b) (f c)),
      (Z.gtb_spec (f a) (f c)), (Z.ltb_spec (f a) (f c)); lia.
Qed.

Lemma ThreeWay_lexcmp {A} (c1 c2 : A -> A -> Z) :
  ThreeWay c1 -> ThreeWay c2 -> ThreeWay (fun a b => lexcmp (c1 a b) (c2 a b)).
Proof.
  intros H1 H2. split; unfold lexcmp.
  - intros a b. rewrite (tw_antisym _ H1 a b), (tw_antisym _ H2 a b).
    destruct (Z.eqb_spec (c1 a b) 0), (Z.eqb_spec (- c1 a b) 0); cbn [negb]; lia.
  - intros a b c. destruct (Z.eqb_spec (c1 a b) 0) as [E1|]; cbn [negb]; [|done].
    intros E2. by rewrite (tw_tie _ H1 a b c E1), (tw_tie _ H2 a b c E2).
  - intros a b c.
    destruct (Z.eqb_spec (c1 a b) 0) as [E1|N1]; cbn [negb].
    + intros L2. rewrite (tw_tie _ H1 a b c E1).
      destruct (Z.eqb_spec (c1 b c) 0) as [E1'|N1']; cbn [negb]; [|done].
      by apply (tw_lt _ H2).
    + intros L1. destruct (Z.eqb_spec (c1 b c) 0) as [E1'|N1']; cbn [negb].
      * intros _. rewrite <- (tw_tie_r _ H1 a b c E1').
        destruct (Z.eqb_spec (c1 a b) 0); cbn [negb]; lia.
      * intros L1'. pose proof (tw_lt _ H1 a b c L1 L1').
        destruct (Z.eqb_spec (c1 a c) 0); cbn [negb]; lia.
Qed.

Lemma String_ltb_lt a b : String.ltb a b = true <-> (a ?= b)%string = Lt.
Proof. unfold String.ltb. destruct (a ?= b)%string; split; congruence. Qed.

Lemma String_compare_refl a : (a ?= a)%string = Eq.
Proof.
  induction a as [|c a IH]; cbn [String.compare]; [done|].
  unfold Ascii.compare. by rewrite N.compare_refl.
Qed.

Lemma String_compare_lt_trans a b c :
  (a ?= b)%string = Lt -> (b ?= c)%string = Lt -> (a ?= c)%string = Lt.
Proof.
  intros Hab Hbc.
  assert (String.le a b) as Lab by (unfold String.le, String.leb; by rewrite Hab).
  assert (String.le b c) as Lbc by (unfold String.le, String.leb; by rewrite Hbc).
  pose proof (transitivity Lab Lbc) as Lac.
  unfold String.le, String.leb in Lac.
  destruct (a ?= c)%string eqn:Hac; [|done|done].
  apply String.compare_eq_iff in Hac as ->.
  rewrite String.compare_antisym, Hab in Hbc. done.
Qed.

Lemma scmp_cases a b :
  (scmp a b = 0%Z /\ a = b) \/
  (scmp a b = (-1)%Z /\ (a ?= b)%string = Lt) \/
  (scmp a b = 1%Z /\ (b ?= a)%string = Lt).
Proof.
  unfold scmp, String.ltb.
  pose proof (String.compare_antisym b a) as Hba.
  destruct (a ?= b)%string eqn:Hab; rewrite Hba; cbn.
  - left. split; [done|]. by apply String.compare_eq_iff.
  - right. left. done.
  - right. right. done.
Qed.

Lemma String_lt_irrefl a : (a ?= a)%string = Lt -> False.
Proof. by rewrite String_compare_refl. Qed.

Lemma String_lt_asym a b : (a ?= b)%string = Lt -> (b ?= a)%string = Lt -> False.
Proof. intros Hab Hba. rewrite String.compare_antisym, Hab in Hba. done. Qed.

Lemma ThreeWay_scmp : ThreeWay scmp.
Proof.
  split.
  - intros a b.
    destruct (scmp_cases a b) as [[Eab Hab]|[[Eab Hab]|[Eab Hab]]],
             (scmp_cases b a) as [[Eba Hba]|[[Eba Hba]|[Eba Hba]]];
      rewrite Eab, Eba; try done; subst; exfalso;
      eauto using String_lt_irrefl, String_lt_asym.
  - intros a b c Hab.
    destruct (scmp_cases a b) as [[_ ->]|[[E _]|[E _]]]; [done|lia..].
  - intros a b c Hab Hbc.
    destruct (scmp_cases a b) as [[E _]|[[_ Lab]|[E _]]]; [lia| |lia].
    destruct (scmp_cases b c) as [[E _]|[[_ Lbc]|[E _]]]; [lia| |lia].
    pose proof (String_compare_lt_trans _ _ _ Lab Lbc) as Lac.
    destruct (scmp_cases a c) as [[_ ->]|[[-> _]|[_ Lca]]]; [|lia|]; exfalso;
      eauto using String_lt_irrefl, String_lt_asym.
Qed.

End three_way.

Section semver_order.
Import semver.

Lemma ThreeWay_ext {A} (c1 c2 : A -> A -> Z) :
  (forall a b, c1 a b = c2 a b) -> ThreeWay c1 -> ThreeWay c2.
Proof.
  intros Heq H. split; intros *; rewrite <- !Heq; [apply H | apply H | apply H].
Qed.

Lemma compareIdentifier_lex a b :
  compareIdentifier a b =
  lexcmp (zcmp (identifier_class a) (identifier_class b))
    (lexcmp (zcmp (identifier_value a) (identifier_value b)) (scmp a b)).
Proof.
  unfold compareIdentifier, identifier_class, identifier_value, scmp.
  destruct (strconv.Atoi a) as [aI|], (strconv.Atoi b) as [bI|]; try reflexivity.
  unfold lexcmp, zcmp. cbn [Z.gtb Z.ltb Z.compare Z.eqb negb].
  destruct (Z.gtb_spec aI bI), (Z.ltb_spec aI bI); try lia; reflexivity.
Qed.

Lemma ThreeWay_compareIdentifier : ThreeWay compareIdentifier.
Proof.
  eapply ThreeWay_ext; [intros a b; symmetry; apply compareIdentifier_lex|].
  apply (ThreeWay_lexcmp (fun a b => zcmp (identifier_class a) (identifier_class b))
           (fun a b => lexcmp (zcmp (identifier_value a) (identifier_value b)) (scmp a b))).
  - apply ThreeWay_zcmp.
  - apply (ThreeWay_lexcmp (fun a b => zcmp (identifier_value a) (identifier_value b)) scmp).
    + apply ThreeWay_zcmp.
    + apply ThreeWay_scmp.
Qed.

Lemma ThreeWay_recursivePreReleaseCompare : ThreeWay recursivePreReleaseCompare.
Proof.
  pose proof ThreeWay_compareIdentifier as HC. split.
  - induction a as [|x a IH]; intros [|y b]; cbn [recursivePreReleaseCompare]; try done.
    rewrite (tw_antisym _ HC x y).
    destruct (Z.eqb_spec (compareIdentifier x y) 0),
             (Z.eqb_spec (- compareIdentifier x y) 0); try lia. apply IH.
  - induction a as [|x a IH]; intros [|y b] c; cbn [recursivePreReleaseCompare];
      try done.
    destruct (Z.eqb_spec (compareIdentifier x y) 0) as [E|N]; [|lia].
    intros Hab. destruct c as [|z c]; [done|]. cbn [recursivePreReleaseCompare].
    rewrite (tw_tie _ HC x y z E). destruct (_ =? 0)%Z; [by apply IH | done].
  - induction a as [|x a IH]; intros [|y b] [|z c]; cbn [recursivePreReleaseCompare];
      try lia.
    destruct (Z.eqb_spec (compareIdentifier x y) 0) as [E1|N1].
    + intros L1. rewrite (tw_tie _ HC x y z E1).
      destruct (Z.eqb_spec (compareIdentifier y z) 0) as [E2|N2]; [by apply IH | done].
    + intros L1. destruct (Z.eqb_spec (compareIdentifier y z) 0) as [E2|N2].
      * intros _. rewrite <- (tw_tie_r _ HC x y z E2).
        destruct (Z.eqb_spec (compareIdentifier x y) 0); lia.
      * intros L2. pose proof (tw_lt _ HC x y z L1 L2).
        destruct (Z.eqb_spec (compareIdentifier x z) 0); lia.
Qed.

Lemma preReleaseCompare_empty a b :
  PreRelease a = "" -> PreRelease b = "" -> preReleaseCompare a b = 0%Z.
Proof. intros Ha Hb. unfold preReleaseCompare. by rewrite Ha, Hb. Qed.

Lemma preReleaseCompare_empty_l a b :
  PreRelease a = "" -> PreRelease b <> "" -> preReleaseCompare a b = 1%Z.
Proof.
  intros Ha Hb. unfold preReleaseCompare. rewrite Ha.
  by destruct (PreRelease b).
Qed.

Lemma preReleaseCompare_empty_r a b :
  PreRelease a <> "" -> PreRelease b = "" -> preReleaseCompare a b = (-1)%Z.
Proof.
  intros Ha Hb. unfold preReleaseCompare. rewrite Hb.
  by destruct (PreRelease a).
Qed.

Lemma preReleaseCompare_nonempty a b :
  PreRelease a <> "" -> PreRelease b <> "" ->
  preReleaseCompare a b =
  recursivePreReleaseCompare (PreRelease_Slice (PreRelease a)) (PreRelease_Slice (PreRelease b)).
Proof.
  intros Ha Hb. unfold preReleaseCompare.
  by destruct (PreRelease a), (PreRelease b).
Qed.

Lemma ThreeWay_preReleaseCompare : ThreeWay preReleaseCompare.
Proof.
  pose proof ThreeWay_recursivePreReleaseCompare as HL.
  assert (forall v, PreRelease v = "" \/ PreRelease v <> "") as Hdec.
  { intros v. destruct (PreRelease v); [by left | by right]. }
  split.
  - intros a b. destruct (Hdec a) as [Ha|Ha], (Hdec b) as [Hb|Hb].
    + by rewrite (preReleaseCompare_empty a b), (preReleaseCompare_empty b a).
    + by rewrite (preReleaseCompare_empty_l a b), (preReleaseCompare_empty_r b a).
    + by rewrite (preReleaseCompare_empty_r a b), (preReleaseCompare_empty_l b a).
    + rewrite (preReleaseCompare_nonempty a b), (preReleaseCompare_nonempty b a) by done.
      apply HL.
  - intros a b c. destruct (Hdec a) as [Ha|Ha], (Hdec b) as [Hb|Hb].
    + intros _. destruct (Hdec c) as [Hc|Hc].
      * by rewrite (preReleaseCompare_empty a c), (preReleaseCompare_empty b c).
      * by rewrite (preReleaseCompare_empty_l a c), (preReleaseCompare_empty_l b c).
    + by rewrite (preReleaseCompare_empty_l a b).
    + by rewrite (preReleaseCompare_empty_r a b).
    + rewrite (preReleaseCompare_nonempty a b) by done. intros Hab.
      destruct (Hdec c) as [Hc|Hc].
      * by rewrite (preReleaseCompare_empty_r a c), (preReleaseCompare_empty_r b c).
      * rewrite (preReleaseCompare_nonempty a c), (preReleaseCompare_nonempty b c) by done.
        by apply HL.
  - intros a b c. destruct (Hdec a) as [Ha|Ha].
    { destruct (Hdec b) as [Hb|Hb];
        [by rewrite (preReleaseCompare_empty a b)
        | by rewrite (preReleaseCompare_empty_l a b)]. }
    destruct (Hdec b) as [Hb|Hb].
    { intros _. destruct (Hdec c) as [Hc|Hc];
        [by rewrite (preReleaseCompare_empty b c)
        | by rewrite (preReleaseCompare_empty_l b c)]. }
    destruct (Hdec c) as [Hc|Hc].
    { intros _ _. by rewrite (preReleaseCompare_empty_r a c). }
    rewrite (preReleaseCompare_nonempty a b), (preReleaseCompare_nonempty b c),
      (preReleaseCompare_nonempty a c) by done.
    apply HL.
Qed.

Lemma recursiveCompare_lex v w :
  recursiveCompare (Slice v) (Slice w) =
  lexcmp (zcmp (Major v) (Major w))
    (lexcmp (zcmp (Minor v) (Minor w)) (zcmp (Patch v) (Patch w))).
Proof.
  unfold Slice, lexcmp, zcmp. cbn [recursiveCompare].
  destruct (Major v >? Major w)%Z, (Major v <? Major w)%Z,
           (Minor v >? Minor w)%Z, (Minor v <? Minor w)%Z,
           (Patch v >? Patch w)%Z, (Patch v <? Patch w)%Z; reflexivity.
Qed.

Theorem ThreeWay_Compare : ThreeWay Compare.
Proof.
  apply (ThreeWay_ext
           (fun v w => lexcmp (recursiveCompare (Slice v) (Slice w)) (preReleaseCompare v w)));
    [done|].
  apply (ThreeWay_lexcmp (fun v w => recursiveCompare (Slice v) (Slice w)) preReleaseCompare);
    [|apply ThreeWay_preReleaseCompare].
  eapply ThreeWay_ext; [intros v w; symmetry; apply recursiveCompare_lex|].
  apply (ThreeWay_lexcmp (fun v w => zcmp (Major v) (Major w))
           (fun v w => lexcmp (zcmp (Minor v) (Minor w)) (zcmp (Patch v) (Patch w))));
    [apply (ThreeWay_zcmp Major)|].
  apply (ThreeWay_lexcmp (fun v w => zcmp (Minor v) (Minor w))
           (fun v w => zcmp (Patch v) (Patch w)));
    [apply (ThreeWay_zcmp Minor) | apply (ThreeWay_zcmp Patch)].
Qed.

Lemma LessThan_asym v w : LessThan v w = true -> LessThan w v = false.
Proof.
  unfold LessThan. rewrite (tw_antisym _ ThreeWay_Compare v w).
  intros H%Z.ltb_lt. apply Z.ltb_ge. lia.
Qed.

Lemma LessThan_trans u v w :
  LessThan u v = true -> LessThan v w = true -> LessThan u w = true.
Proof.
  unfold LessThan. intros H1%Z.ltb_lt H2%Z.ltb_lt. apply Z.ltb_lt.
  by apply (tw_lt _ ThreeWay_Compare u v w).
Qed.

End semver_order.

(** ** Sorting *)

Lemma ascending_StronglySorted l :
  StronglySorted not_after l -> semver.ascending l.
Proof.
  induction 1 as [|a l Hsorted IH Hall]; intros i j x y Hij Hi Hj.
  - by rewrite lookup_nil in Hi.
  - destruct j as [|j]; [lia|]. cbn in Hj. destruct i as [|i].
    + cbn in Hi. injection Hi as <-. rewrite Forall_forall in Hall.
      apply Hall. by eapply list_elem_of_lookup_2.
    + cbn in Hi. eapply IH; [|done..]. lia.
Qed.

Section insertion_sort.
Import sequential.

Lemma insert_perm v l : insert v l ≡ₚ v :: l.
Proof.
  induction l as [|w l IH]; [done|]. cbn [insert].
  destruct (semver.LessThan v w); [done|]. rewrite IH. apply Permutation_swap.
Qed.

Lemma Sort_perm l : Sort l ≡ₚ l.
Proof.
  induction l as [|v l IH]; [done|]. cbn [Sort foldr]. fold (Sort l).
  by rewrite insert_perm, IH.
Qed.

Lemma insert_sorted v l :
  StronglySorted not_after l -> StronglySorted not_after (insert v l).
Proof.
  induction 1 as [|w l Hsorted IH Hall]; cbn [insert].
  - by repeat constructor.
  - destruct (semver.LessThan v w) eqn:Hvw.
    + constructor; [by constructor|]. constructor.
      * by apply LessThan_asym.
      * eapply Forall_impl; [exact Hall|]. intros x Hwx. unfold not_after in *.
        destruct (semver.LessThan x v) eqn:Hxv; [|done].
        by rewrite (LessThan_trans x v w Hxv Hvw) in Hwx.
    + constructor; [done|]. rewrite insert_perm. by constructor.
Qed.

Lemma Sort_sorted l : StronglySorted not_after (Sort l).
Proof.
  induction l as [|v l IH]; [constructor|]. cbn [Sort foldr]. by apply insert_sorted.
Qed.
End insertion_sort.

(** The runtime of [sequential] is an admissible one. *)
Lemma sequential_spec : GoLibSpec sequential.lib.
Proof.
  split; cbn; try done.
  - apply Sort_perm.
  - intros l. apply ascending_StronglySorted, Sort_sorted.
Qed.

Section sort_strings.

Lemma Strings_insert_perm x l : sort.insert x l ≡ₚ x :: l.
Proof.
  induction l as [|y l IH]; [done|]. cbn [sort.insert].
  destruct (String.leb x y); [done|]. rewrite IH. apply Permutation_swap.
Qed.

Lemma Strings_perm l : sort.Strings l ≡ₚ l.
Proof.
  induction l as [|x l IH]; [done|]. cbn [sort.Strings foldr]. fold (sort.Strings l).
  by rewrite Strings_insert_perm, IH.
Qed.

Lemma Strings_insert_sorted x l :
  StronglySorted String.le l -> StronglySorted String.le (sort.insert x l).
Proof.
  induction 1 as [|y l Hsorted IH Hall]; cbn [sort.insert].
  - by repeat constructor.
  - destruct (String.leb x y) eqn:Hxy.
    + assert (String.le x y) as Lxy by (unfold String.le; by rewrite Hxy).
      constructor; [by constructor|]. constructor; [done|].
      eapply Forall_impl; [exact Hall|]. intros z Lyz. by etrans.
    + assert (String.le y x) as Lyx.
      { destruct (total String.le x y) as [L|L]; [|done].
        unfold String.le in L. by rewrite Hxy in L. }
      constructor; [done|]. rewrite Strings_insert_perm. by constructor.
Qed.

(** [sort.Strings] returns its argument in ascending byte order. *)
Lemma Strings_sorted l : StronglySorted String.le (sort.Strings l).
Proof.
  induction l as [|x l IH]; [constructor|]. cbn [sort.Strings foldr].
  by apply Strings_insert_sorted.
Qed.

End sort_strings.

(** ** The Dart-versions data source: the computed lists *)

Section dart_lists.
Context {lib : GoLib} {spec : GoLibSpec lib}.
Import DartVersions.

Variable w : World.

Lemma all_parse keys :
  (forall s, s ∈ keys -> is_Some (semver.NewVersion s)) ->
  exists parsed, Forall2 parses_to keys parsed.
Proof.
  induction keys as [|s keys IH]; intros Hall; [by exists []|].
  destruct (Hall s) as [v Hv]; [by left|].
  destruct IH as [parsed Hparsed]; [intros; apply Hall; by right|].
  exists (v :: parsed). by constructor.
Qed.

(** The filtering loop returns the kept versions, in the order of
    the keys. *)
Lemma retain_spec minVersion includePrerelease keys parsed :
  Forall2 parses_to keys parsed ->
  forall versions log,
    retain minVersion includePrerelease keys versions w log
    = (Returns (versions ++ List.filter (kept minVersion includePrerelease) parsed), log).
Proof.
  induction 1 as [|s v keys parsed Hv _ IH]; intros versions log.
  - cbn. by rewrite app_nil_r.
  - cbn [retain List.filter]. unfold semver_New. rewrite Hv, bind_ret.
    unfold kept at 1. destruct (semver.LessThan v minVersion); cbn [negb andb]; [apply IH|].
    destruct includePrerelease as [[]|]; [| |].
    + rewrite IH, <- app_assoc. done.
    + destruct (bool_decide (semver.PreRelease v = "")); cbn [negb]; [|apply IH].
      rewrite IH, <- app_assoc. done.
    + rewrite IH, <- app_assoc. done.
Qed.

(** It panics on the first key that does not parse. *)
Lemma retain_panics minVersion includePrerelease keys :
  (exists s, s ∈ keys /\ semver.NewVersion s = None) ->
  forall versions log, exists msg,
    retain minVersion includePrerelease keys versions w log = (Panics msg, log).
Proof.
  induction keys as [|s keys IH]; intros (bad & Hin & Hbad) versions log.
  - by apply elem_of_nil in Hin.
  - cbn [retain]. unfold semver_New.
    destruct (semver.NewVersion s) as [v|] eqn:Hv; [|by eexists].
    rewrite bind_ret. apply elem_of_cons in Hin as [->|Hin]; [congruence|].
    destruct (semver.LessThan v minVersion); [apply IH; eauto|].
    destruct includePrerelease as [[]|]; [apply IH; eauto| |apply IH; eauto].
    destruct (negb _); apply IH; eauto.
Qed.

(** The fetched strings behind the kept versions. *)
Lemma kept_preimage minVersion includePrerelease keys parsed :
  Forall2 parses_to keys parsed -> NoDup keys ->
  exists ks,
    NoDup ks /\
    (forall s, s ∈ ks <-> s ∈ keys /\ kept_string minVersion includePrerelease s) /\
    semver.NewVersion <$> ks
    = Some <$> List.filter (kept minVersion includePrerelease) parsed.
Proof.
  induction 1 as [|s v keys parsed Hv _ IH]; intros Hnodup.
  - exists []. split; [constructor|]. split; [|done].
    intros s. split; [by intros ?%elem_of_nil | by intros [?%elem_of_nil _]].
  - apply NoDup_cons in Hnodup as [Hnotin Hnodup].
    destruct (IH Hnodup) as (ks & Hks & Hmem & Hmap).
    cbn [List.filter]. destruct (kept minVersion includePrerelease v) eqn:Hkept.
    + exists (s :: ks). split; [|split].
      * apply NoDup_cons. split; [|done]. intros Hin. apply Hnotin. by apply Hmem.
      * intros s'. rewrite !elem_of_cons, Hmem. split.
        -- intros [->|[Hin Hk]]; [|by auto]. split; [by left|]. by exists v.
        -- intros [[->|Hin] Hk]; [by left | by right].
      * cbn. by rewrite Hv, Hmap.
    + exists ks. split; [done|]. split; [|done].
      intros s'. rewrite elem_of_cons, Hmem. split; [by intros [? ?]; auto|].
      intros [[->|Hin] Hk]; [|done].
      destruct Hk as (v' & Hv' & Hk). unfold parses_to in Hv. congruence.
Qed.

(** The sorted kept versions of a set of fetched strings. *)
Lemma semver_Sort_retained minVersion includePrerelease versionsSet parsed :
  Forall2 parses_to (rangeSet versionsSet) parsed ->
  retained_sorted minVersion includePrerelease versionsSet
    (semver_Sort (List.filter (kept minVersion includePrerelease) parsed)).
Proof.
  intros Hparsed.
  assert (NoDup (rangeSet versionsSet)) as Hnodup.
  { rewrite rangeSet_perm. apply NoDup_elements. }
  destruct (kept_preimage minVersion includePrerelease _ _ Hparsed Hnodup)
    as (ks & Hks & Hmem & Hmap).
  assert (forall s, s ∈ ks <->
            s ∈ versionsSet /\ kept_string minVersion includePrerelease s) as Hmem'.
  { intros s. by rewrite Hmem, rangeSet_perm, elem_of_elements. }
  assert (semver.NewVersion <$> ks
          ≡ₚ Some <$> semver_Sort (List.filter (kept minVersion includePrerelease) parsed))
    as Hperm.
  { rewrite Hmap. apply fmap_Permutation. symmetry. apply semver_Sort_perm. }
  split; [apply semver_Sort_ascending|]. split; [by exists ks|].
  intros Hcanon.
  assert (semver.String <$> semver_Sort (List.filter (kept minVersion includePrerelease) parsed)
          ≡ₚ ks) as Hprinted.
  { set (print := fun o : option semver.Version => from_option semver.String "" o).
    transitivity (print <$> (Some <$> semver_Sort
                    (List.filter (kept minVersion includePrerelease) parsed))).
    { rewrite <- list_fmap_compose. done. }
    rewrite <- Hperm, <- list_fmap_compose.
    rewrite <- (list_fmap_id ks) at 2. apply Permutation_refl'.
    apply list_fmap_ext. intros i s Hs. apply list_elem_of_lookup_2 in Hs.
    apply Hmem' in Hs as [Hs _]. destruct (Hcanon s Hs) as (v & Hv & Hprint).
    cbn. by rewrite Hv. }
  split; [by rewrite Hprinted|]. intros s. by rewrite Hprinted.
Qed.

Lemma receive_elem finished : forall acc s,
  s ∈ receive finished acc <->
  s ∈ acc \/ exists channel versions,
               (channel, Success versions) ∈ finished /\ s ∈ versions.
Proof.
  induction finished as [|[channel [versions|err]] rest IH]; intros acc s;
    cbn [receive].
  - split; [by left|]. intros [?|(c & vs & ?%elem_of_nil & _)]; done.
  - rewrite IH, elem_of_union, elem_of_list_to_set. split.
    + intros [[?|?]|(c & vs & Hin & Hs)]; [by left| |].
      * right. exists channel, versions. split; [by left | done].
      * right. exists c, vs. split; [by right | done].
    + intros [?|(c & vs & Hin & Hs)]; [by left; left|].
      apply elem_of_cons in Hin as [[= -> ->]|Hin]; [by left; right|].
      right. by exists c, vs.
  - rewrite IH. split.
    + intros [?|(c & vs & Hin & Hs)]; [by left|].
      right. exists c, vs. split; [by right | done].
    + intros [?|(c & vs & Hin & Hs)]; [by left|].
      apply elem_of_cons in Hin as [[=]|Hin]. right. by exists c, vs.
Qed.

(** The first error of the group, in the order of finishing. *)
Lemma Wait_first finished err :
  Wait finished = Some err ->
  exists before channel after,
    finished = before ++ (channel, Failure err) :: after /\
    Forall (fun p => exists versions, p.2 = Success versions) before.
Proof.
  induction finished as [|[channel [versions|e]] rest IH]; cbn [Wait]; [done| |].
  - intros (before & c & after & -> & Hall)%IH.
    exists ((channel, Success versions) :: before), c, after.
    split; [done|]. constructor; [by eexists | done].
  - intros [= ->]. by exists [], channel, rest.
Qed.

End dart_lists.

Section dart_reads.
Context {lib : GoLib} {spec : GoLibSpec lib}.
Import DartVersions.

Variable w : World.

Lemma ReadChannels_returns req resp diags channels finished log minVersion parsed :
  let model := Get_data req in
  let resp0 := Append resp (Get_diags req) in
  let resp1 := Append resp0 diags in
  HasError resp0 = false ->
  effective_channels model = (diags, channels) ->
  HasError resp1 = false ->
  fanOut channels w [] = (Returns finished, log) ->
  parses_to (types.ValueString (MinVersion model)) minVersion ->
  Forall2 parses_to (rangeSet (receive finished ∅)) parsed ->
  run (ReadChannels req resp) w =
    (Returns
       (State_Set (reported resp1 (Wait finished))
          (mkChannelModel (SdkType model) (MinVersion model) (Channels model)
             (types.StringValue (types.ValueString (SdkType model) +:+ "/"
                                 +:+ types.ValueString (MinVersion model)))
             (types.StringList
                (semver.String <$>
                   semver_Sort (List.filter (kept minVersion None) parsed))))),
     log).
Proof.
  intros model resp0 resp1 Hno Heff Hno1 Hfan Hmin Hparsed.
  unfold ReadChannels, run. fold model resp0. rewrite Hno, Heff. fold resp1.
  rewrite Hno1. unfold mbind at 1, Exec_bind at 1. rewrite Hfan.
  unfold semver_New. rewrite Hmin, bind_ret.
  unfold mbind, Exec_bind. by rewrite (retain_spec w minVersion None _ _ Hparsed).
Qed.

Lemma ReadContainers_returns req resp finished log minVersion parsed :
  let model := Get_data req in
  let resp0 := Append resp (Get_diags req) in
  let includePrerelease := types.ValueBool (c_IncludePrerelease model) in
  let versions :=
    semver_Sort (List.filter (kept minVersion (Some includePrerelease)) parsed) in
  HasError resp0 = false ->
  fanOut fixed_channels w [] = (Returns finished, log) ->
  parses_to (types.ValueString (c_MinVersion model)) minVersion ->
  Forall2 parses_to (rangeSet (receive finished ∅)) parsed ->
  run (ReadContainers req resp) w =
    (Returns
       (State_Set (reported resp0 (Wait finished))
          (mkContainerModel (c_SdkType model) (c_MinVersion model)
             (types.BoolValue includePrerelease)
             (types.StringValue (types.ValueString (c_SdkType model) +:+ "/"
                                 +:+ types.ValueString (c_MinVersion model)))
             (types.StringList (semver.String <$> versions))
             (types.StringList (containerVersions versions)))),
     log).
Proof.
  intros model resp0 includePrerelease versions Hno Hfan Hmin Hparsed.
  unfold ReadContainers, run. fold model resp0. rewrite Hno.
  unfold mbind at 1, Exec_bind at 1. rewrite Hfan.
  unfold semver_New. rewrite Hmin, bind_ret.
  unfold mbind, Exec_bind.
  by rewrite (retain_spec w minVersion (Some includePrerelease) _ _ Hparsed).
Qed.

(** A read panics when a fetched string does not parse. *)
Lemma ReadChannels_panics req resp diags channels finished log minVersion bad :
  let model := Get_data req in
  let resp0 := Append resp (Get_diags req) in
  HasError resp0 = false ->
  effective_channels model = (diags, channels) ->
  HasError (Append resp0 diags) = false ->
  fanOut channels w [] = (Returns finished, log) ->
  parses_to (types.ValueString (MinVersion model)) minVersion ->
  bad ∈ receive finished ∅ -> semver.NewVersion bad = None ->
  exists msg, run (ReadChannels req resp) w = (Panics msg, log).
Proof.
  intros model resp0 Hno Heff Hno1 Hfan Hmin Hin Hbad.
  unfold ReadChannels, run. fold model resp0. rewrite Hno, Heff, Hno1.
  unfold mbind at 1, Exec_bind at 1. rewrite Hfan.
  unfold semver_New. rewrite Hmin, bind_ret.
  destruct (retain_panics w minVersion None (rangeSet (receive finished ∅)))
    with (versions := @nil semver.Version) (log := log) as [msg Hmsg].
  { exists bad. split; [|done]. rewrite rangeSet_perm. by apply elem_of_elements. }
  exists msg. unfold mbind, Exec_bind. by rewrite Hmsg.
Qed.

Lemma containerVersionSet_elem versions s :
  s ∈ containerVersionSet versions <->
  exists v, v ∈ versions /\ s = containerVersion v.
Proof.
  unfold containerVersionSet.
  assert (forall acc : gset string,
            s ∈ foldl (fun set version => set ∪ {[containerVersion version]}) acc versions
            <-> s ∈ acc \/ exists v, v ∈ versions /\ s = containerVersion v) as Hgen.
  { induction versions as [|v versions IH]; intros acc; cbn [foldl].
    - split; [by left|]. intros [?|(v & ?%elem_of_nil & _)]; done.
    - rewrite IH, elem_of_union, elem_of_singleton. split.
      + intros [[?| ->]|(v' & Hin & ->)]; [by left| |].
        * right. exists v. split; [by left | done].
        * right. exists v'. split; [by right | done].
      + intros [?|(v' & Hin & ->)]; [by left; left|].
        apply elem_of_cons in Hin as [-> |Hin]; [by left; right|].
        right. by exists v'. }
  rewrite Hgen. split; [|by right]. intros [?%elem_of_empty|?]; done.
Qed.

Lemma containerVersions_perm versions :
  containerVersions versions ≡ₚ elements (containerVersionSet versions).
Proof. unfold containerVersions. by rewrite Strings_perm, rangeSet_perm. Qed.

End dart_reads.

(** C7: a read of the Dart-versions data source issues one listing
    request per entry of its channel list, and nothing else: the fixed
    list [stable, beta, dev] in the variant with [include_prerelease], the
    configured [channels], or [stable] alone when none is configured, in
    the other; the request for a channel asks for the prefix
    [channels/{channel}/release/]. *)
Theorem dart_one_request_per_channel {lib : GoLib} (spec : GoLibSpec lib) (w : World) :
  (forall req resp,
     HasError (Append resp (Get_diags req)) = false ->
     (run (DartVersions.ReadContainers req resp) w).2
     ≡ₚ listing_calls ["stable"; "beta"; "dev"]) /\
  (forall req resp diags channels,
     HasError (Append resp (Get_diags req)) = false ->
     DartVersions.effective_channels (Get_data req) = (diags, channels) ->
     HasError (Append (Append resp (Get_diags req)) diags) = false ->
     (run (DartVersions.ReadChannels req resp) w).2 ≡ₚ listing_calls channels) /\
  (forall model,
     types.List_IsNull (DartVersions.Channels model)
     || types.List_IsUnknown (DartVersions.Channels model) = true ->
     DartVersions.effective_channels model = ([], ["stable"])) /\
  (forall model (configured : list string),
     DartVersions.Channels model = types.ListValue (types.StringValue <$> configured) ->
     DartVersions.effective_channels model = ([], configured)) /\
  (forall channel,
     DartVersions.listing_request channel
     = mkHttpRequest "https://www.googleapis.com/storage/v1/b/dart-archive/o"
         [("delimiter", "/"); ("prefix", "channels/" +:+ channel +:+ "/release/")]).
Proof.
  split; [|split; [|split; [|split]]].
  - intros req resp Hno. rewrite (ReadContainers_log w req resp Hno).
    unfold listing_calls. apply fmap_Permutation, startOrder_perm.
  - intros req resp diags channels Hno Heff Hno'.
    rewrite (ReadChannels_log w req resp diags channels Hno Heff Hno').
    unfold listing_calls. apply fmap_Permutation, startOrder_perm.
  - apply effective_channels_default.
  - apply effective_channels_configured.
  - done.
Qed.

Lemma dart_one_request_per_channel_witness :
  (run (DartVersions.ReadChannels (lib := sequential.lib)
          (mkDecoded []
             (examples.dart_channels
                (types.ListValue [types.StringValue "stable"; types.StringValue "beta"])))
          (examples.fresh None))
       (worlds.bucket [("stable", examples.stable_listing);
                       ("beta", examples.beta_listing)])).2
  ≡ₚ listing_calls ["stable"; "beta"].
Proof.
  apply (proj1 (proj2 (dart_one_request_per_channel sequential_spec _))
           _ _ [] ["stable"; "beta"]); reflexivity.
Defined.

(** C1, amended: the versions list of the two variants, for fetched
    strings that parse, is in ascending semantic-version order and
    holds one entry per distinct fetched string that is not less than
    [min_version] (and, where pre-releases are excluded, has no pre-release
    part); when the fetched strings are spelled the way [String] prints
    versions, the list has no duplicates and holds exactly those
    strings. *)
Theorem dart_versions_retained_sorted {lib : GoLib} (spec : GoLibSpec lib) (w : World) :
  (forall req resp diags channels finished log minVersion,
     let model := Get_data req in
     let resp0 := Append resp (Get_diags req) in
     let versionsSet := DartVersions.receive finished ∅ in
     HasError resp0 = false ->
     DartVersions.effective_channels model = (diags, channels) ->
     HasError (Append resp0 diags) = false ->
     DartVersions.fanOut channels w [] = (Returns finished, log) ->
     parses_to (types.ValueString (DartVersions.MinVersion model)) minVersion ->
     (forall s, s ∈ versionsSet -> is_Some (semver.NewVersion s)) ->
     exists resp' model' versions,
       run (DartVersions.ReadChannels req resp) w = (Returns resp', log) /\
       State resp' = Some model' /\
       DartVersions.Versions model' = types.StringList (semver.String <$> versions) /\
       retained_sorted minVersion None versionsSet versions) /\
  (forall req resp finished log minVersion,
     let model := Get_data req in
     let resp0 := Append resp (Get_diags req) in
     let versionsSet := DartVersions.receive finished ∅ in
     let includePrerelease := types.ValueBool (DartVersions.c_IncludePrerelease model) in
     HasError resp0 = false ->
     DartVersions.fanOut DartVersions.fixed_channels w [] = (Returns finished, log) ->
     parses_to (types.ValueString (DartVersions.c_MinVersion model)) minVersion ->
     (forall s, s ∈ versionsSet -> is_Some (semver.NewVersion s)) ->
     exists resp' model' versions,
       run (DartVersions.ReadContainers req resp) w = (Returns resp', log) /\
       State resp' = Some model' /\
       DartVersions.c_Versions model' = types.StringList (semver.String <$> versions) /\
       retained_sorted minVersion (Some includePrerelease) versionsSet versions).
Proof.
  split.
  - intros req resp diags channels finished log minVersion model resp0 versionsSet
      Hno Heff Hno1 Hfan Hmin Hall.
    destruct (all_parse (rangeSet versionsSet)) as [parsed Hparsed].
    { intros s Hs. apply Hall. rewrite rangeSet_perm in Hs. by apply elem_of_elements. }
    eexists _, _, _. split; [by eapply ReadChannels_returns|].
    split; [done|]. split; [done|]. by apply semver_Sort_retained.
  - intros req resp finished log minVersion model resp0 versionsSet includePrerelease
      Hno Hfan Hmin Hall.
    destruct (all_parse (rangeSet versionsSet)) as [parsed Hparsed].
    { intros s Hs. apply Hall. rewrite rangeSet_perm in Hs. by apply elem_of_elements. }
    eexists _, _, _. split; [by eapply ReadContainers_returns|].
    split; [done|]. split; [done|]. by apply semver_Sort_retained.
Qed.

Lemma dart_versions_retained_sorted_witness :
  exists resp' model' versions,
    run (DartVersions.ReadChannels (lib := sequential.lib)
           (mkDecoded [] (examples.dart_channels types.ListNull)) (examples.fresh None))
        (worlds.bucket [("stable", examples.stable_listing)])
    = (Returns resp', listing_calls ["stable"]) /\
    State resp' = Some model' /\
    DartVersions.Versions model' = types.StringList (semver.String <$> versions) /\
    retained_sorted (semver.mkVersion 3 5 0 "" "") None
      (DartVersions.receive [("stable", Success ["3.5.0"; "3.4.1"; "3.5.1"])] ∅)
      versions.
Proof.
  apply (proj1 (dart_versions_retained_sorted sequential_spec
                  (worlds.bucket [("stable", examples.stable_listing)]))
           (mkDecoded [] (examples.dart_channels types.ListNull)) (examples.fresh None)
           [] ["stable"] [("stable", Success ["3.5.0"; "3.4.1"; "3.5.1"])]
           (listing_calls ["stable"]) (semver.mkVersion 3 5 0 "" ""));
    [reflexivity..|].
  intros s Hs%elem_of_elements. revert s Hs. apply Forall_forall.
  apply (bool_decide_unpack _). vm_compute. exact I.
Defined.

Example dart_versions_stable :
  (run (DartVersions.ReadChannels (lib := sequential.lib)
          (mkDecoded [] (examples.dart_channels types.ListNull)) (examples.fresh None))
       (worlds.bucket [("stable", examples.stable_listing)])).1
  = Returns
      (mkResponse []
         (Some (DartVersions.mkChannelModel (types.StringValue "dart")
                  (types.StringValue "3.5.0") types.ListNull (types.StringValue "dart/3.5.0")
                  (types.StringList ["3.5.0"; "3.5.1"])))).
Proof. vm_compute. reflexivity. Qed.

(** C1 as stated fails where two fetched strings spell one version: the
    listing holds [3.5.0] and [3.5.0-], both parse to the version 3.5.0,
    and the versions list holds the string [3.5.0] twice. *)
Lemma dart_versions_duplicate_spelling :
  let listing := ["channels/stable/release/3.5.0/"; "channels/stable/release/3.5.0-/"] in
  exists resp' model',
    run (DartVersions.ReadChannels (lib := sequential.lib)
           (mkDecoded [] (examples.dart_channels types.ListNull)) (examples.fresh None))
        (worlds.bucket [("stable", listing)])
    = (Returns resp', listing_calls ["stable"]) /\
    State resp' = Some model' /\
    DartVersions.Versions model' = types.StringList ["3.5.0"; "3.5.0"] /\
    ~ NoDup ["3.5.0"; "3.5.0"].
Proof.
  eexists _, _. split; [vm_compute; reflexivity|]. split; [reflexivity|].
  split; [reflexivity|]. intros Hnodup. apply NoDup_cons in Hnodup as [Hnotin _].
  apply Hnotin. by left.
Qed.

(** A fetched string that does not parse makes the read panic. *)
Example dart_versions_unparsable :
  (run (DartVersions.ReadChannels (lib := sequential.lib)
          (mkDecoded [] (examples.dart_channels types.ListNull)) (examples.fresh None))
       (worlds.bucket [("stable", ["channels/stable/release/3.5.0.1/"])])).1
  = Panics "semver: cannot parse 3.5.0.1".
Proof. vm_compute. reflexivity. Qed.

(** C2: the container versions of a list of retained versions are the
    distinct names the versions contribute, the printed version for a
    pre-release and [major.minor] otherwise, in ascending byte order; the
    variant that computes them stores them next to the versions they are
    derived from. *)
Theorem dart_container_versions {lib : GoLib} (spec : GoLibSpec lib) (w : World) :
  (forall versions : list semver.Version,
     let names := DartVersions.containerVersions versions in
     NoDup names /\
     StronglySorted String.le names /\
     (forall s, s ∈ names <->
        exists v, v ∈ versions /\
          s = if bool_decide (semver.PreRelease v = "")
              then fmt.d (semver.Major v) +:+ "." +:+ fmt.d (semver.Minor v)
              else semver.String v)) /\
  (forall req resp finished log minVersion,
     let model := Get_data req in
     HasError (Append resp (Get_diags req)) = false ->
     DartVersions.fanOut DartVersions.fixed_channels w [] = (Returns finished, log) ->
     parses_to (types.ValueString (DartVersions.c_MinVersion model)) minVersion ->
     (forall s, s ∈ DartVersions.receive finished ∅ -> is_Some (semver.NewVersion s)) ->
     exists resp' model' versions,
       run (DartVersions.ReadContainers req resp) w = (Returns resp', log) /\
       State resp' = Some model' /\
       DartVersions.c_Versions model' = types.StringList (semver.String <$> versions) /\
       DartVersions.c_ContainerVersions model'
       = types.StringList (DartVersions.containerVersions versions)).
Proof.
  split.
  - intros versions names. split; [|split].
    + unfold names. rewrite containerVersions_perm. apply NoDup_elements.
    + apply Strings_sorted.
    + intros s. unfold names.
      rewrite containerVersions_perm, elem_of_elements, containerVersionSet_elem.
      unfold DartVersions.containerVersion.
      split; intros (v & Hv & ->); exists v; (split; [done|]);
        by destruct (bool_decide (semver.PreRelease v = "")).
  - intros req resp finished log minVersion model Hno Hfan Hmin Hall.
    destruct (all_parse (rangeSet (DartVersions.receive finished ∅))) as [parsed Hparsed].
    { intros s Hs. apply Hall. rewrite rangeSet_perm in Hs. by apply elem_of_elements. }
    eexists _, _, _. split; [by eapply ReadContainers_returns|]. done.
Qed.

Lemma dart_container_versions_witness :
  let v350 := semver.mkVersion 3 5 0 "" "" in
  let v351 := semver.mkVersion 3 5 1 "" "" in
  let v360 := semver.mkVersion 3 6 0 "1.beta" "" in
  let names := DartVersions.containerVersions (lib := sequential.lib) [v350; v351; v360] in
  names = ["3.5"; "3.6.0-1.beta"] /\ NoDup names /\ StronglySorted String.le names.
Proof.
  intros v350 v351 v360 names. split; [vm_compute; reflexivity|].
  destruct (proj1 (dart_container_versions sequential_spec worlds.offline)
              [v350; v351; v360]) as (Hnodup & Hsorted & _).
  by split.
Defined.

(** C4 as stated fails: with [stable] listed and [dev] answering 404, the
    read reports the error and still writes the versions of [stable] to
    the state. *)
Lemma dart_read_goes_on_after_error :
  exists resp' model',
    run (DartVersions.ReadChannels (lib := sequential.lib)
           (mkDecoded []
              (examples.dart_channels
                 (types.ListValue [types.StringValue "stable"; types.StringValue "dev"])))
           (examples.fresh None))
        (worlds.bucket [("stable", examples.stable_listing)])
    = (Returns resp', listing_calls ["stable"; "dev"]) /\
    Diagnostics resp'
    = [diag.NewErrorDiagnostic "Failed to list versions"
         "failed to list dev versions: 404 Not Found"] /\
    State resp' = Some model' /\
    DartVersions.Versions model' = types.StringList ["3.5.0"; "3.5.1"] /\
    State resp' <> State (examples.fresh (M := DartVersions.ChannelModel) None).
Proof.
  eexists _, _. split; [vm_compute; reflexivity|]. by repeat split.
Qed.

Section dart_errors.
Context {lib : GoLib} {spec : GoLibSpec lib}.
Import DartVersions.

Variable w : World.

Lemma fanOut_requests channels finished log :
  fanOut channels w [] = (Returns finished, log) -> log ≡ₚ listing_calls channels.
Proof.
  destruct (fanOut_log w channels []) as (rs & Hrs & _). rewrite Hrs.
  intros [= _ <-]. cbn [app]. unfold listing_calls.
  apply fmap_Permutation, startOrder_perm.
Qed.

(** When [min_version] or a fetched string does not parse, the read
    ends in the panic of [semver.New], after the requests. *)
Lemma ReadChannels_unparsable req resp diags channels finished log :
  let model := Get_data req in
  let resp0 := Append resp (Get_diags req) in
  HasError resp0 = false ->
  effective_channels model = (diags, channels) ->
  HasError (Append resp0 diags) = false ->
  fanOut channels w [] = (Returns finished, log) ->
  semver.NewVersion (types.ValueString (MinVersion model)) = None \/
  (exists bad, bad ∈ receive finished ∅ /\ semver.NewVersion bad = None) ->
  exists msg, run (ReadChannels req resp) w = (Panics msg, log).
Proof.
  intros model resp0 Hno Heff Hno1 Hfan Hbad.
  unfold ReadChannels, run. fold model resp0. rewrite Hno, Heff, Hno1.
  unfold mbind at 1, Exec_bind at 1. rewrite Hfan. unfold semver_New at 1.
  destruct (semver.NewVersion (types.ValueString (MinVersion model))) as [minVersion|] eqn:Hmin.
  - destruct Hbad as [?|(bad & Hin & Hbad)]; [done|]. rewrite bind_ret.
    destruct (retain_panics w minVersion None (rangeSet (receive finished ∅)))
      with (versions := @nil semver.Version) (log := log) as [msg Hmsg].
    { exists bad. split; [|done]. rewrite rangeSet_perm. by apply elem_of_elements. }
    exists msg. unfold mbind, Exec_bind. by rewrite Hmsg.
  - by eexists.
Qed.

Lemma ReadContainers_unparsable req resp finished log :
  let model := Get_data req in
  let resp0 := Append resp (Get_diags req) in
  HasError resp0 = false ->
  fanOut fixed_channels w [] = (Returns finished, log) ->
  semver.NewVersion (types.ValueString (c_MinVersion model)) = None \/
  (exists bad, bad ∈ receive finished ∅ /\ semver.NewVersion bad = None) ->
  exists msg, run (ReadContainers req resp) w = (Panics msg, log).
Proof.
  intros model resp0 Hno Hfan Hbad.
  unfold ReadContainers, run. fold model resp0. rewrite Hno.
  unfold mbind at 1, Exec_bind at 1. rewrite Hfan. unfold semver_New at 1.
  destruct (semver.NewVersion (types.ValueString (c_MinVersion model)))
    as [minVersion|] eqn:Hmin.
  - destruct Hbad as [?|(bad & Hin & Hbad)]; [done|]. rewrite bind_ret.
    destruct (retain_panics w minVersion
                (Some (types.ValueBool (c_IncludePrerelease model)))
                (rangeSet (receive finished ∅)))
      with (versions := @nil semver.Version) (log := log) as [msg Hmsg].
    { exists bad. split; [|done]. rewrite rangeSet_perm. by apply elem_of_elements. }
    exists msg. unfold mbind, Exec_bind. by rewrite Hmsg.
  - by eexists.
Qed.

Lemma reported_error {M} (resp : Response M) err data :
  let resp' := State_Set (reported resp (Some err)) data in
  Diagnostics resp'
  = diag.AddError (Diagnostics resp) "Failed to list versions" (Error err) /\
  HasError resp' = true /\ State resp' = Some data.
Proof. split; [done|]. split; [apply AddError_HasError | done]. Qed.

End dart_errors.

(** C4, amended: when a listing fails, every channel has been requested
    all the same.  If [min_version] and every fetched string parse, the
    error reported under "Failed to list versions" is the first failure
    in the order in which the goroutines finish, and the read goes on:
    the versions of the channels that succeeded are merged, filtered,
    sorted and written to the state.  If [min_version] or a fetched
    string does not parse, the read ends in the panic of [semver.New]
    instead: no response is returned, so nothing is reported or
    written. *)
Theorem dart_first_error_reported {lib : GoLib} (spec : GoLibSpec lib) (w : World) :
  (forall req resp diags channels finished log minVersion err,
     let model := Get_data req in
     let resp0 := Append resp (Get_diags req) in
     let versionsSet := DartVersions.receive finished ∅ in
     HasError resp0 = false ->
     DartVersions.effective_channels model = (diags, channels) ->
     HasError (Append resp0 diags) = false ->
     DartVersions.fanOut channels w [] = (Returns finished, log) ->
     parses_to (types.ValueString (DartVersions.MinVersion model)) minVersion ->
     (forall s, s ∈ versionsSet -> is_Some (semver.NewVersion s)) ->
     DartVersions.Wait finished = Some err ->
     (exists before channel after,
        finished = before ++ (channel, Failure err) :: after /\
        Forall (fun p => exists versions, p.2 = Success versions) before) /\
     log ≡ₚ listing_calls channels /\
     (forall s, s ∈ versionsSet <->
        exists channel versions, (channel, Success versions) ∈ finished /\ s ∈ versions) /\
     exists resp' model' versions,
       run (DartVersions.ReadChannels req resp) w = (Returns resp', log) /\
       Diagnostics resp'
       = diag.AddError (Diagnostics (Append resp0 diags))
           "Failed to list versions" (Error err) /\
       HasError resp' = true /\
       State resp' = Some model' /\
       DartVersions.Versions model' = types.StringList (semver.String <$> versions) /\
       retained_sorted minVersion None versionsSet versions) /\
  (forall req resp finished log minVersion err,
     let model := Get_data req in
     let resp0 := Append resp (Get_diags req) in
     let versionsSet := DartVersions.receive finished ∅ in
     let includePrerelease := types.ValueBool (DartVersions.c_IncludePrerelease model) in
     HasError resp0 = false ->
     DartVersions.fanOut DartVersions.fixed_channels w [] = (Returns finished, log) ->
     parses_to (types.ValueString (DartVersions.c_MinVersion model)) minVersion ->
     (forall s, s ∈ versionsSet -> is_Some (semver.NewVersion s)) ->
     DartVersions.Wait finished = Some err ->
     (exists before channel after,
        finished = before ++ (channel, Failure err) :: after /\
        Forall (fun p => exists versions, p.2 = Success versions) before) /\
     log ≡ₚ listing_calls DartVersions.fixed_channels /\
     (forall s, s ∈ versionsSet <->
        exists channel versions, (channel, Success versions) ∈ finished /\ s ∈ versions) /\
     exists resp' model' versions,
       run (DartVersions.ReadContainers req resp) w = (Returns resp', log) /\
       Diagnostics resp'
       = diag.AddError (Diagnostics resp0) "Failed to list versions" (Error err) /\
       HasError resp' = true /\
       State resp' = Some model' /\
       DartVersions.c_Versions model' = types.StringList (semver.String <$> versions) /\
       retained_sorted minVersion (Some includePrerelease) versionsSet versions) /\
  (forall req resp diags channels finished log err,
     let model := Get_data req in
     let resp0 := Append resp (Get_diags req) in
     HasError resp0 = false ->
     DartVersions.effective_channels model = (diags, channels) ->
     HasError (Append resp0 diags) = false ->
     DartVersions.fanOut channels w [] = (Returns finished, log) ->
     DartVersions.Wait finished = Some err ->
     semver.NewVersion (types.ValueString (DartVersions.MinVersion model)) = None \/
     (exists bad, bad ∈ DartVersions.receive finished ∅ /\ semver.NewVersion bad = None) ->
     log ≡ₚ listing_calls channels /\
     exists msg, run (DartVersions.ReadChannels req resp) w = (Panics msg, log)) /\
  (forall req resp finished log err,
     let model := Get_data req in
     let resp0 := Append resp (Get_diags req) in
     HasError resp0 = false ->
     DartVersions.fanOut DartVersions.fixed_channels w [] = (Returns finished, log) ->
     DartVersions.Wait finished = Some err ->
     semver.NewVersion (types.ValueString (DartVersions.c_MinVersion model)) = None \/
     (exists bad, bad ∈ DartVersions.receive finished ∅ /\ semver.NewVersion bad = None) ->
     log ≡ₚ listing_calls DartVersions.fixed_channels /\
     exists msg, run (DartVersions.ReadContainers req resp) w = (Panics msg, log)).
Proof.
  split; [|split; [|split]].
  - intros req resp diags channels finished log minVersion err model resp0 versionsSet
      Hno Heff Hno1 Hfan Hmin Hall Hwait.
    split; [by apply Wait_first|]. split; [by eapply fanOut_requests|].
    split.
    { intros s. unfold versionsSet. rewrite receive_elem. split; [|by right].
      intros [?%elem_of_empty|?]; done. }
    destruct (all_parse (rangeSet versionsSet)) as [parsed Hparsed].
    { intros s Hs. apply Hall. rewrite rangeSet_perm in Hs. by apply elem_of_elements. }
    eexists _, _, _. split; [by eapply ReadChannels_returns|]. rewrite Hwait.
    split; [done|]. split; [apply AddError_HasError|]. split; [done|].
    split; [done|]. by apply semver_Sort_retained.
  - intros req resp finished log minVersion err model resp0 versionsSet includePrerelease
      Hno Hfan Hmin Hall Hwait.
    split; [by apply Wait_first|]. split; [by eapply fanOut_requests|].
    split.
    { intros s. unfold versionsSet. rewrite receive_elem. split; [|by right].
      intros [?%elem_of_empty|?]; done. }
    destruct (all_parse (rangeSet versionsSet)) as [parsed Hparsed].
    { intros s Hs. apply Hall. rewrite rangeSet_perm in Hs. by apply elem_of_elements. }
    eexists _, _, _. split; [by eapply ReadContainers_returns|]. rewrite Hwait.
    split; [done|]. split; [apply AddError_HasError|]. split; [done|].
    split; [done|]. by apply semver_Sort_retained.
  - intros req resp diags channels finished log err model resp0 Hno Heff Hno1 Hfan _ Hbad.
    split; [by eapply fanOut_requests|]. by eapply ReadChannels_unparsable.
  - intros req resp finished log err model resp0 Hno Hfan _ Hbad.
    split; [by eapply fanOut_requests|]. by eapply ReadContainers_unparsable.
Qed.

Lemma dart_first_error_reported_witness :
  let finished :=
    [("stable", Success ["3.5.0"; "3.4.1"; "3.5.1"]);
     ("dev", Failure (fmt.Errorf "failed to list dev versions: 404 Not Found"))] in
  exists resp' model' versions,
    run (DartVersions.ReadChannels (lib := sequential.lib)
           (mkDecoded []
              (examples.dart_channels
                 (types.ListValue [types.StringValue "stable"; types.StringValue "dev"])))
           (examples.fresh None))
        (worlds.bucket [("stable", examples.stable_listing)])
    = (Returns resp', listing_calls ["stable"; "dev"]) /\
    Diagnostics resp'
    = diag.AddError [] "Failed to list versions"
        "failed to list dev versions: 404 Not Found" /\
    HasError resp' = true /\
    State resp' = Some model' /\
    DartVersions.Versions model' = types.StringList (semver.String <$> versions) /\
    retained_sorted (semver.mkVersion 3 5 0 "" "") None
      (DartVersions.receive finished ∅) versions.
Proof.
  intros finished.
  apply (proj1 (dart_first_error_reported sequential_spec
                  (worlds.bucket [("stable", examples.stable_listing)]))
           (mkDecoded []
              (examples.dart_channels
                 (types.ListValue [types.StringValue "stable"; types.StringValue "dev"])))
           (examples.fresh None) [] ["stable"; "dev"] finished
           (listing_calls ["stable"; "dev"]) (semver.mkVersion 3 5 0 "" "")
           (fmt.Errorf "failed to list dev versions: 404 Not Found"));
    [reflexivity..| |reflexivity].
  intros s Hs%elem_of_elements. revert s Hs. apply Forall_forall.
  apply (bool_decide_unpack _). vm_compute. exact I.
Defined.

(** * Further properties of the code *)

(** ** util.go: what a parsed identifier is made of *)

Section split_pieces.
Import GoStrings.

Lemma concat_cons_head a ps :
  ps <> [] -> String.concat "/" (cons_head a ps) = String a (String.concat "/" ps).
Proof. destruct ps as [|p [|q ps]]; done. Qed.

(** Joining the pieces with slashes gives the string back. *)
Lemma Split_concat s : String.concat "/" (Split s "/") = s.
Proof.
  induction s as [|a s IH]; [done|]. rewrite Split_cons.
  pose proof (Split_nonempty s) as Hne.
  destruct (Ascii.eqb_spec "/"%char a) as [<-|Hna].
  - destruct (Split s "/") as [|p ps] eqn:E; [done|].
    change (String.concat "/" ("" :: p :: ps)) with ("/" +:+ String.concat "/" (p :: ps)).
    by rewrite IH.
  - rewrite concat_cons_head by done. by rewrite IH.
Qed.

(** No piece holds a slash. *)
Lemma Split_pieces s : Forall (fun p => count_byte "/" p = 0%nat) (Split s "/").
Proof.
  induction s as [|a s IH]; [by repeat constructor|]. rewrite Split_cons.
  destruct (Ascii.eqb_spec "/"%char a) as [<-|Hna]; [by constructor|].
  pose proof (Split_nonempty s) as Hne.
  destruct (Split s "/") as [|p ps]; [done|].
  apply Forall_cons in IH as [Hp Hps]. constructor; [|done].
  cbn [count_byte]. rewrite Hp.
  destruct (Ascii.eqb_spec a "/"%char) as [->|]; done.
Qed.

Lemma Split_two id a b :
  Split id "/" = [a; b] ->
  a +:+ "/" +:+ b = id /\ Contains a "/" = false /\ Contains b "/" = false.
Proof.
  intros Hsplit. pose proof (Split_concat id) as Hcat. pose proof (Split_pieces id) as Hall.
  rewrite Hsplit in Hcat, Hall. split; [exact Hcat|].
  apply Forall_cons in Hall as [Ha Hall]. apply Forall_cons in Hall as [Hb _].
  by rewrite !Contains_slash.
Qed.

End split_pieces.

Lemma parseConfigId_parts id a b :
  parseConfigId id = (a, b, None) -> GoStrings.Split id "/" = [a; b].
Proof.
  unfold parseConfigId.
  destruct (GoStrings.Split id "/") as [|x [|y [|z l]]]; cbn; congruence.
Qed.

Lemma parseRolloutId_parts id a b :
  parseRolloutId id = (a, b, None) -> GoStrings.Split id "/" = [a; b].
Proof.
  unfold parseRolloutId.
  destruct (GoStrings.Split id "/") as [|x [|y [|z l]]]; cbn; congruence.
Qed.

(** X1: an identifier that [parseConfigId] or [parseRolloutId] accepts
    is its two parts joined by a slash, and neither part holds a slash:
    building the identifier again from the parts gives the input. *)
Theorem parse_then_rebuild (id serviceName part : string) :
  (parseConfigId id = (serviceName, part, None) ->
   types.ValueString (newConfigId serviceName part) = id /\
   GoStrings.Contains serviceName "/" = false /\ GoStrings.Contains part "/" = false) /\
  (parseRolloutId id = (serviceName, part, None) ->
   types.ValueString (newRolloutId serviceName part) = id /\
   GoStrings.Contains serviceName "/" = false /\ GoStrings.Contains part "/" = false).
Proof.
  split; intros Hparse.
  - apply parseConfigId_parts in Hparse. by apply Split_two.
  - apply parseRolloutId_parts in Hparse. by apply Split_two.
Qed.

Lemma parse_then_rebuild_witness :
  types.ValueString (newRolloutId "svc.example.com" "r1") = "svc.example.com/r1" /\
  GoStrings.Contains "svc.example.com" "/" = false /\ GoStrings.Contains "r1" "/" = false.
Proof.
  apply (proj2 (parse_then_rebuild "svc.example.com/r1" "svc.example.com" "r1")).
  reflexivity.
Defined.

(** X2: [parseRolloutId] undoes [newRolloutId] on names without a slash;
    when it reports an error, both strings it returns are empty. *)
Theorem parseRolloutId_newRolloutId :
  (forall serviceName rolloutId : string,
     GoStrings.Contains serviceName "/" = false ->
     GoStrings.Contains rolloutId "/" = false ->
     parseRolloutId (types.ValueString (newRolloutId serviceName rolloutId))
     = (serviceName, rolloutId, None)) /\
  (forall id a b err, parseRolloutId id = (a, b, Some err) -> a = "" /\ b = "") /\
  (forall id a b err, parseConfigId id = (a, b, Some err) -> a = "" /\ b = "").
Proof.
  split; [|split].
  - intros serviceName rolloutId Hs%Contains_slash Hr%Contains_slash.
    unfold parseRolloutId, newRolloutId. cbn [types.ValueString].
    by rewrite (Split_join _ _ Hs), (Split_no_slash _ Hr).
  - intros id a b err. unfold parseRolloutId. destruct (negb _); [|done].
    by intros [= <- <- _].
  - intros id a b err. unfold parseConfigId. destruct (negb _); [|done].
    by intros [= <- <- _].
Qed.

Lemma parseRolloutId_newRolloutId_witness :
  parseRolloutId (types.ValueString (newRolloutId "svc.example.com" "r1"))
  = ("svc.example.com", "r1", None).
Proof.
  apply (proj1 parseRolloutId_newRolloutId "svc.example.com" "r1"); reflexivity.
Defined.

(** ** Reads of tenancy units and tenant projects *)

Section tenancy_reads.
Variable w : World.

Lemma getTenancyUnit_failure id log err :
  w _ log (TenancyUnits_List (tenancy_parent id)) = Failure err ->
  ServiceTenancyUnitResource.getTenancyUnit id w log
  = (Returns (None, if TenancyUnit_not_found err then None else Some err),
     log ++ [Called (TenancyUnits_List (tenancy_parent id))]).
Proof.
  intros Hlist. unfold ServiceTenancyUnitResource.getTenancyUnit. fold (tenancy_parent id).
  rewrite bind_call, Hlist. unfold TenancyUnit_not_found.
  destruct (status_FromError err) as [st ok]. by destruct (ok && _).
Qed.

Lemma getTenancyUnit_listed id log units :
  w _ log (TenancyUnits_List (tenancy_parent id)) = Success units ->
  ServiceTenancyUnitResource.getTenancyUnit id w log
  = (Returns (List.find (fun tu => GoStringsFold.EqualFold (tu_Name tu) id) units, None),
     log ++ [Called (TenancyUnits_List (tenancy_parent id))]).
Proof.
  intros Hlist. unfold ServiceTenancyUnitResource.getTenancyUnit. fold (tenancy_parent id).
  by rewrite bind_call, Hlist.
Qed.

Lemma getTenantProject_failure id tag log err :
  w _ log (TenancyUnits_List (tenancy_parent id)) = Failure err ->
  ServiceProjectResource.getTenantProject id tag w log
  = (Returns (None, if TenantProject_not_found err then None else Some err),
     log ++ [Called (TenancyUnits_List (tenancy_parent id))]).
Proof.
  intros Hlist. unfold ServiceProjectResource.getTenantProject, mbind, Exec_bind.
  rewrite (getTenancyUnit_failure id log err Hlist). unfold TenantProject_not_found.
  destruct (TenancyUnit_not_found err) eqn:Hnf; [reflexivity|]. cbn [orb].
  unfold TenancyUnit_not_found in Hnf. destruct (status_FromError err) as [st ok].
  destruct ok; cbn [andb] in *.
  - apply orb_false_elim in Hnf as [-> _]. cbn [orb].
    by destruct (GoStrings.Contains (Error err) "not found").
  - by destruct (GoStrings.Contains (Error err) "not found").
Qed.

End tenancy_reads.

(** X3: when the listing behind [ServiceTenancyUnitResource.Read] fails,
    the read returns untouched only if the error carries a gRPC status
    that is NotFound or whose text contains "not found"; any other error,
    and every error without a gRPC status, is reported with its message
    and the state is left as it was. *)
Theorem ServiceTenancyUnitResource_Read_failure (w : World)
    (req : Decoded ServiceTenancyUnitResource.ServiceTenancyUnitModel)
    (resp : Response ServiceTenancyUnitResource.ServiceTenancyUnitModel) (err : error) :
  let resp0 := Append resp (Get_diags req) in
  let id := types.ValueString (ServiceTenancyUnitResource.ID (Get_data req)) in
  HasError resp0 = false ->
  w _ [] (TenancyUnits_List (tenancy_parent id)) = Failure err ->
  run (ServiceTenancyUnitResource.Read req resp) w
  = (Returns (if TenancyUnit_not_found err then resp0
              else AddError resp0 "Error getting tenancy unit" (Error err)),
     [Called (TenancyUnits_List (tenancy_parent id))]) /\
  (GRPCStatus err = None -> TenancyUnit_not_found err = false).
Proof.
  intros resp0 id Hno Hlist. split.
  - unfold ServiceTenancyUnitResource.Read, run. fold resp0 id. rewrite Hno.
    unfold mbind, Exec_bind. rewrite (getTenancyUnit_failure w id [] err Hlist).
    by destruct (TenancyUnit_not_found err).
  - intros Hnone. unfold TenancyUnit_not_found, status_FromError. by rewrite Hnone.
Qed.

(** X4: when the listing behind [ServiceProjectResource.Read] fails, the
    read returns untouched if the error passes the test of
    [getTenancyUnit] or if its message contains "not found", gRPC status
    or not; otherwise the error is reported with its message and the
    state is left as it was. *)
Theorem ServiceProjectResource_Read_failure {types_Object : Type} (w : World)
    (req : Decoded (ServiceProjectResource.ServiceProjectResourceModel types_Object))
    (resp : Response (ServiceProjectResource.ServiceProjectResourceModel types_Object))
    (err : error) :
  let resp0 := Append resp (Get_diags req) in
  let id := types.ValueString (ServiceProjectResource.TenancyUnit (Get_data req)) in
  HasError resp0 = false ->
  w _ [] (TenancyUnits_List (tenancy_parent id)) = Failure err ->
  run (ServiceProjectResource.Read req resp) w
  = (Returns (if TenantProject_not_found err then resp0
              else AddError resp0 "Error getting project" (Error err)),
     [Called (TenancyUnits_List (tenancy_parent id))]) /\
  (GoStrings.Contains (Error err) "not found" = true -> TenantProject_not_found err = true).
Proof.
  intros resp0 id Hno Hlist. split.
  - unfold ServiceProjectResource.Read, run. fold resp0 id. rewrite Hno.
    unfold mbind, Exec_bind. rewrite (getTenantProject_failure w id _ [] err Hlist).
    by destruct (TenantProject_not_found err).
  - intros Hmsg. unfold TenantProject_not_found. rewrite Hmsg. apply orb_true_r.
Qed.

Lemma ServiceTenancyUnitResource_Read_failure_witness :
  run (ServiceTenancyUnitResource.Read (mkDecoded [] more_examples.tenancy_unit)
         (examples.fresh (Some more_examples.tenancy_unit))) more_worlds.tenancy_gone
  = (Returns (AddError (examples.fresh (Some more_examples.tenancy_unit))
                "Error getting tenancy unit" (Error more_worlds.rest_not_found)),
     [Called (TenancyUnits_List "services/svc.example.com/projects/1")]).
Proof.
  apply (ServiceTenancyUnitResource_Read_failure more_worlds.tenancy_gone
           (mkDecoded [] more_examples.tenancy_unit)
           (examples.fresh (Some more_examples.tenancy_unit))
           more_worlds.rest_not_found eq_refl eq_refl).
Defined.

Lemma ServiceProjectResource_Read_failure_witness :
  run (ServiceProjectResource.Read (mkDecoded [] examples.project)
         (examples.fresh (Some examples.project))) more_worlds.tenancy_gone
  = (Returns (examples.fresh (Some examples.project)),
     [Called (TenancyUnits_List "services/svc.example.com/projects/1")]).
Proof.
  apply (ServiceProjectResource_Read_failure more_worlds.tenancy_gone
           (mkDecoded [] examples.project) (examples.fresh (Some examples.project))
           more_worlds.rest_not_found eq_refl eq_refl).
Defined.

(** X5: a read of a tenant project that finds one stores the resource
    name and status of the first tenant resource carrying the configured
    tag, taken from the first listed tenancy unit whose name is the
    configured one up to the case of letters; tenancy unit, tag and
    project configuration are stored as they were. *)
Theorem ServiceProjectResource_Read_found {types_Object : Type} (w : World)
    (req : Decoded (ServiceProjectResource.ServiceProjectResourceModel types_Object))
    (resp : Response (ServiceProjectResource.ServiceProjectResourceModel types_Object))
    (units : list TenancyUnit) (tenancyUnit : TenancyUnit) (project : TenantResource) :
  let data := Get_data req in
  let resp0 := Append resp (Get_diags req) in
  let id := types.ValueString (ServiceProjectResource.TenancyUnit data) in
  let tag := types.ValueString (ServiceProjectResource.Tag data) in
  HasError resp0 = false ->
  w _ [] (TenancyUnits_List (tenancy_parent id)) = Success units ->
  List.find (fun tu => GoStringsFold.EqualFold (tu_Name tu) id) units = Some tenancyUnit ->
  List.find (fun r => bool_decide (tr_Tag r = tag)) (tu_TenantResources tenancyUnit)
    = Some project ->
  run (ServiceProjectResource.Read req resp) w
  = (Returns (State_Set resp0
                (ServiceProjectResource.mkModel (types.StringValue (tr_Resource project))
                   (ServiceProjectResource.TenancyUnit data)
                   (ServiceProjectResource.Tag data)
                   (ServiceProjectResource.ProjectConfig data)
                   (types.StringValue (tr_Status project)))),
     [Called (TenancyUnits_List (tenancy_parent id))]) /\
  tr_Tag project = tag /\
  project ∈ tu_TenantResources tenancyUnit /\
  tenancyUnit ∈ units /\
  GoStringsFold.EqualFold (tu_Name tenancyUnit) id = true.
Proof.
  intros data resp0 id tag Hno Hlist Hunit Hproject. split.
  - unfold ServiceProjectResource.Read, ServiceProjectResource.getTenantProject, run.
    fold data resp0 id tag. rewrite Hno. rewrite bind_bind.
    unfold mbind at 1, Exec_bind at 1.
    rewrite (getTenancyUnit_listed w id [] units Hlist), Hunit.
    by rewrite !bind_ret, Hproject.
  - apply find_some in Hunit as [Hin Heq]. apply find_some in Hproject as [Hin' Htag].
    apply bool_decide_eq_true in Htag. by rewrite <- !list_elem_of_In in *.
Qed.

Lemma ServiceProjectResource_Read_found_witness :
  run (ServiceProjectResource.Read (mkDecoded [] examples.project)
         (examples.fresh (Some examples.project)))
      (worlds.tenancy 0 "services/svc.example.com/projects/1/tenancyUnits/U1"
         [more_examples.other_tenant; more_examples.tenant])
  = (Returns (State_Set (examples.fresh (Some examples.project))
                (ServiceProjectResource.mkModel (types.StringValue "projects/tenant-a-1234")
                   (types.StringValue examples.unit_name) (types.StringValue "tenant-a") tt
                   (types.StringValue "ACTIVE"))),
     [Called (TenancyUnits_List "services/svc.example.com/projects/1")]).
Proof.
  apply (ServiceProjectResource_Read_found
           (worlds.tenancy 0 "services/svc.example.com/projects/1/tenancyUnits/U1"
              [more_examples.other_tenant; more_examples.tenant])
           (mkDecoded [] examples.project) (examples.fresh (Some examples.project))
           _ _ more_examples.tenant eq_refl eq_refl eq_refl eq_refl).
Defined.

(** ** The Dart-versions data source: panics *)

Section dart_panics.
Context {lib : GoLib} {spec : GoLibSpec lib}.
Import DartVersions.

Variable w : World.

Lemma ReadContainers_panics req resp finished log minVersion bad :
  let model := Get_data req in
  HasError (Append resp (Get_diags req)) = false ->
  fanOut fixed_channels w [] = (Returns finished, log) ->
  parses_to (types.ValueString (c_MinVersion model)) minVersion ->
  bad ∈ receive finished ∅ -> semver.NewVersion bad = None ->
  exists msg, run (ReadContainers req resp) w = (Panics msg, log).
Proof.
  intros model Hno Hfan Hmin Hin Hbad.
  unfold ReadContainers, run. fold model. rewrite Hno.
  unfold mbind at 1, Exec_bind at 1. rewrite Hfan.
  unfold semver_New. rewrite Hmin, bind_ret.
  destruct (retain_panics w minVersion
              (Some (types.ValueBool (c_IncludePrerelease model)))
              (rangeSet (receive finished ∅)))
    with (versions := @nil semver.Version) (log := log) as [msg Hmsg].
  { exists bad. split; [|done]. rewrite rangeSet_perm. by apply elem_of_elements. }
  exists msg. unfold mbind, Exec_bind. by rewrite Hmsg.
Qed.

Lemma ReadChannels_bad_min req resp diags channels :
  let model := Get_data req in
  HasError (Append resp (Get_diags req)) = false ->
  effective_channels model = (diags, channels) ->
  HasError (Append (Append resp (Get_diags req)) diags) = false ->
  semver.NewVersion (types.ValueString (MinVersion model)) = None ->
  exists msg, (run (ReadChannels req resp) w).1 = Panics msg.
Proof.
  intros model Hno Heff Hno' Hmin. unfold ReadChannels, run. fold model.
  rewrite Hno, Heff, Hno'.
  destruct (fanOut_log w channels []) as (rs & Hrs & _).
  unfold mbind at 1, Exec_bind at 1. rewrite Hrs.
  unfold mbind at 1, Exec_bind at 1. unfold semver_New. rewrite Hmin. by eexists.
Qed.

Lemma ReadContainers_bad_min req resp :
  let model := Get_data req in
  HasError (Append resp (Get_diags req)) = false ->
  semver.NewVersion (types.ValueString (c_MinVersion model)) = None ->
  exists msg, (run (ReadContainers req resp) w).1 = Panics msg.
Proof.
  intros model Hno Hmin. unfold ReadContainers, run. fold model. rewrite Hno.
  destruct (fanOut_log w fixed_channels []) as (rs & Hrs & _).
  unfold mbind at 1, Exec_bind at 1. rewrite Hrs.
  unfold mbind at 1, Exec_bind at 1. unfold semver_New. rewrite Hmin. by eexists.
Qed.

End dart_panics.

(** X6: a [min_version] that [semver.New] cannot parse makes the read of
    the Dart-versions data source panic, in both variants, and only after
    every channel has been requested. *)
Theorem dart_min_version_must_parse {lib : GoLib} (spec : GoLibSpec lib) (w : World) :
  (forall req resp diags channels,
     HasError (Append resp (Get_diags req)) = false ->
     DartVersions.effective_channels (Get_data req) = (diags, channels) ->
     HasError (Append (Append resp (Get_diags req)) diags) = false ->
     semver.NewVersion (types.ValueString (DartVersions.MinVersion (Get_data req))) = None ->
     (exists msg, (run (DartVersions.ReadChannels req resp) w).1 = Panics msg) /\
     (run (DartVersions.ReadChannels req resp) w).2 ≡ₚ listing_calls channels) /\
  (forall req resp,
     HasError (Append resp (Get_diags req)) = false ->
     semver.NewVersion (types.ValueString (DartVersions.c_MinVersion (Get_data req))) = None ->
     (exists msg, (run (DartVersions.ReadContainers req resp) w).1 = Panics msg) /\
     (run (DartVersions.ReadContainers req resp) w).2
     ≡ₚ listing_calls DartVersions.fixed_channels).
Proof.
  split.
  - intros req resp diags channels Hno Heff Hno' Hmin.
    split; [by eapply ReadChannels_bad_min|].
    rewrite (ReadChannels_log w req resp diags channels Hno Heff Hno').
    unfold listing_calls. apply fmap_Permutation, startOrder_perm.
  - intros req resp Hno Hmin. split; [by eapply ReadContainers_bad_min|].
    rewrite (ReadContainers_log w req resp Hno).
    unfold listing_calls. apply fmap_Permutation, startOrder_perm.
Qed.

Lemma dart_min_version_must_parse_witness :
  (exists msg,
     (run (DartVersions.ReadChannels (lib := sequential.lib)
             (mkDecoded [] more_dart.short_min) (examples.fresh None))
          (worlds.bucket [("stable", examples.stable_listing)])).1 = Panics msg) /\
  (run (DartVersions.ReadChannels (lib := sequential.lib)
          (mkDecoded [] more_dart.short_min) (examples.fresh None))
       (worlds.bucket [("stable", examples.stable_listing)])).2
  ≡ₚ listing_calls ["stable"].
Proof.
  apply (proj1 (dart_min_version_must_parse sequential_spec
                  (worlds.bucket [("stable", examples.stable_listing)]))
           (mkDecoded [] more_dart.short_min) (examples.fresh None) [] ["stable"]);
    reflexivity.
Defined.

(** X7: a fetched string that [semver.New] cannot parse makes the read
    panic, in both variants: nothing is written, whatever the other
    fetched strings are. *)
Theorem dart_fetched_strings_must_parse {lib : GoLib} (spec : GoLibSpec lib) (w : World) :
  (forall req resp diags channels finished log minVersion bad,
     HasError (Append resp (Get_diags req)) = false ->
     DartVersions.effective_channels (Get_data req) = (diags, channels) ->
     HasError (Append (Append resp (Get_diags req)) diags) = false ->
     DartVersions.fanOut channels w [] = (Returns finished, log) ->
     parses_to (types.ValueString (DartVersions.MinVersion (Get_data req))) minVersion ->
     bad ∈ DartVersions.receive finished ∅ -> semver.NewVersion bad = None ->
     exists msg, run (DartVersions.ReadChannels req resp) w = (Panics msg, log)) /\
  (forall req resp finished log minVersion bad,
     HasError (Append resp (Get_diags req)) = false ->
     DartVersions.fanOut DartVersions.fixed_channels w [] = (Returns finished, log) ->
     parses_to (types.ValueString (DartVersions.c_MinVersion (Get_data req))) minVersion ->
     bad ∈ DartVersions.receive finished ∅ -> semver.NewVersion bad = None ->
     exists msg, run (DartVersions.ReadContainers req resp) w = (Panics msg, log)).
Proof.
  split.
  - intros. by eapply ReadChannels_panics.
  - intros. by eapply ReadContainers_panics.
Qed.

Lemma dart_fetched_strings_must_parse_witness :
  exists msg,
    run (DartVersions.ReadChannels (lib := sequential.lib)
           (mkDecoded [] (examples.dart_channels types.ListNull)) (examples.fresh None))
        (worlds.bucket [("stable", more_dart.odd_listing)])
    = (Panics msg, listing_calls ["stable"]).
Proof.
  apply (proj1 (dart_fetched_strings_must_parse sequential_spec
                  (worlds.bucket [("stable", more_dart.odd_listing)]))
           (mkDecoded [] (examples.dart_channels types.ListNull)) (examples.fresh None)
           [] ["stable"] [("stable", Success ["3.5.0"; "3.5.0.1"])]
           (listing_calls ["stable"]) (semver.mkVersion 3 5 0 "" "") "3.5.0.1");
    [reflexivity..| |reflexivity].
  apply elem_of_elements. apply (bool_decide_unpack _). vm_compute. exact I.
Defined.

(** X8: the set the receiving loop merges does not depend on the order
    in which the goroutines finish, and holds exactly the versions sent
    by the goroutines that succeeded. *)
Theorem dart_receive_any_order
    (finished finished' : list (string * result (list string))) (acc : gset string) :
  finished ≡ₚ finished' ->
  DartVersions.receive finished acc = DartVersions.receive finished' acc /\
  (forall s, s ∈ DartVersions.receive finished acc <->
     s ∈ acc \/ exists channel versions,
                  (channel, Success versions) ∈ finished /\ s ∈ versions).
Proof.
  intros Hperm. split; [|apply receive_elem].
  apply set_eq. intros s. rewrite !receive_elem.
  by setoid_rewrite Hperm.
Qed.

Lemma dart_receive_any_order_witness :
  DartVersions.receive
    [("stable", Success ["3.5.0"; "3.4.1"]); ("beta", Success ["3.6.0-1.beta"; "3.5.0"])] ∅
  = DartVersions.receive
      [("beta", Success ["3.6.0-1.beta"; "3.5.0"]); ("stable", Success ["3.5.0"; "3.4.1"])] ∅.
Proof.
  apply (dart_receive_any_order _ _ ∅). apply perm_swap.
Defined.

(** ** The Dart-versions data source: container versions and listings *)

Section dart_more.
Context {lib : GoLib} {spec : GoLibSpec lib}.
Import DartVersions.

Lemma containerVersions_elem versions s :
  s ∈ containerVersions versions <-> exists v, v ∈ versions /\ s = containerVersion v.
Proof. by rewrite containerVersions_perm, elem_of_elements, containerVersionSet_elem. Qed.

Lemma containerVersions_NoDup versions : NoDup (containerVersions versions).
Proof. rewrite containerVersions_perm. apply NoDup_elements. Qed.

Lemma kept_no_prerelease minVersion v :
  kept minVersion (Some false) v = true -> semver.PreRelease v = "".
Proof.
  unfold kept. intros [_ H]%andb_true_iff. by apply bool_decide_eq_true in H.
Qed.

End dart_more.

(** X9: the rollup never grows the list: the container versions are
    pairwise distinct, every one of them is the container name of some
    version, and there are at most as many of them as versions; no
    version, no container version. *)
Theorem dart_container_versions_bounded {lib : GoLib} (spec : GoLibSpec lib)
    (versions : list semver.Version) :
  length (DartVersions.containerVersions versions) <= length versions /\
  NoDup (DartVersions.containerVersions versions) /\
  (forall name, name ∈ DartVersions.containerVersions versions ->
     exists version, version ∈ versions /\ name = DartVersions.containerVersion version) /\
  (versions = [] -> DartVersions.containerVersions versions = []).
Proof.
  assert (length (DartVersions.containerVersions versions) <= length versions) as Hlen.
  { rewrite <- (length_fmap DartVersions.containerVersion versions).
    apply submseteq_length, NoDup_submseteq; [apply containerVersions_NoDup|].
    intros s (v & Hv & ->)%containerVersions_elem. by apply list_elem_of_fmap_2. }
  split; [done|]. split; [apply containerVersions_NoDup|].
  split; [intros name Hname; by apply containerVersions_elem|].
  intros ->. cbn [length] in Hlen.
  by destruct (DartVersions.containerVersions []); [|cbn in Hlen; lia].
Qed.

Lemma dart_container_versions_bounded_witness :
  length (DartVersions.containerVersions (lib := sequential.lib)
            [semver.mkVersion 3 5 0 "" ""; semver.mkVersion 3 5 1 "" ""]) <= 2.
Proof.
  apply (proj1 (dart_container_versions_bounded sequential_spec
                  [semver.mkVersion 3 5 0 "" ""; semver.mkVersion 3 5 1 "" ""])).
Defined.

(** X10: with pre-releases excluded ([include_prerelease] false, null or
    unknown), no stored version has a pre-release part and the container
    versions are exactly the [major.minor] of the stored versions. *)
Theorem dart_containers_without_prereleases {lib : GoLib} (spec : GoLibSpec lib) (w : World)
    (req : Decoded DartVersions.ContainerModel) (resp : Response DartVersions.ContainerModel)
    (finished : list (string * result (list string))) (log : list Event)
    (minVersion : semver.Version) :
  let model := Get_data req in
  HasError (Append resp (Get_diags req)) = false ->
  types.ValueBool (DartVersions.c_IncludePrerelease model) = false ->
  DartVersions.fanOut DartVersions.fixed_channels w [] = (Returns finished, log) ->
  parses_to (types.ValueString (DartVersions.c_MinVersion model)) minVersion ->
  (forall s, s ∈ DartVersions.receive finished ∅ -> is_Some (semver.NewVersion s)) ->
  exists resp' model' versions names,
    run (DartVersions.ReadContainers req resp) w = (Returns resp', log) /\
    State resp' = Some model' /\
    DartVersions.c_Versions model' = types.StringList (semver.String <$> versions) /\
    DartVersions.c_ContainerVersions model' = types.StringList names /\
    Forall (fun v => semver.PreRelease v = "") versions /\
    (forall s, s ∈ names <->
       exists v, v ∈ versions /\
         s = fmt.d (semver.Major v) +:+ "." +:+ fmt.d (semver.Minor v)).
Proof.
  intros model Hno Hincl Hfan Hmin Hall.
  destruct (all_parse (rangeSet (DartVersions.receive finished ∅))) as [parsed Hparsed].
  { intros s Hs. apply Hall. rewrite rangeSet_perm in Hs. by apply elem_of_elements. }
  pose proof (ReadContainers_returns w req resp finished log minVersion parsed
                Hno Hfan Hmin Hparsed) as Hrun.
  fold model in Hrun. rewrite Hincl in Hrun.
  set (versions := semver_Sort (List.filter (kept minVersion (Some false)) parsed)) in *.
  assert (Forall (fun v => semver.PreRelease v = "") versions) as Hpre.
  { apply Forall_forall. intros v Hv. unfold versions in Hv.
    rewrite semver_Sort_perm in Hv. apply list_elem_of_In, filter_In in Hv as [_ Hk].
    by eapply kept_no_prerelease. }
  eexists _, _, versions, _. split; [exact Hrun|]. split; [done|]. split; [done|].
  split; [done|]. split; [done|].
  intros s. rewrite containerVersions_elem. rewrite Forall_forall in Hpre.
  split; intros (v & Hv & ->); exists v; (split; [done|]);
    unfold DartVersions.containerVersion; by rewrite (Hpre v Hv).
Qed.

Lemma dart_containers_without_prereleases_witness :
  exists resp' model' versions names,
    run (DartVersions.ReadContainers (lib := sequential.lib)
           (mkDecoded [] (examples.dart_containers false)) (examples.fresh None))
        (worlds.bucket [("stable", examples.stable_listing); ("beta", examples.beta_listing);
                        ("dev", examples.dev_listing)])
    = (Returns resp', listing_calls ["stable"; "beta"; "dev"]) /\
    State resp' = Some model' /\
    DartVersions.c_Versions model' = types.StringList (semver.String <$> versions) /\
    DartVersions.c_ContainerVersions model' = types.StringList names /\
    Forall (fun v => semver.PreRelease v = "") versions /\
    (forall s, s ∈ names <->
       exists v, v ∈ versions /\
         s = fmt.d (semver.Major v) +:+ "." +:+ fmt.d (semver.Minor v)).
Proof.
  apply (dart_containers_without_prereleases sequential_spec
           (worlds.bucket [("stable", examples.stable_listing);
                           ("beta", examples.beta_listing); ("dev", examples.dev_listing)])
           (mkDecoded [] (examples.dart_containers false)) (examples.fresh None)
           [("stable", Success ["3.5.0"; "3.4.1"; "3.5.1"]);
            ("beta", Success ["3.6.0-1.beta"; "3.5.0"]);
            ("dev", Success ["3.10.0-1.dev"; "3.10.0"])]
           (listing_calls ["stable"; "beta"; "dev"]) (semver.mkVersion 3 4 0 "" ""));
    [reflexivity..|].
  intros s Hs%elem_of_elements. revert s Hs. apply Forall_forall.
  apply (bool_decide_unpack _). vm_compute. exact I.
Defined.

(** X11: what [listVersions] returns on success: the listing answered
    200 with a body that decodes; every returned string is a path segment
    of one of the listed prefixes and matches the version pattern; a
    prefix contributes at most one string; and exactly one request was
    made. *)
Theorem listVersions_success (w : World) (channel : string) (log log' : list Event)
    (versions : list string) :
  DartVersions.listVersions channel w log = (Returns (Success versions), log') ->
  log' = log ++ listing_calls [channel] /\
  exists resp prefixes,
    w _ log (http_Get (DartVersions.listing_request channel)) = Success resp /\
    StatusCode resp = 200%Z /\
    Body_prefixes resp = Success prefixes /\
    length versions <= length prefixes /\
    Forall (fun version =>
              regexp.versionRegex_Match version = true /\
              exists prefix, prefix ∈ prefixes /\ version ∈ GoStrings.Split prefix "/")
      versions.
Proof.
  unfold DartVersions.listVersions. rewrite bind_call.
  destruct (w _ log _) as [resp|err] eqn:Hget; [|done].
  destruct (Z.eqb_spec (StatusCode resp) 200) as [Hcode|]; cbn [negb]; [|done].
  destruct (Body_prefixes resp) as [prefixes|err] eqn:Hbody; [|done].
  intros [= <- <-]. split; [done|]. exists resp, prefixes.
  split; [done|]. split; [done|]. split; [done|]. split.
  - clear. induction prefixes as [|p ps IH]; csimpl; [done|].
    destruct (DartVersions.version_of_prefix p); cbn [length]; lia.
  - apply Forall_forall. intros version (prefix & Hin & Hfind)%list_elem_of_omap.
    unfold DartVersions.version_of_prefix in Hfind.
    apply find_some in Hfind as [Hseg Hmatch]. split; [done|].
    exists prefix. split; [done|]. by apply list_elem_of_In.
Qed.

Lemma listVersions_success_witness :
  exists resp prefixes,
    worlds.bucket [("stable", examples.stable_listing)] _ []
      (http_Get (DartVersions.listing_request "stable")) = Success resp /\
    StatusCode resp = 200%Z /\
    Body_prefixes resp = Success prefixes /\
    length ["3.5.0"; "3.4.1"; "3.5.1"] <= length prefixes /\
    Forall (fun version =>
              regexp.versionRegex_Match version = true /\
              exists prefix, prefix ∈ prefixes /\ version ∈ GoStrings.Split prefix "/")
      ["3.5.0"; "3.4.1"; "3.5.1"].
Proof.
  apply (listVersions_success (worlds.bucket [("stable", examples.stable_listing)])
           "stable" [] (listing_calls ["stable"]) ["3.5.0"; "3.4.1"; "3.5.1"]).
  reflexivity.
Defined.

(** ** ServiceConfigResource.Read: the source files *)

Lemma overwritten_cons render t file rest before :
  overwritten render t (file :: rest) before
  = overwritten render t rest
      (if of_type t file then types.StringValue (render (FileContents file)) else before).
Proof.
  unfold overwritten. cbn [List.filter]. destruct (of_type t file); [|done].
  rewrite last_cons. by destruct (last _).
Qed.

Lemma Response_AddError_HasError {M} (resp : Response M) summary detail :
  HasError (AddError resp summary detail) = true.
Proof. apply AddError_HasError. Qed.

Lemma diag_AddError_mono (diags : diag.Diagnostics) summary detail d :
  d ∈ diags -> d ∈ diag.AddError diags summary detail.
Proof.
  intros Hd. unfold diag.AddError, diag.Append. cbn [fold_left].
  destruct (diag.Contains _ _); [done|]. apply elem_of_app. by left.
Qed.

Lemma readSourceFiles_unpacked (files : list ConfigFile)
    (data : ServiceConfigResource.ServiceConfigResourceModel)
    (resp : Response ServiceConfigResource.ServiceConfigResourceModel) :
  exists resp',
    ServiceConfigResource.readSourceFiles (Success <$> files) data resp
    = inr (ServiceConfigResource.mkModel
             (ServiceConfigResource.Id data) (ServiceConfigResource.ServiceName data)
             (overwritten (fun s => s) SERVICE_CONFIG_YAML files
                (ServiceConfigResource.ConfigYaml data))
             (overwritten base64.EncodeToString FILE_DESCRIPTOR_SET_PROTO files
                (ServiceConfigResource.ProtoDescriptorBase64 data)),
           resp') /\
    State resp' = State resp /\
    HasError resp' = HasError resp || negb (forallb known_type files) /\
    (forall d, d ∈ Diagnostics resp -> d ∈ Diagnostics resp') /\
    (forall file, file ∈ files -> known_type file = false ->
       diag.NewErrorDiagnostic "Unknown file type"
         ("Unknown file type: " +:+ ConfigFile_FileType_String (FileType file))
       ∈ Diagnostics resp').
Proof.
  revert data resp. induction files as [|file rest IH]; intros data resp.
  - exists resp. cbn. rewrite orb_false_r. repeat split; try done.
    + by destruct data.
    + intros file Hin. by apply elem_of_nil in Hin.
  - rewrite !overwritten_cons. destruct file as [p c t].
    destruct t; cbn [fmap list_fmap ServiceConfigResource.readSourceFiles FileType].
    all: match goal with
      | |- context [ServiceConfigResource.readSourceFiles _ ?d ?r] =>
          destruct (IH d r) as (resp' & Heq & Hstate & Herr & Hmono & Hunknown)
      end.
    all: exists resp'.
    all: split; [exact Heq|].
    all: split; [exact Hstate|].
    all: rewrite ?Response_AddError_HasError in Herr.
    all: split; [rewrite Herr; cbn; by destruct (HasError resp)|].
    all: split; [intros d Hd; apply Hmono; try done; by apply diag_AddError_mono|].
    all: intros file [->|Hin]%elem_of_cons Hk;
      [|by apply Hunknown]; try discriminate Hk.
    all: apply Hmono; apply AddError_elem.
Qed.

Lemma readSourceFiles_broken (before : list ConfigFile) (err : error)
    (after : list (result ConfigFile))
    (data : ServiceConfigResource.ServiceConfigResourceModel)
    (resp : Response ServiceConfigResource.ServiceConfigResourceModel) :
  exists resp',
    ServiceConfigResource.readSourceFiles ((Success <$> before) ++ Failure err :: after)
      data resp
    = inl resp' /\
    State resp' = State resp /\
    HasError resp' = true /\
    diag.NewErrorDiagnostic "Could not unmarshal source file" (Error err) ∈ Diagnostics resp'.
Proof.
  revert data resp. induction before as [|file rest IH]; intros data resp.
  - eexists. split; [reflexivity|]. split; [done|].
    split; [apply Response_AddError_HasError | apply AddError_elem].
  - destruct file as [p c t].
    destruct t; cbn [fmap list_fmap app ServiceConfigResource.readSourceFiles FileType];
      match goal with
      | |- context [ServiceConfigResource.readSourceFiles _ ?d ?r] =>
          destruct (IH d r) as (resp' & -> & Hstate & Herr & Hin)
      end; by exists resp'.
Qed.

(** X12: when every source file of the configuration unpacks,
    [ServiceConfigResource.Read] always writes the state: the id and the
    service name are the server's, [config_yaml] and
    [proto_descriptor_base64] are those of the last file of their type
    (the prior value when there is none), and the response carries an
    error exactly when some file is of another type, each such type being
    named by an "Unknown file type" diagnostic. *)
Theorem ServiceConfigResource_Read_source_files (w : World)
    (req : Decoded ServiceConfigResource.ServiceConfigResourceModel)
    (resp : Response ServiceConfigResource.ServiceConfigResourceModel)
    (serviceName configId : string) (config : ServiceConfig) (files : list ConfigFile) :
  let data := Get_data req in
  HasError (Append resp (Get_diags req)) = false ->
  parseConfigId (types.ValueString (ServiceConfigResource.Id data))
  = (serviceName, configId, None) ->
  w _ [] (GetServiceConfig serviceName configId) = Success config ->
  sc_SourceFiles config = Success <$> files ->
  exists resp',
    run (ServiceConfigResource.Read req resp) w
    = (Returns resp', [Called (GetServiceConfig serviceName configId)]) /\
    State resp'
    = Some (ServiceConfigResource.mkModel
              (newConfigId (sc_Name config) (sc_Id config))
              (types.StringValue (sc_Name config))
              (overwritten (fun s => s) SERVICE_CONFIG_YAML files
                 (ServiceConfigResource.ConfigYaml data))
              (overwritten base64.EncodeToString FILE_DESCRIPTOR_SET_PROTO files
                 (ServiceConfigResource.ProtoDescriptorBase64 data))) /\
    HasError resp' = negb (forallb known_type files) /\
    (forall file, file ∈ files -> known_type file = false ->
       diag.NewErrorDiagnostic "Unknown file type"
         ("Unknown file type: " +:+ ConfigFile_FileType_String (FileType file))
       ∈ Diagnostics resp').
Proof.
  intros data Hno Hid Hget Hfiles.
  unfold ServiceConfigResource.Read. fold data. rewrite Hno, Hid. exec.
  rewrite Hget, Hfiles.
  match goal with
  | |- context [ServiceConfigResource.readSourceFiles _ ?d ?r] =>
      destruct (readSourceFiles_unpacked files d r)
        as (resp' & -> & Hstate & Herr & Hmono & Hunknown)
  end.
  eexists. split; [reflexivity|]. split; [reflexivity|].
  rewrite State_Set_HasError, Herr, Hno. split; [done|].
  intros file Hin Hk. cbn [State_Set Diagnostics]. rewrite Append_nil.
  by apply Hunknown.
Qed.

Lemma ServiceConfigResource_Read_source_files_witness :
  exists resp',
    run (ServiceConfigResource.Read
           (mkDecoded [] (ServiceConfigResource.mkModel
              (types.StringValue "svc.example.com/2024r0") types.StringNull
              (types.StringValue "title: zero") types.StringNull))
           (examples.fresh None))
      (more_configs.serving
         (Success <$> [more_configs.yaml1; more_configs.openapi; more_configs.yaml2]))
    = (Returns resp', [Called (GetServiceConfig "svc.example.com" "2024r0")]) /\
    State resp'
    = Some (ServiceConfigResource.mkModel
              (types.StringValue "svc.example.com/2024r0")
              (types.StringValue "svc.example.com")
              (types.StringValue "title: two") types.StringNull) /\
    HasError resp' = true.
Proof.
  destruct (ServiceConfigResource_Read_source_files
              (more_configs.serving
                 (Success <$> [more_configs.yaml1; more_configs.openapi; more_configs.yaml2]))
              (mkDecoded [] (ServiceConfigResource.mkModel
                 (types.StringValue "svc.example.com/2024r0") types.StringNull
                 (types.StringValue "title: zero") types.StringNull))
              (examples.fresh None) "svc.example.com" "2024r0"
              (mkServiceConfig "svc.example.com" "2024r0"
                 (Success <$> [more_configs.yaml1; more_configs.openapi; more_configs.yaml2]))
              [more_configs.yaml1; more_configs.openapi; more_configs.yaml2]
              eq_refl eq_refl eq_refl eq_refl)
    as (resp' & Hrun & Hstate & Herr & _).
  exists resp'. split; [exact Hrun|]. split; [exact Hstate | exact Herr].
Defined.

(** X13: when a source file of the configuration does not unpack,
    [ServiceConfigResource.Read] stops there with the diagnostic "Could
    not unmarshal source file" and leaves the state as it was, whatever
    the files before it held. *)
Theorem ServiceConfigResource_Read_broken_file (w : World)
    (req : Decoded ServiceConfigResource.ServiceConfigResourceModel)
    (resp : Response ServiceConfigResource.ServiceConfigResourceModel)
    (serviceName configId : string) (config : ServiceConfig)
    (before : list ConfigFile) (err : error) (after : list (result ConfigFile)) :
  HasError (Append resp (Get_diags req)) = false ->
  parseConfigId (types.ValueString (ServiceConfigResource.Id (Get_data req)))
  = (serviceName, configId, None) ->
  w _ [] (GetServiceConfig serviceName configId) = Success config ->
  sc_SourceFiles config = (Success <$> before) ++ Failure err :: after ->
  exists resp',
    run (ServiceConfigResource.Read req resp) w
    = (Returns resp', [Called (GetServiceConfig serviceName configId)]) /\
    State resp' = State resp /\
    HasError resp' = true /\
    diag.NewErrorDiagnostic "Could not unmarshal source file" (Error err)
    ∈ Diagnostics resp'.
Proof.
  intros Hno Hid Hget Hfiles.
  unfold ServiceConfigResource.Read. rewrite Hno, Hid. exec.
  rewrite Hget, Hfiles.
  match goal with
  | |- context [ServiceConfigResource.readSourceFiles _ ?d ?r] =>
      destruct (readSourceFiles_broken before err after d r)
        as (resp' & -> & Hstate & Herr & Hin)
  end.
  exists resp'. by repeat split.
Qed.

Lemma ServiceConfigResource_Read_broken_file_witness :
  exists resp',
    run (ServiceConfigResource.Read
           (mkDecoded [] (ServiceConfigResource.mkModel
              (types.StringValue "svc.example.com/2024r0") types.StringNull
              types.StringNull types.StringNull))
           (examples.fresh None))
      (more_configs.serving
         [Success more_configs.yaml1; Failure (errors.New "mismatched message type")])
    = (Returns resp', [Called (GetServiceConfig "svc.example.com" "2024r0")]) /\
    State resp' = None /\
    HasError resp' = true.
Proof.
  destruct (ServiceConfigResource_Read_broken_file
              (more_configs.serving
                 [Success more_configs.yaml1; Failure (errors.New "mismatched message type")])
              (mkDecoded [] (ServiceConfigResource.mkModel
                 (types.StringValue "svc.example.com/2024r0") types.StringNull
                 types.StringNull types.StringNull))
              (examples.fresh None) "svc.example.com" "2024r0"
              (mkServiceConfig "svc.example.com" "2024r0"
                 [Success more_configs.yaml1; Failure (errors.New "mismatched message type")])
              [more_configs.yaml1] (errors.New "mismatched message type") []
              eq_refl eq_refl eq_refl eq_refl)
    as (resp' & Hrun & Hstate & Herr & _).
  exists resp'. split; [exact Hrun|]. split; [exact Hstate | exact Herr].
Defined.

(** ** ServiceRolloutResource: what is sent and what is stored *)

Lemma parseRolloutId_join a b :
  GoStrings.Contains a "/" = false -> GoStrings.Contains b "/" = false ->
  parseRolloutId (a +:+ "/" +:+ b) = (a, b, None).
Proof.
  intros Ha%Contains_slash Hb%Contains_slash. unfold parseRolloutId.
  by rewrite (Split_join _ _ Ha), (Split_no_slash _ Hb).
Qed.

Lemma config_of_parts svc k :
  config_of svc k = true ->
  parseConfigId k = (svc, config_part k, None) /\ k = svc +:+ "/" +:+ config_part k.
Proof.
  unfold config_of, config_part. destruct (parseConfigId k) as [[a b] [e|]] eqn:E; [done|].
  intros ->%bool_decide_eq_true. split; [done|].
  apply parseConfigId_parts, Split_two in E as [E _]. by rewrite <- E.
Qed.

Lemma app_string_inj (a b c : string) : a +:+ b = a +:+ c -> b = c.
Proof. induction a as [|x a IH]; cbn; [done|]. intros [= H]. by apply IH. Qed.

Section rollout_more.
Context {lib : GoLib}.
Import ServiceRolloutResource.

Lemma createRollout_config_id (w : World) data diagnostics log svc cfg op rollout :
  types.IsNull (ConfigId data) = false ->
  parseConfigId (types.ValueString (ConfigId data)) = (svc, cfg, None) ->
  w _ log (CreateServiceRollout svc {[ cfg := float64_100 ]}) = Success op ->
  w _ (log ++ [Called (CreateServiceRollout svc {[ cfg := float64_100 ]})])
    (CreateServiceRolloutOperation_Wait op) = Success rollout ->
  createRollout data diagnostics w log
  = (Returns (Some (newRolloutId svc (ro_RolloutId rollout)), diagnostics),
     log ++ [Called (CreateServiceRollout svc {[ cfg := float64_100 ]});
             Called (CreateServiceRolloutOperation_Wait op)]).
Proof.
  intros Hnull Hparse Hcall Hwait. unfold createRollout. rewrite Hnull, Hparse. cbn [negb].
  rewrite bind_call, Hcall, bind_call, Hwait. cbn. by rewrite <- app_assoc.
Qed.

Lemma Read_stored (w : World) (data : ServiceRolloutResourceModel)
    (resp : Response ServiceRolloutResourceModel) svc rid served :
  HasError resp = false ->
  types.IsNull (Id data) = false ->
  types.IsNull (ConfigId data) = false ->
  parseRolloutId (types.ValueString (Id data)) = (svc, rid, None) ->
  w _ [] (GetServiceRollout svc rid) = Success served ->
  run (Read (mkDecoded [] data) resp) w
  = (Returns (mkResponse (Diagnostics resp) (Some data)),
     [Called (GetServiceRollout svc rid)]).
Proof.
  intros Hno Hid Hcfg Hparse Hget. unfold Read. cbn [Get_data Get_diags].
  assert (Happ : Append resp [] = mkResponse (Diagnostics resp) (State resp)) by done.
  rewrite Happ. unfold HasError in *. cbn [Diagnostics]. rewrite Hno, Hid, Hparse.
  exec. rewrite Hget. unfold Append. cbn [Diagnostics diag.Append fold_left].
  rewrite Hno, Hcfg. reflexivity.
Qed.

End rollout_more.

(** X14: creating a rollout for one configuration sends that
    configuration at 100 percent, waits for the operation and stores the
    identifier built from the service and the rollout id; when the
    rollout id holds no slash, reading the stored model back asks for
    that very rollout and stores the model unchanged, whatever
    percentages the server reports. *)
Theorem ServiceRolloutResource_Create_then_Read {lib : GoLib} (w w' : World)
    (decoded : Decoded ServiceRolloutResource.ServiceRolloutResourceModel)
    (resp resp2 : Response ServiceRolloutResource.ServiceRolloutResourceModel)
    (svc cfg op : string) (rollout served : Rollout) :
  let data := Get_data decoded in
  let resp0 := Append resp (Get_diags decoded) in
  let request := CreateServiceRollout svc {[ cfg := float64_100 ]} in
  let stored :=
    ServiceRolloutResource.mkModel (newRolloutId svc (ro_RolloutId rollout))
      (ServiceRolloutResource.ConfigId data) (ServiceRolloutResource.RolloutConfig data) in
  HasError resp0 = false ->
  types.IsNull (ServiceRolloutResource.ConfigId data) = false ->
  parseConfigId (types.ValueString (ServiceRolloutResource.ConfigId data)) = (svc, cfg, None) ->
  w _ [] request = Success op ->
  w _ [Called request] (CreateServiceRolloutOperation_Wait op) = Success rollout ->
  GoStrings.Contains (ro_RolloutId rollout) "/" = false ->
  HasError resp2 = false ->
  w' _ [] (GetServiceRollout svc (ro_RolloutId rollout)) = Success served ->
  run (ServiceRolloutResource.Create decoded resp) w
  = (Returns (State_Set resp0 stored),
     [Called request; Called (CreateServiceRolloutOperation_Wait op)]) /\
  run (ServiceRolloutResource.Read (mkDecoded [] stored) resp2) w'
  = (Returns (mkResponse (Diagnostics resp2) (Some stored)),
     [Called (GetServiceRollout svc (ro_RolloutId rollout))]).
Proof.
  intros data resp0 request stored Hno Hnull Hparse Hcall Hwait Hslash Hno2 Hget. split.
  - unfold ServiceRolloutResource.Create, ServiceRolloutResource.createOrUpdate, run.
    fold data resp0. rewrite Hno. unfold mbind at 1, Exec_bind at 1.
    rewrite (createRollout_config_id w data _ [] svc cfg op rollout Hnull Hparse Hcall Hwait).
    reflexivity.
  - apply (Read_stored w' stored resp2 svc (ro_RolloutId rollout) served); try done.
    apply parseRolloutId_join; [|done].
    by apply parseConfigId_parts, Split_two in Hparse as (_ & ? & _).
Qed.

Lemma ServiceRolloutResource_Create_then_Read_witness :
  run (ServiceRolloutResource.Create (lib := sequential.lib)
         (mkDecoded [] examples.rollout) (examples.fresh None))
      (more_rollouts.rolling ∅)
  = (Returns (mkResponse [] (Some examples.rollout_state)),
     [Called (CreateServiceRollout "svc.example.com" {[ "2024r0" := float64_100 ]});
      Called (CreateServiceRolloutOperation_Wait "operations/rollouts.svc.example.com-r1")]) /\
  run (ServiceRolloutResource.Read (lib := sequential.lib)
         (mkDecoded [] examples.rollout_state) (examples.fresh None))
      (more_rollouts.rolling more_rollouts.split_traffic)
  = (Returns (mkResponse [] (Some examples.rollout_state)),
     [Called (GetServiceRollout "svc.example.com" "r1")]).
Proof.
  exact (ServiceRolloutResource_Create_then_Read (lib := sequential.lib)
           (more_rollouts.rolling ∅) (more_rollouts.rolling more_rollouts.split_traffic)
           (mkDecoded [] examples.rollout) (examples.fresh None) (examples.fresh None)
           "svc.example.com" "2024r0" "operations/rollouts.svc.example.com-r1"
           (mkRollout "r1" ∅) (mkRollout "r1" more_rollouts.split_traffic)
           eq_refl eq_refl eq_refl eq_refl eq_refl eq_refl eq_refl eq_refl).
Defined.

Section rollout_read.
Context {lib : GoLib} {spec : GoLibSpec lib}.
Import ServiceRolloutResource.

Lemma rangeMap_singleton (k : string) (p : float64) : rangeMap {[ k := p ]} = [(k, p)].
Proof.
  pose proof (rangeMap_perm ({[ k := p ]} : gmap string float64)) as Hperm.
  rewrite map_to_list_singleton in Hperm. by apply Permutation_singleton_r in Hperm.
Qed.

End rollout_read.

(** X15: a successful [ServiceRolloutResource.Read] always stores a model
    with the identifier it was given.  With [config_id] set, nothing else
    changes either.  With [config_id] null the server's percentages are
    stored as [rollout_config] (null when the rollout has none, since
    [types.MapValueFrom] of a nil map is null), except on import (both
    attributes null) of a rollout with a single percentage, where
    [config_id] is built from the service and that percentage's key
    instead. *)
Theorem ServiceRolloutResource_Read_found {lib : GoLib} {spec : GoLibSpec lib} (w : World)
    (req : Decoded ServiceRolloutResource.ServiceRolloutResourceModel)
    (resp : Response ServiceRolloutResource.ServiceRolloutResourceModel)
    (serviceName rolloutId : string) (rollout : Rollout) :
  let data := Get_data req in
  let resp0 := Append resp (Get_diags req) in
  let id := ServiceRolloutResource.Id data in
  let config_id := ServiceRolloutResource.ConfigId data in
  let rollout_config := ServiceRolloutResource.RolloutConfig data in
  let served := ServiceRolloutResource.MapValueFrom (ro_Percentages rollout) in
  HasError resp0 = false ->
  types.IsNull id = false ->
  parseRolloutId (types.ValueString id) = (serviceName, rolloutId, None) ->
  w _ [] (GetServiceRollout serviceName rolloutId) = Success rollout ->
  exists stored,
    run (ServiceRolloutResource.Read req resp) w
    = (Returns (State_Set resp0 stored), [Called (GetServiceRollout serviceName rolloutId)]) /\
    ServiceRolloutResource.Id stored = id /\
    (types.IsNull config_id = false -> stored = data) /\
    (types.IsNull config_id = true ->
     ServiceRolloutResource.Map_IsNull rollout_config = false ->
     stored = ServiceRolloutResource.mkModel id config_id served) /\
    (types.IsNull config_id = true ->
     ServiceRolloutResource.Map_IsNull rollout_config = true ->
     (forall key percent, ro_Percentages rollout = {[ key := percent ]} ->
        stored = ServiceRolloutResource.mkModel id (newConfigId serviceName key) rollout_config) /\
     (size (ro_Percentages rollout) <> 1%nat ->
        stored = ServiceRolloutResource.mkModel id config_id served)) /\
    (ro_Percentages rollout = ∅ -> served = ServiceRolloutResource.MapNull) /\
    (ro_Percentages rollout <> ∅ ->
     served = ServiceRolloutResource.MapValue (ro_Percentages rollout)).
Proof.
  intros data resp0 id config_id rollout_config served Hno Hid Hparse Hget.
  unfold ServiceRolloutResource.Read. fold data resp0. fold id. rewrite Hno, Hid, Hparse.
  exec. rewrite Hget.
  assert (Happ : HasError (Append resp0 []) = false) by exact Hno. rewrite Happ.
  fold config_id rollout_config served.
  assert (Hset : forall m, State_Set (Append resp0 []) m = State_Set resp0 m) by done.
  rewrite Hset. eexists. split; [reflexivity|].
  assert (Hserved : (ro_Percentages rollout = ∅ -> served = ServiceRolloutResource.MapNull) /\
                    (ro_Percentages rollout <> ∅ ->
                     served = ServiceRolloutResource.MapValue (ro_Percentages rollout))).
  { unfold served, ServiceRolloutResource.MapValueFrom.
    split; intros H; [by rewrite bool_decide_eq_true_2 | by rewrite bool_decide_eq_false_2]. }
  destruct (types.IsNull config_id) eqn:Hc, (ServiceRolloutResource.Map_IsNull rollout_config) eqn:Hr;
    cbn [andb].
  - destruct (Nat.eqb_spec (size (ro_Percentages rollout)) 1) as [Hone|Hmany].
    + split; [done|]. split; [done|]. split; [done|]. split; [|done]. intros _ _.
      split; [|done].
      intros key percent Heq. rewrite Heq, rangeMap_singleton. reflexivity.
    + split; [done|]. split; [done|]. split; [done|]. split; [|done]. intros _ _.
      split; [|done].
      intros key percent Heq. rewrite Heq, map_size_singleton in Hmany. done.
  - split; [done|]. split; [done|]. split; [done|]. done.
  - split; [done|]. split; [by intros _; destruct data|]. done.
  - split; [done|]. split; [by intros _; destruct data|]. done.
Qed.

Lemma ServiceRolloutResource_Read_found_witness :
  exists stored,
    run (ServiceRolloutResource.Read (lib := sequential.lib)
           (mkDecoded [] more_rollouts.imported) (examples.fresh None))
        (more_rollouts.rolling {[ "2024r0" := float64_100 ]})
    = (Returns (mkResponse [] (Some stored)),
       [Called (GetServiceRollout "svc.example.com" "r1")]) /\
    stored = ServiceRolloutResource.mkModel (types.StringValue "svc.example.com/r1")
               (types.StringValue "svc.example.com/2024r0") ServiceRolloutResource.MapNull.
Proof.
  destruct (ServiceRolloutResource_Read_found (spec := sequential_spec)
              (more_rollouts.rolling {[ "2024r0" := float64_100 ]})
              (mkDecoded [] more_rollouts.imported) (examples.fresh None)
              "svc.example.com" "r1" (mkRollout "r1" {[ "2024r0" := float64_100 ]})
              eq_refl eq_refl eq_refl eq_refl)
    as (stored & Hrun & _ & _ & _ & Himport & _).
  exists stored. split; [exact Hrun|].
  exact (proj1 (Himport eq_refl eq_refl) "2024r0" float64_100 eq_refl).
Defined.

Section rollout_percentages.
Context {lib : GoLib} {spec : GoLibSpec lib}.
Import ServiceRolloutResource.

(** Keys of one non-empty service: the loop runs to its end, whatever
    the order. *)
Lemma collectPercentages_same_service entries svc sn acc diags :
  svc <> "" -> sn = "" \/ sn = svc ->
  Forall (fun kv => config_of svc kv.1 = true) entries ->
  collectPercentages entries sn acc diags
  = inr (match entries with [] => sn | _ => svc end, foldl insert_entry acc entries).
Proof.
  intros Hsvc. revert sn acc. induction entries as [|[k v] rest IH]; intros sn acc Hsn Hall.
  - done.
  - apply Forall_cons in Hall as [Hk Hrest]. cbn [fst] in Hk.
    apply config_of_parts in Hk as [Hk _]. cbn [collectPercentages foldl]. rewrite Hk.
    assert (Hsame : match rest with [] => svc | _ => svc end = svc) by by destruct rest.
    destruct Hsn as [->| ->].
    + rewrite bool_decide_eq_true_2 by done. rewrite IH by auto. by rewrite Hsame.
    + rewrite bool_decide_eq_false_2 by done. rewrite bool_decide_eq_true_2 by done.
      cbn [negb]. rewrite IH by auto. by rewrite Hsame.
Qed.

Lemma config_part_fst (l : list (string * float64)) :
  ((fun kv => (config_part kv.1, kv.2)) <$> l).*1 = config_part <$> l.*1.
Proof. by rewrite <- !list_fmap_compose. Qed.

Lemma foldl_insert_lookup (l : list (string * float64)) (acc : gmap string float64) c :
  NoDup (config_part <$> l.*1) ->
  foldl insert_entry acc l !! c
  = match (list_to_map ((fun kv => (config_part kv.1, kv.2)) <$> l) : gmap string float64) !! c with
    | Some v => Some v
    | None => acc !! c
    end.
Proof.
  revert acc. induction l as [|[k v] rest IH]; intros acc Hnd; [done|].
  cbn [fmap list_fmap fst] in Hnd. apply NoDup_cons in Hnd as [Hk Hnd].
  cbn [foldl]. rewrite IH by done. rewrite fmap_cons, list_to_map_cons.
  unfold insert_entry at 1. cbn [fst snd].
  destruct (decide (c = config_part k)) as [->|Hne].
  - rewrite !lookup_insert_eq.
    rewrite (not_elem_of_list_to_map_1 _ (config_part k)); [done|].
    by rewrite config_part_fst.
  - by rewrite !lookup_insert_ne.
Qed.

Lemma config_part_lookup (l : list (string * float64)) (raw : gmap string float64) svc c :
  l ≡ₚ map_to_list raw ->
  map_Forall (fun k _ => config_of svc k = true) raw ->
  NoDup (config_part <$> l.*1) /\
  (list_to_map ((fun kv => (config_part kv.1, kv.2)) <$> l) : gmap string float64) !! c
  = raw !! (svc +:+ "/" +:+ c).
Proof.
  intros Hperm Hall.
  assert (Hin : forall k v, (k, v) ∈ l <-> raw !! k = Some v).
  { intros k v. rewrite Hperm. apply elem_of_map_to_list. }
  assert (Hkeys : forall k, k ∈ l.*1 -> config_of svc k = true).
  { intros k [[k' v] [-> Hkv]]%list_elem_of_fmap. apply Hin in Hkv. by apply (Hall _ _ Hkv). }
  assert (Hnd : NoDup (config_part <$> l.*1)).
  { apply NoDup_fmap_2_strong.
    - intros k1 k2 H1%Hkeys H2%Hkeys Heq.
      apply config_of_parts in H1 as [_ H1]. apply config_of_parts in H2 as [_ H2].
      rewrite H1, H2. by rewrite Heq.
    - rewrite Hperm. apply NoDup_fst_map_to_list. }
  split; [done|]. apply option_eq. intros v.
  rewrite <- elem_of_list_to_map by by rewrite config_part_fst.
  rewrite list_elem_of_fmap. split.
  - intros [[k v'] [[= -> ->] Hkv]]. cbn [fst] in *.
    assert (Hk : k ∈ l.*1) by (apply list_elem_of_fmap; by exists (k, v')).
    apply Hkeys, config_of_parts in Hk as [_ Hk]. rewrite <- Hk. by apply Hin.
  - intros Hv. exists (svc +:+ "/" +:+ c, v). split; [|by apply Hin].
    cbn [fst snd]. f_equal.
    pose proof (Hall _ _ Hv) as Hk. apply config_of_parts in Hk as [_ Hk].
    apply app_string_inj in Hk. by apply (app_string_inj "/") in Hk.
Qed.

Lemma collected_percentages (raw : gmap string float64) svc :
  map_Forall (fun k _ => config_of svc k = true) raw ->
  foldl insert_entry ∅ (rangeMap raw) = config_percentages raw /\
  forall c, config_percentages raw !! c = raw !! (svc +:+ "/" +:+ c).
Proof.
  intros Hall.
  assert (Hlookup : forall c, config_percentages raw !! c = raw !! (svc +:+ "/" +:+ c)).
  { intros c. by apply (config_part_lookup (map_to_list raw) raw svc c). }
  split; [|done]. apply map_eq. intros c.
  destruct (config_part_lookup (rangeMap raw) raw svc c (rangeMap_perm raw) Hall) as [Hnd Hl].
  rewrite foldl_insert_lookup by done. rewrite Hl, Hlookup, lookup_empty.
  by destruct (raw !! _).
Qed.

Lemma rangeMap_nonempty (raw : gmap string float64) : raw <> ∅ -> rangeMap raw <> [].
Proof.
  intros Hne Hnil. pose proof (rangeMap_perm raw) as Hperm. rewrite Hnil in Hperm.
  apply Permutation_nil_l in Hperm. symmetry in Hperm.
  by apply map_to_list_empty_iff in Hperm.
Qed.

Lemma createRollout_percentages (w : World) data diagnostics log raw svc op rollout :
  types.IsNull (ConfigId data) = true ->
  RolloutConfig data = MapValue raw ->
  diag.HasError diagnostics = false ->
  raw <> ∅ -> svc <> "" ->
  map_Forall (fun k _ => config_of svc k = true) raw ->
  w _ log (CreateServiceRollout svc (config_percentages raw)) = Success op ->
  w _ (log ++ [Called (CreateServiceRollout svc (config_percentages raw))])
    (CreateServiceRolloutOperation_Wait op) = Success rollout ->
  createRollout data diagnostics w log
  = (Returns (Some (newRolloutId svc (ro_RolloutId rollout)), diagnostics),
     log ++ [Called (CreateServiceRollout svc (config_percentages raw));
             Called (CreateServiceRolloutOperation_Wait op)]).
Proof.
  intros Hnull Hmap Hno Hne Hsvc Hall Hcall Hwait.
  unfold createRollout. rewrite Hnull, Hmap. cbn [negb Map_ElementsAs].
  rewrite Append_nil, Hno.
  assert (Hentries : Forall (fun kv => config_of svc kv.1 = true) (rangeMap raw)).
  { apply Forall_forall. intros [k v] Hkv. cbn [fst].
    rewrite (rangeMap_perm raw) in Hkv. apply elem_of_map_to_list in Hkv.
    by apply (Hall _ _ Hkv). }
  rewrite (collectPercentages_same_service _ svc "" ∅ diagnostics Hsvc (or_introl eq_refl)
             Hentries).
  destruct (collected_percentages raw svc Hall) as [-> _].
  destruct (rangeMap raw) eqn:E; [by apply rangeMap_nonempty in E|].
  rewrite bind_call, Hcall, bind_call, Hwait. cbn. by rewrite <- app_assoc.
Qed.

End rollout_percentages.

(** X16: creating or updating a rollout from [rollout_config] whose keys
    are all configurations of one service with a non-empty name sends one
    request for that service, whatever the order in which the map is
    visited: each configuration id carries the percentage configured
    under service/id.  The operation is awaited and the model stored
    with the new identifier. *)
Theorem ServiceRolloutResource_Create_percentages {lib : GoLib} {spec : GoLibSpec lib}
    (w : World) (decoded : Decoded ServiceRolloutResource.ServiceRolloutResourceModel)
    (resp : Response ServiceRolloutResource.ServiceRolloutResourceModel)
    (raw : gmap string float64) (svc op : string) (rollout : Rollout) :
  let data := Get_data decoded in
  let resp0 := Append resp (Get_diags decoded) in
  let request := CreateServiceRollout svc (config_percentages raw) in
  let stored :=
    ServiceRolloutResource.mkModel (newRolloutId svc (ro_RolloutId rollout))
      (ServiceRolloutResource.ConfigId data) (ServiceRolloutResource.RolloutConfig data) in
  HasError resp0 = false ->
  types.IsNull (ServiceRolloutResource.ConfigId data) = true ->
  ServiceRolloutResource.RolloutConfig data = ServiceRolloutResource.MapValue raw ->
  raw <> ∅ -> svc <> "" ->
  map_Forall (fun k _ => config_of svc k = true) raw ->
  w _ [] request = Success op ->
  w _ [Called request] (CreateServiceRolloutOperation_Wait op) = Success rollout ->
  (forall configId, config_percentages raw !! configId = raw !! (svc +:+ "/" +:+ configId)) /\
  run (ServiceRolloutResource.Create decoded resp) w
  = (Returns (State_Set resp0 stored),
     [Called request; Called (CreateServiceRolloutOperation_Wait op)]) /\
  run (ServiceRolloutResource.Update decoded resp) w
  = (Returns (State_Set resp0 stored),
     [Called request; Called (CreateServiceRolloutOperation_Wait op)]).
Proof.
  intros data resp0 request stored Hno Hnull Hmap Hne Hsvc Hall Hcall Hwait.
  split; [by apply collected_percentages|].
  assert (Hrun : run (ServiceRolloutResource.createOrUpdate decoded resp) w
                 = (Returns (State_Set resp0 stored),
                    [Called request; Called (CreateServiceRolloutOperation_Wait op)])).
  { unfold ServiceRolloutResource.createOrUpdate, run.
    fold data resp0. rewrite Hno. unfold mbind at 1, Exec_bind at 1.
    rewrite (createRollout_percentages w data _ [] raw svc op rollout
               Hnull Hmap Hno Hne Hsvc Hall Hcall Hwait).
    reflexivity. }
  split; exact Hrun.
Qed.

Lemma ServiceRolloutResource_Create_percentages_witness :
  (forall configId,
     config_percentages more_rollouts.split_traffic !! configId
     = more_rollouts.split_traffic !! ("svc.example.com" +:+ "/" +:+ configId)) /\
  run (ServiceRolloutResource.Create (lib := sequential.lib)
         (mkDecoded [] (more_rollouts.by_percentages more_rollouts.split_traffic))
         (examples.fresh None))
      (more_rollouts.rolling ∅)
  = (Returns (mkResponse [] (Some (ServiceRolloutResource.mkModel
                (types.StringValue "svc.example.com/r1") types.StringNull
                (ServiceRolloutResource.MapValue more_rollouts.split_traffic)))),
     [Called (CreateServiceRollout "svc.example.com"
                (config_percentages more_rollouts.split_traffic));
      Called (CreateServiceRolloutOperation_Wait "operations/rollouts.svc.example.com-r1")]).
Proof.
  destruct (ServiceRolloutResource_Create_percentages (spec := sequential_spec)
              (more_rollouts.rolling ∅)
              (mkDecoded [] (more_rollouts.by_percentages more_rollouts.split_traffic))
              (examples.fresh None) more_rollouts.split_traffic "svc.example.com"
              "operations/rollouts.svc.example.com-r1" (mkRollout "r1" ∅))
    as (Hlookup & Hcreate & _);
    try reflexivity; try (apply (bool_decide_unpack _); vm_compute; exact I).
  split; [exact Hlookup | exact Hcreate].
Defined.

Section rollout_turned_down.
Context {lib : GoLib} {spec : GoLibSpec lib}.
Import ServiceRolloutResource.

(** When the loop runs to its end, every key parsed and the keys with
    a service name share it. *)
Lemma collectPercentages_inr entries sn acc diags sn' pct :
  collectPercentages entries sn acc diags = inr (sn', pct) ->
  (sn <> "" -> sn' = sn) /\
  Forall (fun kv => (parseConfigId kv.1).2 = None /\
                    (service_part kv.1 = "" \/ service_part kv.1 = sn')) entries.
Proof.
  revert sn acc. induction entries as [|[k v] rest IH]; intros sn acc Hrun.
  - cbn in Hrun. injection Hrun as -> _. by split.
  - cbn [collectPercentages] in Hrun.
    destruct (parseConfigId k) as [[svc cfg] [e|]] eqn:E; [done|].
    case_bool_decide as Hsn.
    + subst sn. apply IH in Hrun as [Hkeep Hrest]. split; [done|].
      constructor; [|done]. unfold service_part. cbn [fst]. rewrite E. cbn [fst snd].
      split; [done|].
      destruct (decide (svc = "")) as [->|Hne]; [by left | right; symmetry; by apply Hkeep].
    + case_bool_decide as Hsvc; [|done]. subst svc. cbn [negb] in Hrun.
      apply IH in Hrun as [Hkeep Hrest]. split; [done|].
      constructor; [|done]. unfold service_part. cbn [fst]. rewrite E. cbn [fst snd].
      split; [done|]. right. symmetry. by apply Hkeep.
Qed.

Lemma createRollout_turned_down (w : World) data diagnostics log :
  diag.HasError diagnostics = false ->
  turned_down data ->
  exists diagnostics', createRollout data diagnostics w log = (Returns (None, diagnostics'), log).
Proof.
  intros Hno Hdown. unfold turned_down in Hdown. unfold createRollout.
  destruct (types.IsNull (ConfigId data)); cbn [negb].
  - destruct (RolloutConfig data) as [| |raw]; [done| |].
    + cbn [Map_ElementsAs].
      change (diag.Append diagnostics [?d]) with (diag.AddError diagnostics
        "Map Type Validation Error" "unhandled unknown value").
      rewrite AddError_HasError. by eexists.
    + cbn [Map_ElementsAs]. rewrite Append_nil, Hno.
      destruct (collectPercentages (rangeMap raw) "" ∅ diagnostics) as [d|[sn' pct]] eqn:E;
        [by eexists|].
      exfalso. apply collectPercentages_inr in E as [_ Hall].
      assert (Hkey : forall k, is_Some (raw !! k) ->
                (parseConfigId k).2 = None /\ (service_part k = "" \/ service_part k = sn')).
      { intros k [v Hv]. rewrite Forall_forall in Hall.
        apply (Hall (k, v)). rewrite (rangeMap_perm raw). by apply elem_of_map_to_list. }
      destruct Hdown as [(k & Hk & Hbad)|(k1 & k2 & Hk1 & Hk2 & Hn1 & Hn2 & Hdiff)].
      * apply Hkey in Hk as [Hk _]. rewrite Hk in Hbad. by destruct Hbad.
      * apply Hkey in Hk1 as [_ [?| H1]]; [done|].
        apply Hkey in Hk2 as [_ [?| H2]]; [done|]. congruence.
  - destruct (parseConfigId _) as [[svc cfg] [e|]]; [by eexists|]. by destruct Hdown.
Qed.

End rollout_turned_down.

(** X17: when [createRollout] turns its input down (a [config_id] that
    does not parse or, without one, an unknown [rollout_config], a key
    that does not parse, or keys naming two services), no request is
    sent and [Create] and [Update] end in a nil-pointer panic: the
    diagnostic stays on [createRollout]'s copy. *)
Theorem ServiceRolloutResource_turned_down_panics {lib : GoLib} {spec : GoLibSpec lib}
    (w : World) (decoded : Decoded ServiceRolloutResource.ServiceRolloutResourceModel)
    (resp : Response ServiceRolloutResource.ServiceRolloutResourceModel) :
  HasError (Append resp (Get_diags decoded)) = false ->
  turned_down (Get_data decoded) ->
  run (ServiceRolloutResource.Create decoded resp) w = (Panics nil_dereference, []) /\
  run (ServiceRolloutResource.Update decoded resp) w = (Panics nil_dereference, []).
Proof.
  intros Hno Hdown.
  assert (Hrun : run (ServiceRolloutResource.createOrUpdate decoded resp) w
                 = (Panics nil_dereference, [])).
  { unfold ServiceRolloutResource.createOrUpdate, run. rewrite Hno.
    unfold mbind at 1, Exec_bind at 1.
    destruct (createRollout_turned_down w (Get_data decoded)
                (Diagnostics (Append resp (Get_diags decoded))) [] Hno Hdown) as [d ->].
    reflexivity. }
  split; exact Hrun.
Qed.

Lemma ServiceRolloutResource_turned_down_panics_witness :
  run (ServiceRolloutResource.Create (lib := sequential.lib)
         (mkDecoded [] (more_rollouts.by_percentages more_rollouts2.two_services))
         (examples.fresh None))
      (more_rollouts.rolling ∅)
  = (Panics nil_dereference, []).
Proof.
  apply (ServiceRolloutResource_turned_down_panics (spec := sequential_spec)
           (more_rollouts.rolling ∅)
           (mkDecoded [] (more_rollouts.by_percentages more_rollouts2.two_services))
           (examples.fresh None)); [reflexivity|].
  right. exists "svc.example.com/2024r0", "other.example.com/2024r0".
  repeat split; apply (bool_decide_unpack _); vm_compute; exact I.
Defined.

(** ** The state is written only on success *)

Section state_on_error.
Context {M : Type} (before : Response M).

Lemma keeps_bind {A} (m : Exec A) (k : A -> Exec (Response M)) :
  (forall a, keeps_state_on_error before (k a)) -> keeps_state_on_error before (m ≫= k).
Proof.
  intros Hk w log resp' log'. unfold mbind, Exec_bind.
  destruct (m w log) as [[a|msg|] log1]; [apply Hk | done | done].
Qed.

Lemma keeps_same (resp : Response M) :
  State resp = State before -> keeps_state_on_error before (mret resp).
Proof. intros Hstate w log resp' log' [= <- _] _. exact Hstate. Qed.

Lemma keeps_set (resp : Response M) (data : M) :
  HasError resp = false -> keeps_state_on_error before (mret (State_Set resp data)).
Proof.
  intros Hno w log resp' log' [= <- _] Herr. rewrite State_Set_HasError in Herr. congruence.
Qed.

Lemma keeps_panic (msg : string) : keeps_state_on_error before (panic msg).
Proof. by intros w log resp' log'. Qed.

End state_on_error.

Ltac keeps :=
  repeat first
    [ apply keeps_panic
    | apply keeps_same; reflexivity
    | apply keeps_set; assumption
    | apply keeps_bind; intros ?
    | match goal with
      | |- keeps_state_on_error _ (match ?x with _ => _ end) => destruct x eqn:?
      end ].

(** X18: apart from [ServiceConfigResource.Read] and the Dart data
    source, no handler returns with an error among the diagnostics and a
    changed state: the service, rollout, tenancy-unit and tenant-project
    handlers and the configuration data source write the state only on
    the path that reports nothing. *)
Theorem state_written_only_on_success :
  (forall req resp,
     keeps_state_on_error resp (ServiceResource.Create req resp) /\
     keeps_state_on_error resp (ServiceResource.Read req resp) /\
     keeps_state_on_error resp (ServiceResource.Delete req resp)) /\
  (forall marshal req resp,
     keeps_state_on_error resp (ServiceConfigDataSource.Read marshal req resp)) /\
  (forall (lib : GoLib) req resp,
     keeps_state_on_error resp (ServiceRolloutResource.Create req resp) /\
     keeps_state_on_error resp (ServiceRolloutResource.Update req resp) /\
     keeps_state_on_error resp (ServiceRolloutResource.Read req resp)) /\
  (forall req resp,
     keeps_state_on_error resp (ServiceTenancyUnitResource.Create req resp) /\
     keeps_state_on_error resp (ServiceTenancyUnitResource.Read req resp) /\
     keeps_state_on_error resp (ServiceTenancyUnitResource.Delete req resp)) /\
  (forall (config object : Type) (toProjectConfig : config -> option TenantProjectConfig)
          fuel (req : Decoded (ServiceProjectResource.ServiceProjectResourceModel object))
          req_config resp,
     keeps_state_on_error resp
       (ServiceProjectResource.Create toProjectConfig fuel req req_config resp) /\
     keeps_state_on_error resp (ServiceProjectResource.Read req resp) /\
     keeps_state_on_error resp
       (ServiceProjectResource.Update toProjectConfig fuel req req_config resp) /\
     keeps_state_on_error resp (ServiceProjectResource.Delete fuel req resp)).
Proof.
  split; [|split; [|split; [|split]]].
  - intros req resp. repeat split.
    + unfold ServiceResource.Create. keeps.
    + unfold ServiceResource.Read. keeps.
    + unfold ServiceResource.Delete. keeps.
  - intros marshal req resp. unfold ServiceConfigDataSource.Read. keeps.
  - intros lib req resp. repeat split.
    + unfold ServiceRolloutResource.Create, ServiceRolloutResource.createOrUpdate. keeps.
    + unfold ServiceRolloutResource.Update, ServiceRolloutResource.createOrUpdate. keeps.
    + unfold ServiceRolloutResource.Read. keeps.
  - intros req resp. repeat split.
    + unfold ServiceTenancyUnitResource.Create. keeps.
    + unfold ServiceTenancyUnitResource.Read. keeps.
    + unfold ServiceTenancyUnitResource.Delete. keeps.
  - intros config object toProjectConfig fuel req req_config resp. repeat split.
    + unfold ServiceProjectResource.Create, ServiceProjectResource.storeProject. keeps.
    + unfold ServiceProjectResource.Read. keeps.
    + unfold ServiceProjectResource.Update, ServiceProjectResource.storeProject. keeps.
    + unfold ServiceProjectResource.Delete. keeps.
Qed.

(** ** ServiceConfigResource: submitting, then reading *)

(** X19: a configuration submitted by [ServiceConfigResource.Create]
    (or [Update]) is stored under the identifier built from the
    server's answer, with the planned attributes as they were.  When
    that answer's name and id hold no slash and the server serves the
    two submitted files back, reading the stored model asks for that
    configuration and stores the planned YAML and the standard encoding
    of the decoded descriptor, without a diagnostic: the descriptor is
    unchanged exactly when encoding undoes the decoding of the planned
    text. *)
Theorem ServiceConfigResource_Create_then_Read
    (base64_DecodeString : string -> result string)
    (SubmitConfigSource : string -> list ConfigFile -> result string)
    (SubmitConfigSourceOperation_Wait : string -> result ServiceConfig)
    (w : World)
    (req : Decoded ServiceConfigResource.ServiceConfigResourceModel)
    (resp resp2 : Response ServiceConfigResource.ServiceConfigResourceModel)
    (proto op : string) (config served : ServiceConfig) :
  let data := Get_data req in
  let resp0 := Append resp (Get_diags req) in
  let yaml := types.ValueString (ServiceConfigResource.ConfigYaml data) in
  let files := ServiceConfigSubmit.submitted yaml proto in
  let stored :=
    ServiceConfigResource.mkModel (newConfigId (sc_Name config) (sc_Id config))
      (ServiceConfigResource.ServiceName data) (ServiceConfigResource.ConfigYaml data)
      (ServiceConfigResource.ProtoDescriptorBase64 data) in
  HasError resp0 = false ->
  base64_DecodeString (types.ValueString (ServiceConfigResource.ProtoDescriptorBase64 data))
  = Success proto ->
  SubmitConfigSource (types.ValueString (ServiceConfigResource.ServiceName data)) files
  = Success op ->
  SubmitConfigSourceOperation_Wait op = Success config ->
  GoStrings.Contains (sc_Name config) "/" = false ->
  GoStrings.Contains (sc_Id config) "/" = false ->
  HasError resp2 = false ->
  w _ [] (GetServiceConfig (sc_Name config) (sc_Id config)) = Success served ->
  sc_SourceFiles served = Success <$> files ->
  ServiceConfigSubmit.Create base64_DecodeString SubmitConfigSource
    SubmitConfigSourceOperation_Wait req resp
  = State_Set resp0 stored /\
  ServiceConfigSubmit.Update base64_DecodeString SubmitConfigSource
    SubmitConfigSourceOperation_Wait req resp
  = State_Set resp0 stored /\
  run (ServiceConfigResource.Read (mkDecoded [] stored) resp2) w
  = (Returns (mkResponse (Diagnostics resp2)
                (Some (ServiceConfigResource.mkModel
                         (newConfigId (sc_Name served) (sc_Id served))
                         (types.StringValue (sc_Name served))
                         (types.StringValue yaml)
                         (types.StringValue (base64.EncodeToString proto))))),
     [Called (GetServiceConfig (sc_Name config) (sc_Id config))]).
Proof.
  intros data resp0 yaml files stored Hno Hdecode Hsubmit Hwait Hname Hid Hno2 Hget Hfiles.
  assert (Hcreate : ServiceConfigSubmit.createOrUpdate base64_DecodeString SubmitConfigSource
                      SubmitConfigSourceOperation_Wait req resp = State_Set resp0 stored).
  { unfold ServiceConfigSubmit.createOrUpdate. fold data resp0. rewrite Hno.
    unfold ServiceConfigSubmit.createConfig. fold yaml. rewrite Hdecode.
    fold files. by rewrite Hsubmit, Hwait. }
  split; [exact Hcreate|]. split; [exact Hcreate|].
  unfold ServiceConfigResource.Read. cbn [Get_data Get_diags].
  assert (Happ : Append resp2 [] = mkResponse (Diagnostics resp2) (State resp2)) by done.
  rewrite Happ. unfold HasError in *. cbn [Diagnostics]. rewrite Hno2.
  unfold stored at 1. cbn [ServiceConfigResource.Id newConfigId types.ValueString].
  rewrite (parseConfigId_join _ _ Hname Hid). exec. rewrite Hget, Hfiles.
  reflexivity.
Qed.

Lemma ServiceConfigResource_Create_then_Read_witness :
  ServiceConfigSubmit.Create more_submit.decode more_submit.submit
    (more_submit.wait_for []) (mkDecoded [] more_submit.planned) (examples.fresh None)
  = mkResponse []
      (Some (ServiceConfigResource.mkModel (types.StringValue "svc.example.com/2024r0")
               (types.StringValue "svc.example.com") (types.StringValue "title: one")
               (types.StringValue "aGVsbG8="))) /\
  run (ServiceConfigResource.Read
         (mkDecoded [] (ServiceConfigResource.mkModel
            (types.StringValue "svc.example.com/2024r0")
            (types.StringValue "svc.example.com") (types.StringValue "title: one")
            (types.StringValue "aGVsbG8=")))
         (examples.fresh None))
      (more_configs.serving
         (Success <$> ServiceConfigSubmit.submitted "title: one" "hello"))
  = (Returns (mkResponse []
                (Some (ServiceConfigResource.mkModel
                         (types.StringValue "svc.example.com/2024r0")
                         (types.StringValue "svc.example.com")
                         (types.StringValue "title: one")
                         (types.StringValue "aGVsbG8=")))),
     [Called (GetServiceConfig "svc.example.com" "2024r0")]).
Proof.
  destruct (ServiceConfigResource_Create_then_Read more_submit.decode more_submit.submit
              (more_submit.wait_for [])
              (more_configs.serving
                 (Success <$> ServiceConfigSubmit.submitted "title: one" "hello"))
              (mkDecoded [] more_submit.planned) (examples.fresh None) (examples.fresh None)
              "hello" "operations/serviceConfigs.svc.example.com"
              (mkServiceConfig "svc.example.com" "2024r0" [])
              (mkServiceConfig "svc.example.com" "2024r0"
                 (Success <$> ServiceConfigSubmit.submitted "title: one" "hello"))
              eq_refl eq_refl eq_refl eq_refl eq_refl eq_refl eq_refl eq_refl eq_refl)
    as (Hcreate & _ & Hread).
  split; [exact Hcreate | exact Hread].
Defined.

(** ** The service account of a tenant project *)

Lemma Split_head s : GoStrings.Split s "/" !! 0%nat = Some (up_to_slash s).
Proof.
  induction s as [|a s IH]; [done|]. rewrite Split_cons. cbn [up_to_slash].
  rewrite (Ascii.eqb_sym a "/"). destruct (Ascii.eqb "/" a); [done|].
  destruct (GoStrings.Split s "/") as [|p ps]; [done|]. cbn in IH. injection IH as ->.
  reflexivity.
Qed.

Lemma up_to_slash_all s : GoStrings.Contains s "/" = false -> up_to_slash s = s.
Proof.
  intros H%Contains_slash%Split_no_slash. pose proof (Split_head s) as Hhead.
  rewrite H in Hhead. by injection Hhead.
Qed.

(** X20: [TenantResource.ServiceAccountEmail] returns exactly for the
    resources that start with "projects/": the address is then the tag,
    "@", the text after "projects/" up to the next slash (all of it when
    there is none) and ".iam.gserviceaccount.com".  The bare resource
    "projects" ends in an index-out-of-range panic, every other resource
    in the "unexpected resource type" panic. *)
Theorem ServiceAccountEmail_of_project (strconv_Quote : string -> string)
    (r : TenantResource) :
  let email := TenantResourceEmail.ServiceAccountEmail strconv_Quote r in
  (forall tail, tr_Resource r = "projects/" +:+ tail ->
     email = Returns (tr_Tag r +:+ "@" +:+ up_to_slash tail +:+ ".iam.gserviceaccount.com") /\
     (GoStrings.Contains tail "/" = false -> up_to_slash tail = tail)) /\
  (tr_Resource r = "projects" ->
     email = Panics (TenantResourceEmail.index_out_of_range 1 1)) /\
  ((exists address, email = Returns address) <->
   exists tail, tr_Resource r = "projects/" +:+ tail) /\
  (up_to_slash (tr_Resource r) <> "projects" ->
   email = Panics ("unexpected resource type: " +:+ strconv_Quote (tr_Resource r))).
Proof.
  intros email.
  assert (Hproject : forall tail, tr_Resource r = "projects/" +:+ tail ->
            email = Returns (tr_Tag r +:+ "@" +:+ up_to_slash tail
                             +:+ ".iam.gserviceaccount.com")).
  { intros tail Hres. unfold email, TenantResourceEmail.ServiceAccountEmail. rewrite Hres.
    change ("projects/" +:+ tail) with ("projects" +:+ "/" +:+ tail).
    rewrite (Split_join "projects" tail eq_refl). cbn [lookup list_lookup].
    rewrite bool_decide_eq_true_2 by done. cbn [negb].
    change ((?x :: ?l) !! 1%nat) with (l !! 0%nat). by rewrite Split_head. }
  split; [|split; [|split]].
  - intros tail Hres. split; [by apply Hproject | apply up_to_slash_all].
  - intros Hres. unfold email, TenantResourceEmail.ServiceAccountEmail. by rewrite Hres.
  - split; [|intros [tail Hres]; eexists; by apply Hproject].
    intros [address Hret]. unfold email, TenantResourceEmail.ServiceAccountEmail in Hret.
    pose proof (Split_concat (tr_Resource r)) as Hcat.
    destruct (GoStrings.Split (tr_Resource r) "/") as [|first [|project rest]]; [done| |].
    + cbn in Hret. by destruct (negb _).
    + cbn [lookup list_lookup] in Hret. case_bool_decide as Hfirst; [|done]. subst first.
      exists (String.concat "/" (project :: rest)). by rewrite <- Hcat.
  - intros Hfirst. unfold email, TenantResourceEmail.ServiceAccountEmail.
    rewrite Split_head. by rewrite bool_decide_eq_false_2.
Qed.

Lemma ServiceAccountEmail_of_project_witness :
  TenantResourceEmail.ServiceAccountEmail more_tenants.quote more_tenants.tenant_a
  = Returns "tenant-a@1234567.iam.gserviceaccount.com".
Proof.
  exact (proj1 (proj1 (ServiceAccountEmail_of_project more_tenants.quote more_tenants.tenant_a)
                  "1234567" eq_refl)).
Defined.

(** ** The clients behind the calls *)

Section clients.
Import UtilsProvider.
Context (available : ClientKind -> bool).

Lemma through_ret {A} (a : A) : calls_through available (mret a).
Proof. intros w log. exists []. by rewrite app_nil_r. Qed.

Lemma through_panic {A} msg : calls_through available (panic msg : Exec A).
Proof. intros w log. exists []. by rewrite app_nil_r. Qed.

Lemma through_still_running {A} : calls_through available (still_running : Exec A).
Proof. intros w log. exists []. by rewrite app_nil_r. Qed.

Lemma through_call {R} (c : Call R) :
  (forall kind, client_of (Called c) = Some kind -> available kind = true) ->
  calls_through available (call c).
Proof. intros Hc w log. exists [Called c]. split; [done|]. by constructor. Qed.

Lemma through_bind {A B} (m : Exec A) (k : A -> Exec B) :
  calls_through available m -> (forall a, calls_through available (k a)) ->
  calls_through available (m ≫= k).
Proof.
  intros Hm Hk w log. destruct (Hm w log) as (more & Hlog & Hmore).
  unfold mbind, Exec_bind. destruct (m w log) as [[a|msg|] log1]; cbn in Hlog; subst log1.
  - destruct (Hk a w (log ++ more)) as (more' & -> & Hmore').
    exists (more ++ more'). split; [by rewrite app_assoc | by apply Forall_app].
  - by exists more.
  - by exists more.
Qed.

End clients.

Ltac through :=
  repeat first
    [ apply through_ret
    | apply through_panic
    | apply through_still_running
    | apply through_call; intros ? [= <-]; assumption
    | apply through_call; intros ? [=]
    | apply through_bind; [|intros ?]
    | match goal with
      | |- UtilsProvider.calls_through _ (match ?x with _ => _ end) => destruct x eqn:?
      end ].

Section handlers_clients.
Import UtilsProvider.
Context (available : ClientKind -> bool).

Section service_manager.
Hypothesis Hsm : available ServiceManager = true.

Lemma ServiceResource_through req resp :
  calls_through available (ServiceResource.Create req resp) /\
  calls_through available (ServiceResource.Read req resp) /\
  calls_through available (ServiceResource.Update resp) /\
  calls_through available (ServiceResource.Delete req resp).
Proof.
  repeat split.
  - unfold ServiceResource.Create. through.
  - unfold ServiceResource.Read. through.
  - unfold ServiceResource.Update. through.
  - unfold ServiceResource.Delete. through.
Qed.

Lemma ServiceConfig_through marshal req resp req' resp' :
  calls_through available (ServiceConfigResource.Read req resp) /\
  calls_through available (ServiceConfigDataSource.Read marshal req' resp').
Proof.
  split.
  - unfold ServiceConfigResource.Read. through.
  - unfold ServiceConfigDataSource.Read. through.
Qed.

Lemma ServiceRolloutResource_through {lib : GoLib} req resp :
  calls_through available (ServiceRolloutResource.Create req resp) /\
  calls_through available (ServiceRolloutResource.Update req resp) /\
  calls_through available (ServiceRolloutResource.Read req resp) /\
  calls_through available (ServiceRolloutResource.Delete resp).
Proof.
  assert (Hcreate : calls_through available (ServiceRolloutResource.createOrUpdate req resp)).
  { unfold ServiceRolloutResource.createOrUpdate, ServiceRolloutResource.createRollout.
    through. }
  repeat split; try exact Hcreate.
  - unfold ServiceRolloutResource.Read. through.
  - unfold ServiceRolloutResource.Delete. through.
Qed.

End service_manager.

Section tenant.
Hypothesis Htenant : available Tenant = true.

Lemma getTenancyUnit_through id :
  calls_through available (ServiceTenancyUnitResource.getTenancyUnit id).
Proof. unfold ServiceTenancyUnitResource.getTenancyUnit. through. Qed.

Lemma getTenantProject_through id tag :
  calls_through available (ServiceProjectResource.getTenantProject id tag).
Proof.
  unfold ServiceProjectResource.getTenantProject.
  apply through_bind; [apply getTenancyUnit_through|]. intros ?. through.
Qed.

Lemma awaitDone_through fuel op :
  calls_through available (ServiceProjectResource.awaitDone fuel op).
Proof.
  revert op. induction fuel as [|fuel IH]; intros op; cbn [ServiceProjectResource.awaitDone].
  - through.
  - destruct (op_Done op); [through|].
    apply through_bind; [through|]. intros _.
    apply through_bind; [through|]. intros [op'|err]; [apply IH | through].
Qed.

Lemma ServiceTenancyUnitResource_through req resp :
  calls_through available (ServiceTenancyUnitResource.Create req resp) /\
  calls_through available (ServiceTenancyUnitResource.Read req resp) /\
  calls_through available (ServiceTenancyUnitResource.Delete req resp).
Proof.
  repeat split.
  - unfold ServiceTenancyUnitResource.Create. through.
  - unfold ServiceTenancyUnitResource.Read.
    destruct (HasError _); [through|].
    apply through_bind; [apply getTenancyUnit_through|]. intros ?. through.
  - unfold ServiceTenancyUnitResource.Delete. through.
Qed.

Lemma storeProject_through {object : Type}
    (data : ServiceProjectResource.ServiceProjectResourceModel object) resp :
  calls_through available (ServiceProjectResource.storeProject data resp).
Proof.
  unfold ServiceProjectResource.storeProject.
  apply through_bind; [apply getTenantProject_through|]. intros ?. through.
Qed.

Lemma ServiceProjectResource_through {config object : Type}
    (toProjectConfig : config -> option TenantProjectConfig) fuel
    (req : Decoded (ServiceProjectResource.ServiceProjectResourceModel object))
    req_config resp :
  calls_through available
    (ServiceProjectResource.Create toProjectConfig fuel req req_config resp) /\
  calls_through available (ServiceProjectResource.Read req resp) /\
  calls_through available
    (ServiceProjectResource.Update toProjectConfig fuel req req_config resp) /\
  calls_through available (ServiceProjectResource.Delete fuel req resp).
Proof.
  repeat split.
  - unfold ServiceProjectResource.Create.
    repeat (destruct (HasError _); [through|]).
    apply through_bind; [through|]. intros [op|err]; [|through].
    apply through_bind; [apply awaitDone_through|]. intros [?|?]; [|through].
    apply storeProject_through.
  - unfold ServiceProjectResource.Read.
    destruct (HasError _); [through|].
    apply through_bind; [apply getTenantProject_through|]. intros ?. through.
  - unfold ServiceProjectResource.Update.
    repeat (destruct (HasError _); [through|]).
    apply through_bind; [through|]. intros [op|err]; [|through].
    apply through_bind; [apply awaitDone_through|]. intros [?|?]; [|through].
    apply storeProject_through.
  - unfold ServiceProjectResource.Delete.
    destruct (HasError _); [through|].
    apply through_bind; [through|]. intros [op|err]; [|through].
    apply through_bind; [apply awaitDone_through|]. intros [?|?]; through.
Qed.

End tenant.
End handlers_clients.

(** X21: once a resource or data source has been configured with a
    provider configuration holding all three clients, its [Configure]
    reports nothing, and every call its handlers make, whatever the
    world answers, goes through one client, which the receiver holds:
    the service and rollout resources, the [Read] of the configuration
    resource and the configuration data source call through the
    service-manager client and no other; the tenancy-unit and
    tenant-project resources through the tenant client and no other. *)
Theorem configured_clients_suffice (clients r : UtilsProvider.UtilsProviderConfig)
    (d : UtilsProvider.ServiceConfigDataSource) (diagnostics : diag.Diagnostics) :
  UtilsProvider.complete clients ->
  let data := Some (UtilsProvider.Pointer (Some clients)) in
  (forall r' d' req resp,
     UtilsProvider.ServiceResource_Configure data r diagnostics = Returns (r', d') ->
     d' = diagnostics /\
     served_by (UtilsProvider.holds r') UtilsProvider.ServiceManager
       (ServiceResource.Create req resp) /\
     served_by (UtilsProvider.holds r') UtilsProvider.ServiceManager
       (ServiceResource.Read req resp) /\
     served_by (UtilsProvider.holds r') UtilsProvider.ServiceManager
       (ServiceResource.Update resp) /\
     served_by (UtilsProvider.holds r') UtilsProvider.ServiceManager
       (ServiceResource.Delete req resp)) /\
  (forall r' d' req resp,
     UtilsProvider.ServiceConfigResource_Configure data r diagnostics = Returns (r', d') ->
     d' = diagnostics /\
     served_by (UtilsProvider.holds r') UtilsProvider.ServiceManager
       (ServiceConfigResource.Read req resp)) /\
  (forall d1 d' marshal req resp,
     UtilsProvider.ServiceConfigDataSource_Configure data d diagnostics = Returns (d1, d') ->
     d' = diagnostics /\
     served_by (UtilsProvider.data_source_holds d1) UtilsProvider.ServiceManager
       (ServiceConfigDataSource.Read marshal req resp)) /\
  (forall (lib : GoLib) r' d' req resp,
     UtilsProvider.ServiceRolloutResource_Configure data r diagnostics = Returns (r', d') ->
     d' = diagnostics /\
     served_by (UtilsProvider.holds r') UtilsProvider.ServiceManager
       (ServiceRolloutResource.Create req resp) /\
     served_by (UtilsProvider.holds r') UtilsProvider.ServiceManager
       (ServiceRolloutResource.Update req resp) /\
     served_by (UtilsProvider.holds r') UtilsProvider.ServiceManager
       (ServiceRolloutResource.Read req resp)) /\
  (forall r' d' req resp,
     UtilsProvider.ServiceTenancyUnitResource_Configure data r diagnostics
     = Returns (r', d') ->
     d' = diagnostics /\
     served_by (UtilsProvider.holds r') UtilsProvider.Tenant
       (ServiceTenancyUnitResource.Create req resp) /\
     served_by (UtilsProvider.holds r') UtilsProvider.Tenant
       (ServiceTenancyUnitResource.Read req resp) /\
     served_by (UtilsProvider.holds r') UtilsProvider.Tenant
       (ServiceTenancyUnitResource.Delete req resp)) /\
  (forall (config object : Type) (toProjectConfig : config -> option TenantProjectConfig)
          fuel (req : Decoded (ServiceProjectResource.ServiceProjectResourceModel object))
          req_config resp r' d',
     UtilsProvider.ServiceProjectResource_Configure data r diagnostics = Returns (r', d') ->
     d' = diagnostics /\
     served_by (UtilsProvider.holds r') UtilsProvider.Tenant
       (ServiceProjectResource.Create toProjectConfig fuel req req_config resp) /\
     served_by (UtilsProvider.holds r') UtilsProvider.Tenant
       (ServiceProjectResource.Read req resp) /\
     served_by (UtilsProvider.holds r') UtilsProvider.Tenant
       (ServiceProjectResource.Update toProjectConfig fuel req req_config resp) /\
     served_by (UtilsProvider.holds r') UtilsProvider.Tenant
       (ServiceProjectResource.Delete fuel req resp)).
Proof.
  intros (Hsm & Htenant & Hops) data.
  assert (Htwo : UtilsProvider.holds (UtilsProvider.two_clients clients r)
                   UtilsProvider.ServiceManager = true)
    by by apply bool_decide_eq_true_2.
  assert (Hthree : UtilsProvider.holds (UtilsProvider.three_clients clients r)
                     UtilsProvider.Tenant = true)
    by by apply bool_decide_eq_true_2.
  assert (Hds : UtilsProvider.data_source_holds
                  (UtilsProvider.mkDataSource (UtilsProvider.ServiceManagerClient clients))
                  UtilsProvider.ServiceManager = true)
    by by apply bool_decide_eq_true_2.
  assert (Honly : forall kind, only_client kind kind = true)
    by (intros kind; by apply bool_decide_eq_true_2).
  split; [|split; [|split; [|split; [|split]]]].
  - intros r' d' req resp [= <- <-]. split; [done|].
    destruct (ServiceResource_through _ (Honly UtilsProvider.ServiceManager) req resp)
      as (? & ? & ? & ?).
    by repeat split.
  - intros r' d' req resp [= <- <-]. split; [done|]. split; [done|].
    by apply (ServiceConfig_through _ (Honly UtilsProvider.ServiceManager)
                (fun _ => Failure (errors.New ""))
                req resp (mkDecoded [] (ServiceConfigDataSource.mkModel
                                          types.StringNull types.StringNull))
                (mkResponse [] None)).
  - intros d1 d' marshal req resp [= <- <-]. split; [done|]. split; [done|].
    by apply (ServiceConfig_through _ (Honly UtilsProvider.ServiceManager) marshal
                (mkDecoded [] (ServiceConfigResource.mkModel types.StringNull
                                 types.StringNull types.StringNull types.StringNull))
                (mkResponse [] None) req resp).
  - intros lib r' d' req resp [= <- <-]. split; [done|].
    destruct (ServiceRolloutResource_through _ (Honly UtilsProvider.ServiceManager) req resp)
      as (? & ? & ? & _).
    by repeat split.
  - intros r' d' req resp [= <- <-]. split; [done|].
    destruct (ServiceTenancyUnitResource_through _ (Honly UtilsProvider.Tenant) req resp)
      as (? & ? & ?).
    by repeat split.
  - intros config object toProjectConfig fuel req req_config resp r' d' [= <- <-].
    split; [done|].
    destruct (ServiceProjectResource_through _ (Honly UtilsProvider.Tenant)
                toProjectConfig fuel req req_config resp) as (? & ? & ? & ?).
    by repeat split.
Qed.

Lemma configured_clients_suffice_witness :
  served_by
    (UtilsProvider.holds
       (UtilsProvider.mkConfig (Some (UtilsProvider.Dial [])) None
          (Some (UtilsProvider.Dial []))))
    UtilsProvider.ServiceManager
    (ServiceResource.Create (mkDecoded [] examples.service) (examples.fresh None)).
Proof.
  assert (Hcomplete : UtilsProvider.complete
            (UtilsProvider.mkConfig (Some (UtilsProvider.Dial []))
               (Some (UtilsProvider.Dial [])) (Some (UtilsProvider.Dial [])))).
  { repeat split; by eexists. }
  exact (proj1 (proj2 (proj1 (configured_clients_suffice _ UtilsProvider.nothing
                                (UtilsProvider.mkDataSource None) [] Hcomplete)
                         _ _ (mkDecoded [] examples.service) (examples.fresh None)
                         eq_refl))).
Defined.

(** X22: [UtilsProvider.Configure], once the configuration decoded.
    With an access token set the default credentials play no part.
    Without a token and without default credentials the provider is
    left unconfigured without any diagnostic.  Whenever no error is
    reported and credentials were found, resources and data sources are
    handed the same configuration, whose three clients were created
    with the same options: those end with the token or the credentials
    and start with the quota project exactly when [project_id] is set.
    When an error is reported, the data of the response are left as they
    were. *)
Theorem UtilsProvider_Configure_credentials
    (find : list string -> result UtilsProvider.Credentials)
    (new_err : UtilsProvider.ClientKind -> list UtilsProvider.ClientOption -> option error)
    (req : Decoded UtilsProvider.UtilsProviderModel)
    (resp : UtilsProvider.ConfigureResponse) :
  let data := Get_data req in
  let diagnostics := diag.Append (UtilsProvider.Diagnostics resp) (Get_diags req) in
  let token := UtilsProvider.AccessToken data in
  let project := UtilsProvider.ProjectID data in
  let out := UtilsProvider.Configure find new_err req resp in
  diag.HasError diagnostics = false ->
  (configured token = true ->
   forall find', UtilsProvider.Configure find' new_err req resp = out) /\
  (configured token = false -> (exists err, find UtilsProvider.scopes = Failure err) ->
   out = UtilsProvider.mkConfigureResponse diagnostics
           (UtilsProvider.ResourceData resp) (UtilsProvider.DataSourceData resp)) /\
  (diag.HasError (UtilsProvider.Diagnostics out) = false ->
   configured token = true \/ (exists creds, find UtilsProvider.scopes = Success creds) ->
   exists opts credential,
     out = UtilsProvider.mkConfigureResponse diagnostics
             (Some (UtilsProvider.Pointer (Some
                (UtilsProvider.mkConfig (Some (UtilsProvider.Dial opts))
                   (Some (UtilsProvider.Dial opts)) (Some (UtilsProvider.Dial opts))))))
             (Some (UtilsProvider.Pointer (Some
                (UtilsProvider.mkConfig (Some (UtilsProvider.Dial opts))
                   (Some (UtilsProvider.Dial opts)) (Some (UtilsProvider.Dial opts)))))) /\
     opts = (if configured project
             then [UtilsProvider.WithQuotaProject (types.ValueString project)] else [])
            ++ [credential] /\
     credential = (if configured token
                   then UtilsProvider.WithTokenSource (types.ValueString token)
                   else match find UtilsProvider.scopes with
                        | Success creds => UtilsProvider.WithCredentials creds
                        | Failure _ => credential
                        end) /\
     forall kind, new_err kind opts = None) /\
  (diag.HasError (UtilsProvider.Diagnostics out) = true ->
   UtilsProvider.ResourceData out = UtilsProvider.ResourceData resp /\
   UtilsProvider.DataSourceData out = UtilsProvider.DataSourceData resp).
Proof.
  intros data diagnostics token project out Hno.
  unfold out, UtilsProvider.Configure.
  cbn [UtilsProvider.Diagnostics UtilsProvider.ResourceData UtilsProvider.DataSourceData].
  fold data diagnostics. rewrite Hno. fold token project.
  change (negb (types.IsUnknown token) && negb (types.IsNull token)) with (configured token).
  change (negb (types.IsUnknown project) && negb (types.IsNull project))
    with (configured project).
  split; [|split; [|split]].
  - intros Htoken find'. by rewrite Htoken.
  - intros Htoken [err Hfind]. by rewrite Htoken, Hfind.
  - intros Herr Hfound.
    destruct (configured token) eqn:Htoken.
    + cbn [negb] in *.
      destruct (new_err UtilsProvider.ServiceManager _) as [e|] eqn:E1;
        [cbn [UtilsProvider.Diagnostics] in Herr; by rewrite AddError_HasError in Herr|].
      destruct (new_err UtilsProvider.Tenant _) as [e|] eqn:E2;
        [cbn [UtilsProvider.Diagnostics] in Herr; by rewrite AddError_HasError in Herr|].
      destruct (new_err UtilsProvider.Operations _) as [e|] eqn:E3;
        [cbn [UtilsProvider.Diagnostics] in Herr; by rewrite AddError_HasError in Herr|].
      eexists _, _. split; [reflexivity|]. split; [reflexivity|]. split; [reflexivity|].
      by intros [].
    + destruct Hfound as [?|[creds Hfind]]; [done|]. rewrite Hfind in *. cbn [negb] in *.
      destruct (new_err UtilsProvider.ServiceManager _) as [e|] eqn:E1;
        [cbn [UtilsProvider.Diagnostics] in Herr; by rewrite AddError_HasError in Herr|].
      destruct (new_err UtilsProvider.Tenant _) as [e|] eqn:E2;
        [cbn [UtilsProvider.Diagnostics] in Herr; by rewrite AddError_HasError in Herr|].
      destruct (new_err UtilsProvider.Operations _) as [e|] eqn:E3;
        [cbn [UtilsProvider.Diagnostics] in Herr; by rewrite AddError_HasError in Herr|].
      eexists _, _. split; [reflexivity|]. split; [reflexivity|]. split; [reflexivity|].
      by intros [].
  - intros Herr.
    destruct (if configured token then _ else _) as [opts found].
    destruct found; cbn [negb] in *; [|done].
    destruct (new_err UtilsProvider.ServiceManager _) as [e|]; [done|].
    destruct (new_err UtilsProvider.Tenant _) as [e|]; [done|].
    destruct (new_err UtilsProvider.Operations _) as [e|]; [done|].
    cbn [UtilsProvider.Diagnostics] in Herr. by rewrite Hno in Herr.
Qed.

Lemma UtilsProvider_Configure_credentials_witness :
  UtilsProvider.Configure more_provider.no_credentials more_provider.every_client
    (mkDecoded [] more_provider.bare) more_provider.fresh
  = more_provider.fresh /\
  forall find',
    UtilsProvider.Configure find' more_provider.every_client
      (mkDecoded [] more_provider.with_token) more_provider.fresh
    = UtilsProvider.Configure more_provider.no_credentials more_provider.every_client
        (mkDecoded [] more_provider.with_token) more_provider.fresh.
Proof.
  split.
  - exact (proj1 (proj2 (UtilsProvider_Configure_credentials more_provider.no_credentials
                           more_provider.every_client (mkDecoded [] more_provider.bare)
                           more_provider.fresh eq_refl))
             eq_refl (ex_intro _ _ eq_refl)).
  - exact (proj1 (UtilsProvider_Configure_credentials more_provider.no_credentials
                    more_provider.every_client (mkDecoded [] more_provider.with_token)
                    more_provider.fresh eq_refl) eq_refl).
Defined.

(** ** The checks of the acceptance tests *)

Lemma some_differs_false (val : list test_helpers.any) (values : list string) :
  length val = length values ->
  test_helpers.some_differs val values = false <->
  val = test_helpers.string_value <$> values.
Proof.
  revert values. induction val as [|x val IH]; intros [|s values] Hlen; try done.
  injection Hlen as Hlen. cbn [test_helpers.some_differs fmap list_fmap].
  rewrite orb_false_iff, (IH values Hlen). split.
  - intros [Hx ->]. f_equal. destruct x; try done. cbn in Hx.
    apply negb_false_iff, bool_decide_eq_true in Hx. by subst.
  - intros [= -> ->]. split; [|done]. cbn. by rewrite bool_decide_eq_true_2.
Qed.

(** X23: the checks of test_helpers.go.  [listEquals] accepts exactly
    the list of the expected strings, element by element;
    [listOfGreaterThan] accepts exactly the lists with more than [count]
    elements; [listNotEmpty] accepts what [listOfGreaterThan] accepts
    with count 0.  Every other value, a list or not, is refused with an
    error. *)
Theorem test_checks_accept (values : list string) (count : Z) (x : test_helpers.any) :
  (test_helpers.listEquals_CheckValue values x = None <->
   x = test_helpers.list_value (test_helpers.string_value <$> values)) /\
  (test_helpers.listOfGreaterThan_CheckValue count x = None <->
   exists val, x = test_helpers.list_value val /\ (count < Z.of_nat (length val))%Z) /\
  (test_helpers.listNotEmpty_CheckValue x = None <->
   test_helpers.listOfGreaterThan_CheckValue 0 x = None).
Proof.
  split; [|split].
  - destruct x as [| | | |val|]; try done. cbn [test_helpers.listEquals_CheckValue].
    destruct (Nat.eqb_spec (length val) (length values)) as [Hlen|Hlen]; cbn [negb].
    + pose proof (some_differs_false val values Hlen) as Hsame.
      destruct (test_helpers.some_differs val values); split; try done.
      * intros [= Hval]. by apply Hsame in Hval.
      * intros _. f_equal. by apply Hsame.
    + split; [done|]. intros [= ->]. by rewrite length_fmap in Hlen.
  - destruct x as [| | | |val|]; try (split; [done | by intros (? & ? & ?)]).
    cbn [test_helpers.listOfGreaterThan_CheckValue].
    destruct (Z.leb_spec (Z.of_nat (length val)) count) as [Hle|Hgt].
    + split; [done|]. intros (val' & [= <-] & ?). lia.
    + split; [|done]. intros _. by exists val.
  - destruct x as [| | | |val|]; try done.
    cbn [test_helpers.listNotEmpty_CheckValue test_helpers.listOfGreaterThan_CheckValue].
    destruct val; done.
Qed.

Lemma state_written_only_on_success_witness :
  State (mkResponse
           [diag.NewErrorDiagnostic "Service already exists"
              "Service svc.example.com already exists"]
           (Some examples.service))
  = State (examples.fresh (Some examples.service)).
Proof.
  exact (proj1 (proj1 state_written_only_on_success
                  (mkDecoded [] examples.service) (examples.fresh (Some examples.service)))
           worlds.service_exists [] _ _ eq_refl eq_refl).
Defined.

Lemma test_checks_accept_witness :
  test_helpers.listEquals_CheckValue ["3.5.0"; "3.5.1"]
    (test_helpers.list_value
       [test_helpers.string_value "3.5.0"; test_helpers.string_value "3.5.1"])
  = None.
Proof.
  exact (proj2 (proj1 (test_checks_accept ["3.5.0"; "3.5.1"] 0
                         (test_helpers.list_value
                            [test_helpers.string_value "3.5.0";
                             test_helpers.string_value "3.5.1"])))
           eq_refl).
Defined.
